(** * poketext-gen4: the textbox detector of [legacy-code/main.cpp]

    A shallow embedding of the frame geometry, the white-rectangle sampler,
    the textbox classifier, the change detector, the image writers, the
    history copy and the per-frame body of [decode], followed by the
    properties checked against the specification and by further properties
    of the code.

    Conventions of the embedding:
    - a C [int] is a [Z]; signed overflow is undefined in C++ and is not
      modelled (no wrap-around is written out);
    - a C [double] is an IEEE 754 binary64 value, a [spec_float] computed
      with the operations of [SpecFloat] at precision 53 and [emax] 1024;
    - an [unsigned char *] is a map from byte offsets (relative to the base
      pointer) to bytes; reads outside the allocation are undefined in C++
      and the model simply reads the map;
    - the function-local [static double magnification] and
      [static rectangle_coords part] are initialised on the first call from
      [top_screen]; [decode] passes the same geometry on every call, so the
      model reads them from the argument. *)

From Stdlib Require Import ZArith List Bool Lia String Ascii.
From Stdlib Require Import Strings.Byte.
From Stdlib Require Import Floats.SpecFloat.
Import ListNotations.

Local Open Scope Z_scope.

(** ** C [double] arithmetic (binary64) *)

Definition double : Type := spec_float.

Module Double.

Definition prec : Z := 53.
Definition emax : Z := 1024.

(** A value a C [double] can hold: canonical mantissa and exponent. *)
Definition valid (d : double) : bool := valid_binary prec emax d.

(** [(double) n] for an [int] n. *)
Definition of_int (n : Z) : double := binary_normalize prec emax n 0 false.

Definition mul (a b : double) : double := SFmul prec emax a b.
Definition div (a b : double) : double := SFdiv prec emax a b.
Definition add (a b : double) : double := SFadd prec emax a b.
Definition sub (a b : double) : double := SFsub prec emax a b.

(** [a < b]; [a > b] is [ltb b a].  Any comparison with a NaN is false. *)
Definition ltb (a b : double) : bool := SFltb a b.
Definition leb (a b : double) : bool := SFleb a b.

(** [std::round]: nearest integral value, halfway cases away from zero.
    A finite value with a non-negative exponent is already integral. *)
Definition round (d : double) : double :=
  match d with
  | S754_finite s m (Zneg p) =>
      let q := Z.shiftr (Zpos m) (Zpos p) in
      let r := if Z.testbit (Zpos m) (Zpos p - 1) then q + 1 else q in
      binary_normalize prec emax (cond_Zopp s r) 0 s
  | _ => d
  end.

(** Conversion of a [double] to [int]: truncation toward zero.  For a NaN,
    an infinity or a value outside the range of [int] the conversion is
    undefined in C++; the model returns 0 for NaN and infinities and the
    truncated integer otherwise. *)
Definition to_int (d : double) : Z :=
  match d with
  | S754_finite s m (Zneg p) => cond_Zopp s (Z.shiftr (Zpos m) (Zpos p))
  | S754_finite s m e => cond_Zopp s (Z.shiftl (Zpos m) e)
  | _ => 0
  end.

End Double.

(** ** Data model *)

Record coords : Type := { x : Z; y : Z }.

Record rectangle_coords : Type := {
  top_left : coords;
  x_size : Z;
  y_size : Z;
  magnification : double
}.

(** A brace initialiser without the last member leaves [magnification] at
    its default member initialiser, 0. *)
Definition rect (left top width height : Z) : rectangle_coords :=
  {| top_left := {| x := left; y := top |};
     x_size := width; y_size := height;
     magnification := S754_zero false |}.

(** Pixel memory behind an [unsigned char *]. *)
Definition buffer : Type := Z -> byte.

(** Integer promotion of an [unsigned char]. *)
Definition uc (b : byte) : Z := Z.of_N (Byte.to_N b).

(** ** Geometry resolver: [top_screen_coords]

    [width] and [height] are [dec_ctx->width] and [dec_ctx->height]; the C
    division of [int]s truncates toward zero. *)
Definition top_screen_coords (width height : Z) : rectangle_coords :=
  let left := Z.quot width 4 in
  {| top_left := {| x := left; y := 0 |};
     x_size := width - left;
     y_size := height;
     magnification :=
       Double.div (Double.of_int (width - left)) (Double.of_int 256) |}.

(** ** Region sampler: [white_rectangle] *)

(** The test of line 69 on the pixel whose first byte is at offset [p]. *)
Definition white_pixel (data : buffer) (p : Z) (color_intensity : Z) : bool :=
  (uc (data p) >? color_intensity) &&
  (uc (data (p + 1)) >? color_intensity) &&
  (uc (data (p + 2)) >? color_intensity).

(** The inner loop, [n] iterations left, at byte index [j] of the row that
    starts at offset [pixel]; [cnt] is the pair ([white], [not_white]). *)
Fixpoint white_row (n : nat) (data : buffer) (pixel j : Z)
    (color_intensity : Z) (cnt : Z * Z) : Z * Z :=
  match n with
  | O => cnt
  | S n' =>
      let cnt' :=
        if white_pixel data (pixel + j) color_intensity
        then (fst cnt + 1, snd cnt)
        else (fst cnt, snd cnt + 1) in
      white_row n' data pixel (j + 3) color_intensity cnt'
  end.

(** The outer loop, [n] rows left, at row [i]. *)
Fixpoint white_rows (n : nat) (data : buffer) (wrap : Z)
    (rectangle : rectangle_coords) (i : Z) (color_intensity : Z)
    (cnt : Z * Z) : Z * Z :=
  match n with
  | O => cnt
  | S n' =>
      let pixel := i * wrap + 3 * x (top_left rectangle) in
      let cnt' :=
        white_row (Z.to_nat (x_size rectangle)) data pixel 0
                  color_intensity cnt in
      white_rows n' data wrap rectangle (i + 1) color_intensity cnt'
  end.

(** The counters [white] and [not_white] when both loops have finished. *)
Definition white_counts (data : buffer) (wrap : Z)
    (rectangle : rectangle_coords) (color_intensity : Z) : Z * Z :=
  white_rows (Z.to_nat (y_size rectangle)) data wrap rectangle
             (y (top_left rectangle)) color_intensity (0, 0).

Definition white_rectangle (data : buffer) (wrap : Z)
    (rectangle : rectangle_coords) (non_white_strictness : double)
    (color_intensity : Z) : bool :=
  let '(white, not_white) :=
    white_counts data wrap rectangle color_intensity in
  if Double.ltb (Double.of_int white)
                (Double.mul non_white_strictness (Double.of_int not_white))
  then false
  else true.

(** ** Frame classifier: [textbox]

    The classifier is written in a small writer monad that records, in
    order, every call of the sampler and every line sent to [std::cout], so
    that the short-circuit evaluation of the source can be observed. *)

Inductive event : Type :=
| Sampled (rectangle : rectangle_coords) (non_white_strictness : double)
          (color_intensity : Z)
| Logged (message : string).

Definition Traced (A : Type) : Type := (A * list event)%type.

Definition ret {A : Type} (a : A) : Traced A := (a, []).

Definition bind {A B : Type} (m : Traced A) (k : A -> Traced B) : Traced B :=
  let '(a, t1) := m in
  let '(b, t2) := k a in
  (b, t1 ++ t2).

Notation "v <- m ;; k" := (bind m (fun v => k))
  (at level 61, m at next level, right associativity).

Definition log (message : string) : Traced unit := (tt, [Logged message]).

(** A call of [white_rectangle] made by the classifier. *)
Definition sample (data : buffer) (wrap : Z) (rectangle : rectangle_coords)
    (non_white_strictness : double) (color_intensity : Z) : Traced bool :=
  (white_rectangle data wrap rectangle non_white_strictness color_intensity,
   [Sampled rectangle non_white_strictness color_intensity]).

(** [a && b] of C++: [b] is evaluated only when [a] holds. *)
Definition and_then (a b : Traced bool) : Traced bool :=
  v <- a ;; if v then b else ret false.

(** [std::round(magnification * k)] for an integer literal [k]. *)
Definition scaled (m : double) (k : Z) : double :=
  Double.round (Double.mul m (Double.of_int k)).

(** [static_cast<int>(n + std::round(magnification * k))] for an [int] n. *)
Definition offset (n : Z) (m : double) (k : Z) : Z :=
  Double.to_int (Double.add (Double.of_int n) (scaled m k)).

(** The horizontal strips: they start at reference column 28, are 166
    reference pixels wide, and differ by their row and their height. *)
Definition white_line (top_screen : rectangle_coords) (row height : Z)
    : rectangle_coords :=
  let m := magnification top_screen in
  rect (offset (x (top_left top_screen)) m 28)
       (offset (y (top_left top_screen)) m row)
       (Double.to_int (scaled m 166))
       (Double.to_int (scaled m height)).

Definition bottom_white_line ts := white_line ts 183 1.
Definition mid_white_line ts := white_line ts 168 1.
Definition extra_bottom_white_line ts := white_line ts 182 2.
Definition mid_white_line_2 ts := white_line ts 164 1.
Definition mid_white_line_3 ts := white_line ts 160 1.
Definition mid_white_line_4 ts := white_line ts 156 1.
Definition top_white_line ts := white_line ts 152 1.

Definition left_border (top_screen : rectangle_coords) : rectangle_coords :=
  let m := magnification top_screen in
  rect (x (top_left top_screen))
       (offset (y (top_left top_screen)) m 144)
       (Double.to_int (scaled m 8))
       (Double.to_int (Double.sub (Double.of_int (y_size top_screen))
                                  (scaled m 144))).

Definition right_border (top_screen : rectangle_coords) : rectangle_coords :=
  let m := magnification top_screen in
  rect (Double.to_int
          (Double.sub (Double.of_int (x (top_left top_screen)
                                      + x_size top_screen))
                      (scaled m 8)))
       (offset (y (top_left top_screen)) m 144)
       (Double.to_int (scaled m 8))
       (Double.to_int (Double.sub (Double.of_int (y_size top_screen))
                                  (scaled m 144))).

(** The integer literals 1 and 50 passed for [non_white_strictness]. *)
Definition tol_1 : double := Double.of_int 1.
Definition tol_50 : double := Double.of_int 50.

Definition textbox_trace (data : buffer) (wrap : Z)
    (top_screen : rectangle_coords) : Traced Z :=
  let sm r := sample data wrap r tol_50 225 in
  b <- sample data wrap (bottom_white_line top_screen) tol_1 235 ;;
  if negb b then ret 0 else
  l <- sample data wrap (left_border top_screen) tol_1 235 ;;
  if l then ret 0 else
  r <- sample data wrap (right_border top_screen) tol_1 235 ;;
  if r then ret 0 else
  mid <- sm (mid_white_line top_screen) ;;
  if negb mid then
    a <- and_then (sm (extra_bottom_white_line top_screen))
                  (sm (mid_white_line_2 top_screen)) ;;
    if a then ret 2 else
    b <- and_then (sm (extra_bottom_white_line top_screen))
                  (sm (mid_white_line_3 top_screen)) ;;
    if b then ret 3 else
    c <- and_then (sm (extra_bottom_white_line top_screen))
                  (sm (mid_white_line_4 top_screen)) ;;
    if c then ret 4 else
    d <- and_then (v <- sm (mid_white_line_2 top_screen) ;; ret (negb v))
           (and_then (v <- sm (mid_white_line_3 top_screen) ;; ret (negb v))
                     (v <- sm (mid_white_line_4 top_screen) ;; ret (negb v))) ;;
    if d then
      t <- sm (top_white_line top_screen) ;;
      if t then ret 5 else ret 0
    else
      _ <- log "MID NO, SOMETHING STRANGE" ;; ret 0
  else
    t <- sm (top_white_line top_screen) ;;
    if t then ret 1
    else _ <- log "MID YES, NO TOP" ;; ret 0.

Definition textbox (data : buffer) (wrap : Z) (top_screen : rectangle_coords)
    : Z :=
  fst (textbox_trace data wrap top_screen).

(** The classification codes, as the specification names them. *)
Definition NONE : Z := 0.
Definition OPEN : Z := 1.
Definition SCROLL_A : Z := 2.
Definition SCROLL_B : Z := 3.
Definition SCROLL_C : Z := 4.
Definition LARGE_TEXT : Z := 5.

(** ** The textbox content rectangle and the second-line rectangle

    [part] of [compare_textboxes], [save_textbox] and [copy_data], the
    rectangle of [empty_textbox], and [part] of [save_second_line]. *)
Definition textbox_part (top_screen : rectangle_coords) : rectangle_coords :=
  let m := magnification top_screen in
  rect (offset (x (top_left top_screen)) m 13)
       (offset (y (top_left top_screen)) m 152)
       (Double.to_int (scaled m 220))
       (Double.to_int (scaled m 33)).

Definition second_line_part (top_screen : rectangle_coords)
    : rectangle_coords :=
  let m := magnification top_screen in
  rect (offset (x (top_left top_screen)) m 13)
       (offset (y (top_left top_screen)) m 168)
       (Double.to_int (scaled m 220))
       (Double.to_int (scaled m 17)).

(** ** Emptiness test: [empty_textbox] *)
Definition empty_textbox (data : buffer) (wrap : Z)
    (top_screen : rectangle_coords) : bool :=
  white_rectangle data wrap (textbox_part top_screen) (Double.of_int 40) 235.

(** ** Change detector: [compare_textboxes] *)

(** [r], [g] and [b] of lines 175-182 for the byte at offset [p]. *)
Definition channel_diff (data_old data_new : buffer) (p : Z) : Z :=
  if uc (data_old p) >? uc (data_new p)
  then uc (data_old p) - uc (data_new p)
  else uc (data_new p) - uc (data_old p).

(** The test of line 184 on the pixel whose first byte is at offset [p]. *)
Definition changed_pixel (data_old data_new : buffer) (p : Z) : bool :=
  (channel_diff data_old data_new p >? 50) ||
  (channel_diff data_old data_new (p + 1) >? 50) ||
  (channel_diff data_old data_new (p + 2) >? 50).

Fixpoint compare_row (n : nat) (data_old data_new : buffer) (pixel j : Z)
    (changed_pixels : Z) : Z :=
  match n with
  | O => changed_pixels
  | S n' =>
      compare_row n' data_old data_new pixel (j + 3)
        (if changed_pixel data_old data_new (pixel + j)
         then changed_pixels + 1 else changed_pixels)
  end.

Fixpoint compare_rows (n : nat) (data_old data_new : buffer) (wrap : Z)
    (part : rectangle_coords) (i : Z) (changed_pixels : Z) : Z :=
  match n with
  | O => changed_pixels
  | S n' =>
      let pixel := i * wrap + 3 * x (top_left part) in
      compare_rows n' data_old data_new wrap part (i + 1)
        (compare_row (Z.to_nat (x_size part)) data_old data_new pixel 0
                     changed_pixels)
  end.

(** [changed_pixels] when both loops have finished. *)
Definition changed_count (data_old data_new : buffer) (wrap : Z)
    (part : rectangle_coords) : Z :=
  compare_rows (Z.to_nat (y_size part)) data_old data_new wrap part
               (y (top_left part)) 0.

Definition compare_textboxes (data_old data_new : buffer) (wrap : Z)
    (top_screen : rectangle_coords) : bool :=
  let m := magnification top_screen in
  let changed_pixels :=
    changed_count data_old data_new wrap (textbox_part top_screen) in
  if Double.ltb (Double.mul (Double.mul (Double.of_int 300) m) m)
                (Double.of_int changed_pixels)
  then true
  else false.

(** ** Captured images: [save_textbox] and [save_second_line]

    The file written is a binary PPM: the header carries the width, the
    height and the maximal value 255, and is followed by the rows. *)
Record ppm : Type := {
  ppm_width : Z;
  ppm_height : Z;
  ppm_maxval : Z;
  ppm_bytes : list byte
}.

(** [fwrite(pixel, 1, n, file)]. *)
Definition fwrite (data : buffer) (pixel : Z) (n : nat) : list byte :=
  map (fun k => data (pixel + Z.of_nat k)) (seq 0 n).

Fixpoint save_rows (n : nat) (data : buffer) (wrap : Z)
    (part : rectangle_coords) (i : Z) (written : list byte) : list byte :=
  match n with
  | O => written
  | S n' =>
      let pixel := i * wrap + 3 * x (top_left part) in
      save_rows n' data wrap part (i + 1)
        (written ++ fwrite data pixel (Z.to_nat (3 * x_size part)))
  end.

Definition save_part (data : buffer) (wrap : Z) (part : rectangle_coords)
    : ppm :=
  {| ppm_width := x_size part;
     ppm_height := y_size part;
     ppm_maxval := 255;
     ppm_bytes := save_rows (Z.to_nat (y_size part)) data wrap part
                            (y (top_left part)) [] |}.

Definition save_textbox (data : buffer) (wrap : Z)
    (top_screen : rectangle_coords) : ppm :=
  save_part data wrap (textbox_part top_screen).

Definition save_second_line (data : buffer) (wrap : Z)
    (top_screen : rectangle_coords) : ppm :=
  save_part data wrap (second_line_part top_screen).

(** ** Whole-frame writer: [save]

    [save] writes [y_size] rows of [3 * x_size] bytes, row [i] from offset
    [i * wrap] of [data].  No function of the program calls it. *)
Fixpoint save_frame_rows (n : nat) (data : buffer) (wrap x_size : Z) (i : Z)
    (written : list byte) : list byte :=
  match n with
  | O => written
  | S n' =>
      save_frame_rows n' data wrap x_size (i + 1)
        (written ++ fwrite data (i * wrap) (Z.to_nat (3 * x_size)))
  end.

Definition save (data : buffer) (wrap x_size y_size : Z) : ppm :=
  {| ppm_width := x_size;
     ppm_height := y_size;
     ppm_maxval := 255;
     ppm_bytes := save_frame_rows (Z.to_nat y_size) data wrap x_size 0 [] |}.

(** ** Frame history buffer: [copy_data] *)

(** [old_pixel[j] = v]. *)
Definition store (old_data : buffer) (p : Z) (v : byte) : buffer :=
  fun a => if a =? p then v else old_data a.

Fixpoint copy_row (n : nat) (old_data data : buffer) (pixel j : Z) : buffer :=
  match n with
  | O => old_data
  | S n' =>
      let b0 := store old_data (pixel + j) (data (pixel + j)) in
      let b1 := store b0 (pixel + (j + 1)) (data (pixel + (j + 1))) in
      let b2 := store b1 (pixel + (j + 2)) (data (pixel + (j + 2))) in
      copy_row n' b2 data pixel (j + 3)
  end.

Fixpoint copy_rows (n : nat) (old_data data : buffer) (wrap : Z)
    (part : rectangle_coords) (i : Z) : buffer :=
  match n with
  | O => old_data
  | S n' =>
      let pixel := i * wrap + 3 * x (top_left part) in
      copy_rows n' (copy_row (Z.to_nat (x_size part)) old_data data pixel 0)
                data wrap part (i + 1)
  end.

Definition copy_data (old_data data : buffer) (wrap : Z)
    (top_screen : rectangle_coords) : buffer :=
  let part := textbox_part top_screen in
  copy_rows (Z.to_nat (y_size part)) old_data data wrap part
            (y (top_left part)).

(** ** Extraction state machine: the per-frame body of [decode] *)

(** Which of the two save functions produced a captured image. *)
Inductive region : Type := whole_textbox | second_line.

(** A capture request: an image saved to the frame file and handed to the
    text recogniser by [read_text]. *)
Record capture : Type := {
  captured_region : region;
  captured_image : ppm
}.

(** The state that [decode] keeps between frames: its [static] locals, the
    pixel memory of [old_frame], the text written to the output file, and
    the capture requests issued so far (oldest first). *)
Record decoder : Type := {
  old_textbox : Z;
  insta_textbox : bool;
  only_second_line : bool;
  old_frame : buffer;
  file : string;
  captures : list capture
}.

Definition set_insta_textbox (st : decoder) (v : bool) : decoder :=
  {| old_textbox := old_textbox st; insta_textbox := v;
     only_second_line := only_second_line st; old_frame := old_frame st;
     file := file st; captures := captures st |}.

Definition set_only_second_line (st : decoder) (v : bool) : decoder :=
  {| old_textbox := old_textbox st; insta_textbox := insta_textbox st;
     only_second_line := v; old_frame := old_frame st;
     file := file st; captures := captures st |}.

Definition write_file (st : decoder) (text : string) : decoder :=
  {| old_textbox := old_textbox st; insta_textbox := insta_textbox st;
     only_second_line := only_second_line st; old_frame := old_frame st;
     file := (file st ++ text)%string; captures := captures st |}.

Definition request (st : decoder) (r : region) (image : ppm) : decoder :=
  {| old_textbox := old_textbox st; insta_textbox := insta_textbox st;
     only_second_line := only_second_line st; old_frame := old_frame st;
     file := file st;
     captures := captures st
                 ++ [{| captured_region := r; captured_image := image |}] |}.

(** The end of a frame, lines 468-469. *)
Definition end_of_frame (st : decoder) (data : buffer) (wrap : Z)
    (top_screen : rectangle_coords) (new_textbox : Z) : decoder :=
  {| old_textbox := new_textbox; insta_textbox := insta_textbox st;
     only_second_line := only_second_line st;
     old_frame := copy_data (old_frame st) data wrap top_screen;
     file := file st; captures := captures st |}.

(** [std::endl]. *)
Definition endl : string := String (ascii_of_nat 10) EmptyString.

Definition is_open (code : Z) : bool := (code =? 1) || (code =? 5).
Definition is_scroll (code : Z) : bool :=
  (code =? 2) || (code =? 3) || (code =? 4).

Section Decode.

(** The text recogniser applied to the frame file, [read_text]. *)
Variable read_text : ppm -> string.

(** Lines 393-400 and 441-446: capture the textbox of the current frame
    and update [insta_textbox] from it. *)
Definition capture_current (st : decoder) (data : buffer) (wrap : Z)
    (top_screen : rectangle_coords) : decoder :=
  let image := save_textbox data wrap top_screen in
  let text := read_text image in
  let st := request st whole_textbox image in
  if empty_textbox data wrap top_screen
  then set_insta_textbox st false
  else if (3 <? Z.of_nat (String.length text))
       then set_insta_textbox st true
       else st.

(** Lines 407-421 and 425-439: capture the previous frame, the whole
    textbox or its second line, and write the text and a line break. *)
Definition capture_previous (st : decoder) (wrap : Z)
    (top_screen : rectangle_coords) : decoder :=
  if negb (only_second_line st)
  then
    let image := save_textbox (old_frame st) wrap top_screen in
    write_file (request st whole_textbox image) (read_text image ++ endl)
  else
    let image := save_second_line (old_frame st) wrap top_screen in
    set_only_second_line
      (write_file (request st second_line image) (read_text image ++ endl))
      false.

(** Lines 454-457: capture the previous frame when a scroll begins. *)
Definition capture_before_scroll (st : decoder) (wrap : Z)
    (top_screen : rectangle_coords) : decoder :=
  let image := save_textbox (old_frame st) wrap top_screen in
  write_file (request st whole_textbox image) (read_text image).

(** Lines 388-463 for the classification [new_textbox] of the frame. *)
Definition transition (st : decoder) (data : buffer) (wrap : Z)
    (top_screen : rectangle_coords) (new_textbox : Z) : decoder :=
  if old_textbox st =? 0 then
    if is_open new_textbox
    then capture_current st data wrap top_screen
    else st
  else if is_open (old_textbox st) then
    let st1 :=
      if (new_textbox =? 0) && negb (insta_textbox st)
      then capture_previous st wrap top_screen
      else st in
    let st2 :=
      if is_open new_textbox
         && compare_textboxes (old_frame st1) data wrap top_screen
         && negb (insta_textbox st1)
      then capture_current (capture_previous st1 wrap top_screen)
                           data wrap top_screen
      else st1 in
    let st3 :=
      if is_open new_textbox
         && compare_textboxes (old_frame st2) data wrap top_screen
         && insta_textbox st2
      then set_insta_textbox st2 false
      else st2 in
    if is_scroll new_textbox && negb (insta_textbox st3)
    then capture_before_scroll st3 wrap top_screen
    else st3
  else if is_scroll (old_textbox st) then
    set_only_second_line st true
  else st.

(** One iteration of the loop of [decode], for the converted frame
    [data] with row stride [wrap]. *)
Definition decode_frame (st : decoder) (data : buffer) (wrap : Z)
    (top_screen : rectangle_coords) : decoder :=
  let new_textbox := textbox data wrap top_screen in
  let st := transition st data wrap top_screen new_textbox in
  let st := if new_textbox =? 0 then set_insta_textbox st false else st in
  end_of_frame st data wrap top_screen new_textbox.

(** [decode] over the frames the decoder hands back, for a stream of the
    given dimensions. *)
Definition decode (width height : Z) (wrap : Z) (frames : list buffer)
    (st : decoder) : decoder :=
  fold_left
    (fun st data => decode_frame st data wrap (top_screen_coords width height))
    frames st.

End Decode.

(** The state before the first frame: the [static] locals are
    zero-initialised and nothing has been written. *)
Definition initial (history : buffer) : decoder :=
  {| old_textbox := 0; insta_textbox := false; only_second_line := false;
     old_frame := history; file := EmptyString; captures := [] |}.

(** * Notions used to state the properties *)

(** ** The pixels of a rectangle

    The offsets of the first byte of every pixel of a rectangle, row by
    row, as the specification describes the region: rows [y .. y + y_size),
    columns [x .. x + x_size), three bytes per pixel. *)

Definition row_offsets (pixel j : Z) (n : nat) : list Z :=
  map (fun k => pixel + (j + 3 * Z.of_nat k)) (seq 0 n).

Definition pixel_offsets (wrap : Z) (r : rectangle_coords) : list Z :=
  flat_map
    (fun i => row_offsets ((y (top_left r) + Z.of_nat i) * wrap
                           + 3 * x (top_left r)) 0 (Z.to_nat (x_size r)))
    (seq 0 (Z.to_nat (y_size r))).

(** How many elements of a list satisfy a test. *)
Definition count (f : Z -> bool) (l : list Z) : Z :=
  Z.of_nat (List.length (filter f l)).

(** A pixel is white when all three channels strictly exceed the
    threshold. *)
Definition is_white (data : buffer) (c : Z) (p : Z) : Prop :=
  c < uc (data p) /\ c < uc (data (p + 1)) /\ c < uc (data (p + 2)).

(** A pixel has changed when some channel differs by more than 50. *)
Definition differs (data_old data_new : buffer) (p : Z) : bool :=
  (50 <? Z.abs (uc (data_old p) - uc (data_new p)))
  || (50 <? Z.abs (uc (data_old (p + 1)) - uc (data_new (p + 1))))
  || (50 <? Z.abs (uc (data_old (p + 2)) - uc (data_new (p + 2)))).

(** The bytes of row [i] of a rectangle. *)
Definition in_row (wrap : Z) (r : rectangle_coords) (i a : Z) : Prop :=
  i * wrap + 3 * x (top_left r) <= a
  < i * wrap + 3 * x (top_left r) + 3 * x_size r.

(** The bytes of a rectangle. *)
Definition in_rectangle (wrap : Z) (r : rectangle_coords) (a : Z) : Prop :=
  exists i,
    y (top_left r) <= i < y (top_left r) + y_size r /\ in_row wrap r i a.

(** ** The outcome of a call of the geometry resolver *)

(** What a call of the resolver can do: hand back a Geometry, or stop with
    a precondition violation. *)
Inductive outcome (A : Type) : Type :=
| returned (a : A)
| precondition_violation.

Arguments returned {A} a.
Arguments precondition_violation {A}.

(** [top_screen_coords] has no check and no failing path: every call
    returns. *)
Definition run_top_screen_coords (width height : Z)
    : outcome rectangle_coords :=
  returned (top_screen_coords width height).

(** ** Frames, geometries and recognisers used as concrete inputs *)

Definition black : buffer := fun _ => x00.
Definition white : buffer := fun _ => xff.

(** A 341x192 stream: the region is 256 pixels wide, the scale is 1. *)
Definition small_screen : rectangle_coords := top_screen_coords 341 192.

(** The row stride of a 341 pixel wide RGB frame without padding. *)
Definition small_wrap : Z := 1023.

(** A frame of the small stream showing the first frame of a scroll: the
    strip columns are white on reference rows 164, 182 and 183, and
    everything else is black. *)
Definition scrolling : buffer :=
  fun a =>
    let row := a / small_wrap in
    let col := (a mod small_wrap) / 3 in
    if (113 <=? col) && (col <? 279)
       && ((row =? 164) || (row =? 182) || (row =? 183))
    then xff else x00.

(** A frame of the small stream with an open, still empty textbox: the
    textbox content rectangle is white, everything else is black. *)
Definition opened : buffer :=
  fun a =>
    let row := a / small_wrap in
    let col := (a mod small_wrap) / 3 in
    if (98 <=? col) && (col <? 318) && (152 <=? row) && (row <? 185)
    then xff else x00.

(** A frame of the small stream with an open textbox full of text: only
    the strips between and around the two lines are white. *)
Definition typed : buffer :=
  fun a =>
    let row := a / small_wrap in
    let col := (a mod small_wrap) / 3 in
    if (113 <=? col) && (col <? 279)
       && ((row =? 152) || (row =? 168) || (row =? 183))
    then xff else x00.

(** A frame whose bytes are all 235, a frame whose bytes are all 236. *)
Definition at_threshold : buffer := fun _ => xeb.
Definition above_threshold : buffer := fun _ => xec.

(** A row of ten pixels, the first nine white and the last one black. *)
Definition nine_of_ten : buffer := fun a => if a <? 27 then xff else x00.

(** A frame of the small stream that is black but for the first [n] pixels,
    row by row, of the 220 by 33 rectangle at column 98 and row 152, which
    are white. *)
Definition first_pixels (n : Z) : buffer :=
  fun a =>
    let row := a / small_wrap in
    let col := (a mod small_wrap) / 3 in
    if (152 <=? row) && (row <? 185) && (98 <=? col) && (col <? 318)
       && ((row - 152) * 220 + (col - 98) <? n)
    then xff else x00.

(** Two recognisers: one that reads nothing, one that reads five
    characters. *)
Definition no_text : ppm -> string := fun _ => EmptyString.
Definition hello : ppm -> string := fun _ => "Hello"%string.

(** ** Rounding in binary64

    The notions in which the result of [binary_round_aux] is described. *)

(** The exponent function of binary64. *)
Definition fexp := (SpecFloat.fexp Double.prec Double.emax).
Definition bra := (binary_round_aux Double.prec Double.emax).

Definition loc_spec (rho P : Z) : location :=
  if rho =? 0 then loc_Exact else loc_Inexact (2 * rho ?= P).

Definition rne (m s : Z) : Z :=
  round_nearest_even (m / 2 ^ s) (loc_spec (m mod 2 ^ s) (2 ^ s)).

Definition finish (sx : bool) (m2 e1 : Z) : double :=
  if m2 =? 0 then S754_zero sx
  else if m2 =? 2 ^ 53
       then if e1 + 1 <=? 971
            then S754_finite sx (2 ^ 52)%positive (e1 + 1)
            else S754_infinity sx
       else if e1 <=? 971
            then S754_finite sx (Z.to_pos m2) e1
            else S754_infinity sx.

(** Zero, a positive finite value or the positive infinity. *)
Definition nonneg (d : double) : Prop :=
  match d with
  | S754_zero _ | S754_finite false _ _ | S754_infinity false => True
  | _ => False
  end.

Definition nonneg_or_nan (d : double) : Prop :=
  match d with
  | S754_zero _ | S754_finite false _ _ | S754_infinity false | S754_nan => True
  | _ => False
  end.

(** A finite tolerance that is not negative. *)
Definition finite_nonneg (t : double) : bool :=
  match t with
  | S754_zero _ | S754_finite false _ _ => true
  | _ => false
  end.

(** ** Frames that agree on a rectangle, and the bytes of an image *)

(** Two buffers that hold the same bytes in a rectangle. *)
Definition agree_on (wrap : Z) (r : rectangle_coords) (d1 d2 : buffer)
    : Prop :=
  forall a, in_rectangle wrap r a -> d1 a = d2 a.

(** The pointer [data + n]. *)
Definition advance (data : buffer) (n : Z) : buffer := fun a => data (n + a).

(** The offsets of the bytes of a rectangle, row by row, three per pixel. *)
Definition byte_offsets (wrap : Z) (r : rectangle_coords) : list Z :=
  flat_map (fun p => [p; p + 1; p + 2]) (pixel_offsets wrap r).

(** The nine rectangles the classifier can sample. *)
Definition textbox_strips (ts : rectangle_coords) : list rectangle_coords :=
  [bottom_white_line ts; left_border ts; right_border ts; mid_white_line ts;
   extra_bottom_white_line ts; mid_white_line_2 ts; mid_white_line_3 ts;
   mid_white_line_4 ts; top_white_line ts].

(** A black frame whose first pixel is white. *)
Definition corner : buffer := fun a => if a <? 3 then xff else x00.

(** ** What a frame makes the state machine save and write *)

(** The image of the previous frame that lines 407-421 and 425-439 save:
    the second line when [only_second_line] is set, the whole textbox
    otherwise. *)
Definition previous_capture (st : decoder) (wrap : Z) (ts : rectangle_coords)
    : capture :=
  if only_second_line st
  then {| captured_region := second_line;
          captured_image := save_second_line (old_frame st) wrap ts |}
  else {| captured_region := whole_textbox;
          captured_image := save_textbox (old_frame st) wrap ts |}.

(** The image of the whole textbox of a frame. *)
Definition current_capture (data : buffer) (wrap : Z) (ts : rectangle_coords)
    : capture :=
  {| captured_region := whole_textbox;
     captured_image := save_textbox data wrap ts |}.

(** Whether a frame classified [new_textbox] makes the state machine save
    an image, [changed] being the verdict of the change detector on the
    history and the frame. *)
Definition captures_on (st : decoder) (new_textbox : Z) (changed : bool)
    : bool :=
  if old_textbox st =? 0 then is_open new_textbox
  else is_open (old_textbox st) && negb (insta_textbox st)
       && ((new_textbox =? 0) || is_scroll new_textbox
           || (is_open new_textbox && changed)).

(** The images a frame makes the state machine save, oldest first. *)
Definition frame_captures (st : decoder) (data : buffer) (wrap : Z)
    (ts : rectangle_coords) : list capture :=
  let new_textbox := textbox data wrap ts in
  if old_textbox st =? 0 then
    if is_open new_textbox then [current_capture data wrap ts] else []
  else if is_open (old_textbox st) && negb (insta_textbox st) then
    if new_textbox =? 0 then [previous_capture st wrap ts]
    else if is_open new_textbox then
      if compare_textboxes (old_frame st) data wrap ts
      then [previous_capture st wrap ts; current_capture data wrap ts]
      else []
    else if is_scroll new_textbox
         then [current_capture (old_frame st) wrap ts]
         else []
  else [].

(** The text a frame makes the state machine write. *)
Definition frame_text (read_text : ppm -> string) (st : decoder)
    (data : buffer) (wrap : Z) (ts : rectangle_coords) : string :=
  let new_textbox := textbox data wrap ts in
  let previous :=
    (read_text (captured_image (previous_capture st wrap ts)) ++ endl)%string
  in
  if is_open (old_textbox st) && negb (insta_textbox st) then
    if new_textbox =? 0 then previous
    else if is_open new_textbox then
      if compare_textboxes (old_frame st) data wrap ts
      then previous else EmptyString
    else if is_scroll new_textbox
         then read_text (save_textbox (old_frame st) wrap ts)
         else EmptyString
  else EmptyString.

(** The states in which the previous code is one of the six codes and
    [insta_textbox] is set only while a textbox is on screen. *)
Definition consistent (st : decoder) : Prop :=
  0 <= old_textbox st <= 5
  /\ (old_textbox st = NONE -> insta_textbox st = false).

(** A state whose previous frame was classified OPEN, after the text
    "Hello" has been written. *)
Definition open_state (insta second : bool) (history : buffer) : decoder :=
  {| old_textbox := OPEN; insta_textbox := insta;
     only_second_line := second; old_frame := history;
     file := "Hello"; captures := [] |}.

(** * Properties *)

(** ** Counting the pixels of a rectangle *)

Lemma count_nil f : count f [] = 0.
Proof. reflexivity. Qed.

Lemma count_cons f a l :
  count f (a :: l) = (if f a then 1 else 0) + count f l.
Proof.
  unfold count. cbn [filter]. destruct (f a); cbn [List.length]; lia.
Qed.

Lemma count_app f l1 l2 : count f (l1 ++ l2) = count f l1 + count f l2.
Proof.
  unfold count. rewrite filter_app, length_app. lia.
Qed.

Lemma count_ext f g l :
  (forall a, In a l -> f a = g a) -> count f l = count g l.
Proof.
  induction l as [|a l IH]; intros H; [reflexivity|].
  rewrite !count_cons, (H a (or_introl eq_refl)), IH; [reflexivity|].
  intros b Hb. apply H. now right.
Qed.

Lemma count_none f l : (forall a, In a l -> f a = false) -> count f l = 0.
Proof.
  induction l as [|a l IH]; intros H; [reflexivity|].
  rewrite count_cons, (H a (or_introl eq_refl)), IH; [reflexivity|].
  intros b Hb. apply H. now right.
Qed.

Lemma count_negb f l :
  count (fun a => negb (f a)) l = Z.of_nat (List.length l) - count f l.
Proof.
  induction l as [|a l IH]; [reflexivity|].
  rewrite !count_cons, IH. cbn [List.length]. destruct (f a); cbn [negb]; lia.
Qed.

Lemma count_nonneg f l : 0 <= count f l.
Proof. unfold count. lia. Qed.

Lemma row_offsets_S pixel j n :
  row_offsets pixel j (S n) = (pixel + j) :: row_offsets pixel (j + 3) n.
Proof.
  unfold row_offsets. cbn [seq map]. f_equal; [lia|].
  rewrite <- seq_shift, map_map. apply map_ext. intros k. lia.
Qed.

(** Membership in [pixel_offsets], by row and column. *)
Lemma in_pixel_offsets wrap r p :
  In p (pixel_offsets wrap r) <->
  exists i k,
    y (top_left r) <= i < y (top_left r) + y_size r /\
    0 <= k < x_size r /\
    p = i * wrap + 3 * x (top_left r) + 3 * k.
Proof.
  unfold pixel_offsets, row_offsets. rewrite in_flat_map. split.
  - intros (i & Hi & Hp). apply in_map_iff in Hp as (k & <- & Hk).
    apply in_seq in Hi, Hk.
    exists (y (top_left r) + Z.of_nat i), (Z.of_nat k). lia.
  - intros (i & k & Hi & Hk & ->).
    exists (Z.to_nat (i - y (top_left r))). split.
    + apply in_seq. lia.
    + apply in_map_iff. exists (Z.to_nat k). split.
      * rewrite !Z2Nat.id by lia.
        replace (y (top_left r) + (i - y (top_left r))) with i by lia. lia.
      * apply in_seq. lia.
Qed.

Lemma length_pixel_offsets wrap r :
  Z.of_nat (List.length (pixel_offsets wrap r))
  = Z.max 0 (x_size r) * Z.max 0 (y_size r).
Proof.
  unfold pixel_offsets.
  assert (H : forall n i0,
    List.length
      (flat_map
         (fun i => row_offsets ((y (top_left r) + Z.of_nat i) * wrap
                                + 3 * x (top_left r)) 0 (Z.to_nat (x_size r)))
         (seq i0 n)) = (n * Z.to_nat (x_size r))%nat).
  { induction n as [|n IH]; intros i0; [reflexivity|].
    simpl. rewrite length_app, IH. unfold row_offsets.
    rewrite length_map, length_seq. lia. }
  rewrite H. lia.
Qed.

Lemma pixel_offsets_empty wrap r :
  x_size r = 0 \/ y_size r = 0 -> pixel_offsets wrap r = [].
Proof.
  unfold pixel_offsets. intros [H|H]; rewrite H; cbn [Z.to_nat seq flat_map].
  - induction (seq 0 (Z.to_nat (y_size r))); [reflexivity|assumption].
  - reflexivity.
Qed.

(** ** The loops of the sampler count the pixels of the rectangle *)

Lemma white_row_count n data pixel j c cnt :
  white_row n data pixel j c cnt
  = (fst cnt + count (fun p => white_pixel data p c) (row_offsets pixel j n),
     snd cnt
     + count (fun p => negb (white_pixel data p c)) (row_offsets pixel j n)).
Proof.
  revert j cnt. induction n as [|n IH]; intros j [w nw].
  - cbn. f_equal; lia.
  - cbn [white_row]. rewrite IH, row_offsets_S, !count_cons.
    destruct (white_pixel data (pixel + j) c); cbn [fst snd negb];
      f_equal; lia.
Qed.

Lemma white_rows_count n data wrap r i c cnt :
  let rows :=
    flat_map (fun k => row_offsets ((i + Z.of_nat k) * wrap
                                    + 3 * x (top_left r)) 0
                                   (Z.to_nat (x_size r)))
             (seq 0 n) in
  white_rows n data wrap r i c cnt
  = (fst cnt + count (fun p => white_pixel data p c) rows,
     snd cnt + count (fun p => negb (white_pixel data p c)) rows).
Proof.
  revert i cnt. induction n as [|n IH]; intros i [w nw].
  - cbn. f_equal; lia.
  - cbn [white_rows]. rewrite IH, white_row_count. cbn [fst snd seq flat_map].
    rewrite !count_app.
    replace (flat_map _ (seq 1 n))
      with (flat_map
              (fun k => row_offsets ((i + 1 + Z.of_nat k) * wrap
                                     + 3 * x (top_left r)) 0
                                    (Z.to_nat (x_size r))) (seq 0 n)).
    + replace (i + Z.of_nat 0) with i by lia. f_equal; lia.
    + rewrite <- (seq_shift n 0), !flat_map_concat_map, map_map.
      f_equal. apply map_ext. intros k. do 2 f_equal. lia.
Qed.

(** The counters are the numbers of white and of not-white pixels. *)
Lemma white_counts_spec data wrap r c :
  white_counts data wrap r c
  = (count (fun p => white_pixel data p c) (pixel_offsets wrap r),
     count (fun p => negb (white_pixel data p c)) (pixel_offsets wrap r)).
Proof.
  unfold white_counts. rewrite white_rows_count. reflexivity.
Qed.

Lemma white_pixel_spec data p c :
  white_pixel data p c = true <-> is_white data c p.
Proof.
  unfold white_pixel, is_white. rewrite !andb_true_iff, !Z.gtb_lt. tauto.
Qed.

Lemma white_pixel_false data p c :
  white_pixel data p c = false <-> ~ is_white data c p.
Proof.
  rewrite <- white_pixel_spec. destruct (white_pixel data p c); split;
    congruence.
Qed.

(** ** Rounding of binary64 products

    What [binary_round_aux] computes on an exact positive value, and why
    the rounded product is monotone in each operand. *)

Lemma iter_pos_iter {A} (f : A -> A) p x : iter_pos f p x = Pos.iter f x p.
Proof.
  revert x. induction p as [p IH|p IH|]; intros x; cbn [iter_pos Pos.iter].
  - now rewrite !IH, <- !Pos.iter_swap.
  - now rewrite !IH.
  - reflexivity.
Qed.

Lemma shr_1_spec m r s :
  0 <= m ->
  shr_1 {| shr_m := m; shr_r := r; shr_s := s |}
  = {| shr_m := m / 2; shr_r := Z.odd m; shr_s := r || s |}.
Proof.
  intros Hm. rewrite <- Z.div2_div.
  destruct m as [|[p|p|]|p]; try reflexivity. lia.
Qed.

(** One more shift keeps the quotient and the location in step. *)
Lemma shr_1_step M k mrs :
  0 <= M -> 0 <= k ->
  shr_m mrs = M / 2 ^ k ->
  loc_of_shr_record mrs = loc_spec (M mod 2 ^ k) (2 ^ k) ->
  shr_m (shr_1 mrs) = M / 2 ^ (k + 1)
  /\ loc_of_shr_record (shr_1 mrs)
     = loc_spec (M mod 2 ^ (k + 1)) (2 ^ (k + 1)).
Proof.
  intros HM Hk Hm Hl. destruct mrs as [m r s]. cbn [shr_m] in Hm.
  assert (Hp : 0 < 2 ^ k) by (apply Z.pow_pos_nonneg; lia).
  assert (H0 : 0 <= m) by (subst m; apply Z.div_pos; lia).
  rewrite shr_1_spec by assumption. cbn [shr_m].
  rewrite Z.pow_add_r, Z.pow_1_r by lia.
  split.
  - subst m. rewrite Z.div_div by lia. reflexivity.
  - rewrite Z.rem_mul_r by lia. rewrite <- Hm.
    pose proof (Z.mod_pos_bound M (2 ^ k) Hp) as Hrho.
    pose proof (Z.mod_pos_bound m 2 eq_refl) as Hbit.
    assert (Hodd : Z.odd m = (m mod 2 =? 1)).
    { rewrite Zmod_odd. destruct (Z.odd m); reflexivity. }
    rewrite Hodd. unfold loc_spec in *.
    destruct (Z.eqb_spec (M mod 2 ^ k) 0) as [E|E].
    + rewrite E in *. destruct r, s; try discriminate Hl.
      cbn [orb loc_of_shr_record].
      destruct (Z.eqb_spec (m mod 2) 1) as [E1|E1].
      * rewrite E1. destruct (Z.eqb_spec (0 + 2 ^ k * 1) 0); [lia|].
        f_equal. symmetry. apply Z.compare_eq_iff. lia.
      * assert (m mod 2 = 0) as -> by lia.
        destruct (Z.eqb_spec (0 + 2 ^ k * 0) 0); [reflexivity|lia].
    + assert (r || s = true) as ->.
      { destruct r, s; try reflexivity. discriminate Hl. }
      destruct (Z.eqb_spec (m mod 2) 1) as [E1|E1].
      * rewrite E1. cbn [loc_of_shr_record].
        destruct (Z.eqb_spec (M mod 2 ^ k + 2 ^ k * 1) 0); [lia|].
        f_equal. symmetry. apply Z.compare_gt_iff. lia.
      * assert (m mod 2 = 0) as -> by lia. cbn [loc_of_shr_record].
        destruct (Z.eqb_spec (M mod 2 ^ k + 2 ^ k * 0) 0); [lia|].
        f_equal. symmetry. apply Z.compare_lt_iff. lia.
Qed.

Lemma iter_shr_1 M p :
  0 <= M ->
  let mrs :=
    iter_pos shr_1 p {| shr_m := M; shr_r := false; shr_s := false |} in
  shr_m mrs = M / 2 ^ Z.pos p
  /\ loc_of_shr_record mrs = loc_spec (M mod 2 ^ Z.pos p) (2 ^ Z.pos p).
Proof.
  intros HM. cbv zeta. rewrite iter_pos_iter.
  set (start := {| shr_m := M; shr_r := false; shr_s := false |}).
  assert (H0 : shr_m start = M / 2 ^ 0
               /\ loc_of_shr_record start = loc_spec (M mod 2 ^ 0) (2 ^ 0)).
  { cbn. rewrite Z.div_1_r, Z.mod_1_r. split; reflexivity. }
  induction p as [|p IH] using Pos.peano_ind.
  - cbn [Pos.iter]. destruct H0 as [H1 H2].
    apply (shr_1_step M 0 _ HM (Z.le_refl 0) H1 H2).
  - rewrite Pos.iter_succ, Pos2Z.inj_succ. destruct IH as [H1 H2].
    apply (shr_1_step M (Z.pos p) _ HM); [lia|assumption|assumption].
Qed.

Lemma shr_spec m e n :
  0 <= m -> 0 <= n ->
  exists mrs,
    shr {| shr_m := m; shr_r := false; shr_s := false |} e n = (mrs, e + n)
    /\ shr_m mrs = m / 2 ^ n
    /\ loc_of_shr_record mrs = loc_spec (m mod 2 ^ n) (2 ^ n).
Proof.
  intros Hm Hn. destruct n as [|p|p]; [| |lia].
  - eexists. split; [cbn; rewrite Z.add_0_r; reflexivity|].
    cbn. rewrite Z.div_1_r, Z.mod_1_r. split; reflexivity.
  - eexists. split; [reflexivity|]. apply iter_shr_1, Hm.
Qed.

Lemma shr_none mrs e n : n <= 0 -> shr mrs e n = (mrs, e).
Proof. destruct n; try reflexivity. lia. Qed.

(** The number of binary digits. *)
Lemma digits2_pos_size p : digits2_pos p = Pos.size p.
Proof. induction p; cbn; congruence. Qed.

Lemma Zdigits2_bounds m :
  0 < m -> 2 ^ (Zdigits2 m - 1) <= m < 2 ^ Zdigits2 m.
Proof.
  intros Hm. destruct m as [|p|p]; try lia. cbn [Zdigits2].
  rewrite digits2_pos_size.
  pose proof (Pos.size_gt p) as Hgt. pose proof (Pos.size_le p) as Hle.
  assert (E : Z.pos (2 ^ Pos.size p) = 2 ^ Z.pos (Pos.size p))
    by (rewrite Pos2Z.inj_pow; reflexivity).
  split.
  - assert (2 ^ Z.pos (Pos.size p) = 2 * 2 ^ (Z.pos (Pos.size p) - 1)).
    { rewrite <- Z.pow_succ_r by lia. f_equal. lia. }
    lia.
  - lia.
Qed.

Lemma Zdigits2_unique m d :
  2 ^ (d - 1) <= m < 2 ^ d -> 0 < m -> Zdigits2 m = d.
Proof.
  intros [H1 H2] Hm. pose proof (Zdigits2_bounds m Hm) as [H3 H4].
  assert (0 < Zdigits2 m) by (destruct m; try lia; reflexivity).
  assert (0 < d).
  { destruct (Z.ltb_spec 0 d); [assumption|].
    exfalso. destruct (Z.eq_dec d 0) as [->|].
    - cbn in H2. lia.
    - rewrite Z.pow_neg_r in H2 by lia. lia. }
  assert (d - 1 < Zdigits2 m).
  { apply (Z.pow_lt_mono_r_iff 2); lia. }
  assert (Zdigits2 m - 1 < d).
  { apply (Z.pow_lt_mono_r_iff 2); lia. }
  lia.
Qed.

Lemma Zdigits2_le m k : 0 < m -> 0 <= k -> m < 2 ^ k -> Zdigits2 m <= k.
Proof.
  intros Hm Hk H. pose proof (Zdigits2_bounds m Hm) as [H1 _].
  assert (Zdigits2 m - 1 < k); [|lia].
  apply (Z.pow_lt_mono_r_iff 2); lia.
Qed.

Lemma Zdigits2_pos m : 0 < m -> 0 < Zdigits2 m.
Proof. destruct m; try lia; reflexivity. Qed.

Lemma Zdigits2_mono m n : 0 < m -> m <= n -> Zdigits2 m <= Zdigits2 n.
Proof.
  intros Hm Hn. apply Zdigits2_le; [assumption| |].
  - pose proof (Zdigits2_pos n). lia.
  - pose proof (Zdigits2_bounds n). lia.
Qed.

Lemma Zdigits2_shift m k :
  0 < m -> 0 <= k -> Zdigits2 (m * 2 ^ k) = Zdigits2 m + k.
Proof.
  intros Hm Hk. pose proof (Zdigits2_bounds m Hm) as [H1 H2].
  pose proof (Zdigits2_pos m Hm).
  assert (0 < 2 ^ k) by (apply Z.pow_pos_nonneg; lia).
  apply Zdigits2_unique; [|nia].
  replace (Zdigits2 m + k - 1) with (Zdigits2 m - 1 + k) by lia.
  rewrite !Z.pow_add_r by lia. nia.
Qed.

Lemma Zdigits2_mul m n :
  0 < m -> 0 < n -> Zdigits2 m + Zdigits2 n - 1 <= Zdigits2 (m * n).
Proof.
  intros Hm Hn.
  pose proof (Zdigits2_bounds m Hm) as [H1 _].
  pose proof (Zdigits2_bounds n Hn) as [H2 _].
  pose proof (Zdigits2_bounds (m * n)) as [_ H3]; [nia|].
  pose proof (Zdigits2_pos m Hm). pose proof (Zdigits2_pos n Hn).
  assert (2 ^ (Zdigits2 m - 1 + (Zdigits2 n - 1)) <= m * n).
  { rewrite Z.pow_add_r by lia.
    apply Z.mul_le_mono_nonneg; try assumption; apply Z.pow_nonneg; lia. }
  assert (Zdigits2 m - 1 + (Zdigits2 n - 1) < Zdigits2 (m * n)); [|lia].
  apply (Z.pow_lt_mono_r_iff 2); try lia.
  pose proof (Zdigits2_pos (m * n)). nia.
Qed.

Lemma fexp_eq k : fexp k = Z.max (k - 53) (-1074).
Proof. reflexivity. Qed.

(** Linear arithmetic once the exponent function is unfolded. *)
Ltac fexp_lia :=
  unfold fexp, SpecFloat.fexp, emin, Double.prec, Double.emax in *; lia.

(** *** The rounded mantissa *)

Lemma rne_bracket m s :
  0 <= m -> 0 <= s -> m / 2 ^ s <= rne m s <= m / 2 ^ s + 1.
Proof.
  intros _ _. unfold rne, round_nearest_even, loc_spec.
  destruct (_ =? 0); [lia|].
  destruct (_ ?= _); [destruct (Z.even _)| |]; lia.
Qed.

Lemma rne_mono m m' s :
  0 <= m <= m' -> 0 <= s -> rne m s <= rne m' s.
Proof.
  intros Hm Hs.
  assert (Hp : 0 < 2 ^ s) by (apply Z.pow_pos_nonneg; lia).
  pose proof (Z.div_le_mono m m' (2 ^ s) Hp (proj2 Hm)) as Hq.
  destruct (Z.eq_dec (m / 2 ^ s) (m' / 2 ^ s)) as [E|E].
  - assert (Hr : m mod 2 ^ s <= m' mod 2 ^ s).
    { rewrite !Z.mod_eq by lia. rewrite E. lia. }
    pose proof (Z.mod_pos_bound m (2 ^ s) Hp).
    pose proof (Z.mod_pos_bound m' (2 ^ s) Hp).
    unfold rne, round_nearest_even, loc_spec. rewrite E.
    destruct (Z.eqb_spec (m mod 2 ^ s) 0), (Z.eqb_spec (m' mod 2 ^ s) 0);
      try lia;
      repeat match goal with
             | |- context [?a ?= ?b] => destruct (Z.compare_spec a b)
             | |- context [Z.even ?a] => destruct (Z.even a)
             end; lia.
  - pose proof (rne_bracket m s (proj1 Hm) Hs).
    pose proof (rne_bracket m' s). lia.
Qed.

Lemma rne_shift m s k :
  0 <= m -> 0 <= s -> 0 <= k -> rne (m * 2 ^ k) (s + k) = rne m s.
Proof.
  intros Hm Hs Hk.
  assert (Hp : 0 < 2 ^ s) by (apply Z.pow_pos_nonneg; lia).
  assert (Hpk : 0 < 2 ^ k) by (apply Z.pow_pos_nonneg; lia).
  unfold rne. rewrite Z.pow_add_r by lia.
  rewrite Z.div_mul_cancel_r by lia.
  rewrite Z.mul_mod_distr_r by lia.
  f_equal. unfold loc_spec.
  destruct (Z.eqb_spec (m mod 2 ^ s) 0) as [E|E].
  - rewrite E. reflexivity.
  - destruct (Z.eqb_spec (m mod 2 ^ s * 2 ^ k) 0) as [E'|E']; [nia|].
    f_equal.
    destruct (Z.compare_spec (2 * (m mod 2 ^ s)) (2 ^ s));
      [apply Z.compare_eq_iff|apply Z.compare_lt_iff|apply Z.compare_gt_iff];
      nia.
Qed.

Lemma rne_0 m : rne m 0 = m.
Proof.
  unfold rne. rewrite Z.pow_0_r, Z.div_1_r, Z.mod_1_r. reflexivity.
Qed.

Lemma rne_upper m s :
  0 < m -> 0 <= s -> Zdigits2 m <= 53 + s -> 0 <= rne m s <= 2 ^ 53.
Proof.
  intros Hm Hs Hd.
  assert (Hp : 0 < 2 ^ s) by (apply Z.pow_pos_nonneg; lia).
  pose proof (rne_bracket m s (Z.lt_le_incl _ _ Hm) Hs).
  pose proof (Z.div_pos m (2 ^ s)).
  assert (m / 2 ^ s < 2 ^ 53); [|lia].
  apply Z.div_lt_upper_bound; [assumption|].
  rewrite <- Z.pow_add_r by lia.
  pose proof (Zdigits2_bounds m Hm) as [_ H2].
  eapply Z.lt_le_trans; [exact H2|].
  apply Z.pow_le_mono_r; lia.
Qed.

Lemma rne_lower m s :
  0 < m -> 0 <= s -> Zdigits2 m = 53 + s -> 2 ^ 52 <= rne m s.
Proof.
  intros Hm Hs Hd.
  assert (Hp : 0 < 2 ^ s) by (apply Z.pow_pos_nonneg; lia).
  pose proof (rne_bracket m s (Z.lt_le_incl _ _ Hm) Hs).
  assert (2 ^ 52 <= m / 2 ^ s); [|lia].
  apply Z.div_le_lower_bound; [assumption|].
  rewrite <- Z.pow_add_r by lia.
  pose proof (Zdigits2_bounds m Hm) as [H1 _].
  replace (s + 52) with (Zdigits2 m - 1) by lia. exact H1.
Qed.

(** *** What [binary_round_aux] computes *)

Lemma bra_spec sx m e :
  0 < m ->
  0 <= fexp (Zdigits2 m + e) - e ->
  bra sx m e loc_Exact
  = finish sx (rne m (fexp (Zdigits2 m + e) - e)) (fexp (Zdigits2 m + e)).
Proof.
  intros Hm Hs. set (s := fexp (Zdigits2 m + e) - e) in *.
  assert (He1 : fexp (Zdigits2 m + e) = e + s) by (unfold s; lia).
  assert (Hmin : -1074 <= e + s) by (rewrite <- He1, fexp_eq; lia).
  assert (Hd : Zdigits2 m <= 53 + s) by (unfold s; rewrite fexp_eq; lia).
  rewrite He1.
  unfold bra, binary_round_aux, shr_fexp. fold fexp. fold s.
  cbn [shr_record_of_loc].
  destruct (shr_spec m e s) as (mrs & Hshr & Hm1 & Hl1); [lia|lia|].
  rewrite Hshr, Hm1, Hl1. fold (rne m s).
  pose proof (rne_upper m s Hm Hs Hd) as Hm2.
  set (m2 := rne m s) in *. unfold finish.
  destruct (Z.eqb_spec m2 0) as [E0|E0].
  - rewrite E0. rewrite shr_none; [reflexivity|].
    cbn [Zdigits2]. rewrite fexp_eq. lia.
  - destruct (Z.eqb_spec m2 (2 ^ 53)) as [E1|E1].
    + rewrite E1.
      replace (fexp (Zdigits2 (2 ^ 53) + (e + s)) - (e + s)) with 1
        by (rewrite fexp_eq; change (Zdigits2 (2 ^ 53)) with 54; lia).
      reflexivity.
    + assert (Hd2 : Zdigits2 m2 <= 53) by (apply Zdigits2_le; lia).
      rewrite shr_none by (rewrite fexp_eq; lia).
      cbn [shr_m]. destruct m2 as [|p|p]; try lia. reflexivity.
Qed.

(** Shifting the mantissa left and lowering the exponent by as much does
    not change the rounded result. *)
Lemma bra_align sx m e k :
  0 < m -> 0 <= k ->
  0 <= fexp (Zdigits2 m + e) - e ->
  bra sx (m * 2 ^ k) (e - k) loc_Exact = bra sx m e loc_Exact.
Proof.
  intros Hm Hk Hs.
  assert (Hpk : 0 < 2 ^ k) by (apply Z.pow_pos_nonneg; lia).
  assert (Hd : Zdigits2 (m * 2 ^ k) + (e - k) = Zdigits2 m + e)
    by (rewrite Zdigits2_shift by lia; lia).
  rewrite !bra_spec; try nia; rewrite Hd; try lia.
  replace (fexp (Zdigits2 m + e) - (e - k))
    with (fexp (Zdigits2 m + e) - e + k) by lia.
  rewrite rne_shift by lia. reflexivity.
Qed.

(** The order of two finished roundings of non-negative values. *)
Lemma finish_le m2 e1 m2' e1' :
  0 <= m2 <= 2 ^ 53 -> 0 <= m2' <= 2 ^ 53 ->
  (e1 = e1' /\ m2 <= m2') \/ (e1 < e1' /\ 2 ^ 52 <= m2') ->
  SFleb (finish false m2 e1) (finish false m2' e1') = true.
Proof.
  intros H1 H2 H. unfold finish.
  destruct (Z.eqb_spec m2 0) as [Z1|Z1].
  { destruct (Z.eqb_spec m2' 0); [reflexivity|].
    destruct (Z.eqb_spec m2' (2 ^ 53)); destruct (_ <=? 971); reflexivity. }
  destruct (Z.eqb_spec m2' 0) as [Z2|Z2]; [lia|].
  assert (Hcmp : forall a b ea eb, 0 < a -> 0 < b ->
             ea < eb \/ (ea = eb /\ a <= b) ->
             SFleb (S754_finite false (Z.to_pos a) ea)
                   (S754_finite false (Z.to_pos b) eb) = true).
  { intros a b ea eb Ha Hb Hab. unfold SFleb, SFcompare.
    destruct (Z.compare_spec ea eb); [|reflexivity|lia].
    rewrite Pos.compare_cont_spec. cbn [Pos.switch_Eq].
    rewrite <- Z2Pos.inj_compare by assumption.
    destruct (Z.compare_spec a b); try reflexivity. lia. }
  change (2 ^ 52)%positive with (Z.to_pos (2 ^ 52)).
  destruct (Z.eqb_spec m2 (2 ^ 53)) as [P1|P1],
           (Z.eqb_spec m2' (2 ^ 53)) as [P2|P2];
    repeat match goal with
           | |- context [?a <=? 971] => destruct (Z.leb_spec a 971)
           end;
    try reflexivity; try lia; apply Hcmp; lia.
Qed.

(** Rounding is monotone: on two positive mantissas with the same exponent. *)
Lemma bra_mono m m' e :
  0 < m <= m' ->
  0 <= fexp (Zdigits2 m + e) - e ->
  SFleb (bra false m e loc_Exact) (bra false m' e loc_Exact) = true.
Proof.
  intros Hm Hs.
  pose proof (Zdigits2_mono m m' (proj1 Hm) (proj2 Hm)) as Hd.
  assert (He : fexp (Zdigits2 m + e) <= fexp (Zdigits2 m' + e))
    by (rewrite !fexp_eq; lia).
  rewrite !bra_spec by lia.
  apply finish_le.
  - apply rne_upper; [lia|lia|rewrite fexp_eq; lia].
  - apply rne_upper; [lia|lia|rewrite fexp_eq; lia].
  - destruct (Z.eq_dec (fexp (Zdigits2 m + e)) (fexp (Zdigits2 m' + e)))
      as [E|E].
    + left. split; [exact E|]. rewrite E. apply rne_mono; lia.
    + right. split; [lia|].
      apply rne_lower; [lia|lia|].
      fexp_lia.
Qed.

(** The result of a rounding carries the sign it was given, or is a NaN. *)
Lemma binary_round_aux_sign s m e l :
  match binary_round_aux Double.prec Double.emax s m e l with
  | S754_zero s' | S754_infinity s' | S754_finite s' _ _ => s' = s
  | S754_nan => True
  end.
Proof.
  unfold binary_round_aux.
  destruct (shr_fexp _ _ m e l) as [mrs' e'].
  destruct (shr_fexp _ _ _ e' loc_Exact) as [mrs'' e''].
  destruct (shr_m mrs''); [reflexivity| |exact I].
  destruct (e'' <=? _); reflexivity.
Qed.

Lemma bra_nonneg m e l : nonneg_or_nan (bra false m e l).
Proof.
  unfold bra, binary_round_aux.
  destruct (shr_fexp _ _ m e l) as [mrs' e'].
  destruct (shr_fexp _ _ _ e' loc_Exact) as [mrs'' e''].
  destruct (shr_m mrs''); [exact I| |exact I].
  destruct (e'' <=? _); exact I.
Qed.

Lemma bra_negative m e l :
  match bra true m e l with
  | S754_zero _ | S754_finite true _ _ | S754_infinity true | S754_nan => True
  | _ => False
  end.
Proof.
  unfold bra, binary_round_aux.
  destruct (shr_fexp _ _ m e l) as [mrs' e'].
  destruct (shr_fexp _ _ _ e' loc_Exact) as [mrs'' e''].
  destruct (shr_m mrs''); [exact I| |exact I].
  destruct (e'' <=? _); exact I.
Qed.

Lemma shr_m_nonneg m e n :
  0 <= m ->
  0 <= shr_m (fst (shr {| shr_m := m; shr_r := false; shr_s := false |} e n)).
Proof.
  intros Hm. destruct (Z.le_gt_cases n 0) as [Hn|Hn].
  - rewrite shr_none by exact Hn. exact Hm.
  - destruct (shr_spec m e n Hm) as (mrs & E & Hq & _); [lia|].
    rewrite E. cbn [fst]. rewrite Hq.
    apply Z.div_pos; [exact Hm|]. apply Z.pow_pos_nonneg; lia.
Qed.

Lemma round_nearest_even_ge m l : m <= round_nearest_even m l.
Proof.
  unfold round_nearest_even.
  destruct l as [|[| |]]; try lia. destruct (Z.even m); lia.
Qed.

Lemma bra_not_nan s m e : 0 < m -> bra s m e loc_Exact <> S754_nan.
Proof.
  intros Hm. unfold bra, binary_round_aux, shr_fexp.
  cbn [shr_record_of_loc].
  pose proof (shr_m_nonneg m e (fexp (Zdigits2 m + e) - e)
                (Z.lt_le_incl _ _ Hm)) as H1.
  fold fexp.
  destruct (shr _ e _) as [mrs' e']. cbn [fst] in H1.
  pose proof (round_nearest_even_ge (shr_m mrs') (loc_of_shr_record mrs'))
    as H2.
  set (m2 := round_nearest_even _ _) in *.
  pose proof (shr_m_nonneg m2 e' (fexp (Zdigits2 m2 + e') - e')) as H3.
  destruct (shr _ e' _) as [mrs'' e'']. cbn [fst] in H3.
  destruct (shr_m mrs'') as [|p|p]; [discriminate| |lia].
  destruct (e'' <=? _); discriminate.
Qed.

(** *** Valid operands *)

Lemma valid_finite s m e :
  Double.valid (S754_finite s m e) = true ->
  fexp (Zdigits2 (Z.pos m) + e) = e /\ e <= 971.
Proof.
  unfold Double.valid, valid_binary, bounded, canonical_mantissa.
  rewrite andb_true_iff, Z.eqb_eq, Z.leb_le. intros [H1 H2].
  split; [exact H1|exact H2].
Qed.

(** The exact product of two valid operands is never shifted left by the
    rounding. *)
Lemma mul_no_left_shift mx ex my ey :
  fexp (Zdigits2 (Z.pos mx) + ex) = ex ->
  fexp (Zdigits2 (Z.pos my) + ey) = ey ->
  0 <= fexp (Zdigits2 (Z.pos mx * Z.pos my) + (ex + ey)) - (ex + ey).
Proof.
  intros Hx Hy.
  pose proof (Zdigits2_mul (Z.pos mx) (Z.pos my) eq_refl eq_refl).
  pose proof (Zdigits2_pos (Z.pos mx) eq_refl).
  pose proof (Zdigits2_pos (Z.pos my) eq_refl).
  fexp_lia.
Qed.

(** The order of two valid positive operands, on their mantissas. *)
Lemma valid_lt_mantissa mx ex mx' ex' :
  fexp (Zdigits2 (Z.pos mx) + ex) = ex ->
  fexp (Zdigits2 (Z.pos mx') + ex') = ex' ->
  SFltb (S754_finite false mx ex) (S754_finite false mx' ex') = true ->
  ex <= ex' /\ Z.pos mx <= Z.pos mx' * 2 ^ (ex' - ex).
Proof.
  intros Hx Hx'. unfold SFltb, SFcompare.
  destruct (Z.compare_spec ex ex') as [E|E|E]; try discriminate.
  - rewrite Pos.compare_cont_spec. cbn [Pos.switch_Eq].
    destruct (Pos.compare_spec mx mx'); try discriminate.
    intros _. subst ex'. rewrite Z.sub_diag. cbn. lia.
  - intros _. split; [lia|].
    pose proof (Zdigits2_bounds (Z.pos mx) eq_refl) as [_ H1].
    pose proof (Zdigits2_bounds (Z.pos mx') eq_refl) as [H2 _].
    assert (Hd : Zdigits2 (Z.pos mx) <= 53)
      by (fexp_lia).
    assert (Hd' : Zdigits2 (Z.pos mx') = 53)
      by (fexp_lia).
    rewrite Hd' in H2.
    assert (Z.pos mx < 2 ^ 53).
    { eapply Z.lt_le_trans; [exact H1|]. apply Z.pow_le_mono_r; lia. }
    assert (2 ^ 1 <= 2 ^ (ex' - ex)) by (apply Z.pow_le_mono_r; lia).
    change (2 ^ (53 - 1)) with (2 ^ 52) in H2.
    change (2 ^ 1) with 2 in *. change (2 ^ 53) with (2 * 2 ^ 52) in *. nia.
Qed.

(** Multiplication by a positive operand is monotone in the other one. *)
Lemma mul_mono mx ex mx' ex' my ey :
  Double.valid (S754_finite false mx ex) = true ->
  Double.valid (S754_finite false mx' ex') = true ->
  Double.valid (S754_finite false my ey) = true ->
  SFltb (S754_finite false mx ex) (S754_finite false mx' ex') = true ->
  SFleb (Double.mul (S754_finite false mx ex) (S754_finite false my ey))
        (Double.mul (S754_finite false mx' ex') (S754_finite false my ey))
  = true.
Proof.
  intros Vx Vx' Vy Hlt. unfold Double.mul.
  apply valid_finite in Vx as [Cx _], Vx' as [Cx' _], Vy as [Cy _].
  destruct (valid_lt_mantissa _ _ _ _ Cx Cx' Hlt) as [He Hm].
  cbn [SFmul xorb]. rewrite !Pos2Z.inj_mul. fold bra.
  pose proof (mul_no_left_shift _ _ _ _ Cx Cy) as Sx.
  pose proof (mul_no_left_shift _ _ _ _ Cx' Cy) as Sx'.
  rewrite <- (bra_align false (Z.pos mx' * Z.pos my) (ex' + ey) (ex' - ex))
    by lia.
  replace (ex' + ey - (ex' - ex)) with (ex + ey) by lia.
  apply bra_mono; [|exact Sx].
  split; [lia|]. nia.
Qed.

(** *** Conversion of an integer *)

Lemma pos_iter_xO p q : Z.pos (Pos.iter xO p q) = Z.pos p * 2 ^ Z.pos q.
Proof.
  induction q as [|q IH] using Pos.peano_ind.
  - cbn [Pos.iter]. rewrite Z.pow_1_r. lia.
  - rewrite Pos.iter_succ, Pos2Z.inj_succ, Z.pow_succ_r by lia.
    rewrite Pos2Z.inj_xO, IH. lia.
Qed.

Lemma finish_normal s m2 e1 :
  2 ^ 52 <= m2 <= 2 ^ 53 -> -1074 <= e1 ->
  finish s m2 e1 = S754_infinity s
  \/ exists m e, finish s m2 e1 = S754_finite s m e
                 /\ Double.valid (S754_finite s m e) = true.
Proof.
  intros Hm He. unfold finish.
  destruct (Z.eqb_spec m2 0); [lia|].
  assert (Hv : forall m e, Zdigits2 (Z.pos m) = 53 -> -1074 <= e -> e <= 971 ->
                 Double.valid (S754_finite s m e) = true).
  { intros m e Hd H1 H2.
    unfold Double.valid, valid_binary, bounded, canonical_mantissa.
    change (Z.pos (digits2_pos m)) with (Zdigits2 (Z.pos m)). rewrite Hd.
    apply andb_true_iff. split; [apply Z.eqb_eq|apply Z.leb_le; exact H2].
    unfold SpecFloat.fexp, emin, Double.prec, Double.emax. lia. }
  destruct (Z.eqb_spec m2 (2 ^ 53)).
  - destruct (Z.leb_spec (e1 + 1) 971); [right|left; reflexivity].
    eexists _, _. split; [reflexivity|]. apply Hv; [reflexivity|lia|lia].
  - destruct (Z.leb_spec e1 971); [right|left; reflexivity].
    eexists _, _. split; [reflexivity|]. apply Hv; [|lia|lia].
    rewrite Z2Pos.id by lia. apply Zdigits2_unique; lia.
Qed.

Lemma of_int_pos p :
  Double.of_int (Z.pos p) = S754_infinity false
  \/ exists m e, Double.of_int (Z.pos p) = S754_finite false m e
                 /\ Double.valid (S754_finite false m e) = true.
Proof.
  unfold Double.of_int, binary_normalize, binary_round, shl_align.
  change (Z.pos (digits2_pos p)) with (Zdigits2 (Z.pos p)).
  fold fexp. fold bra.
  pose proof (Zdigits2_pos (Z.pos p) eq_refl) as Hd.
  destruct (fexp (Zdigits2 (Z.pos p) + 0) - 0) as [|q|q] eqn:E.
  - rewrite bra_spec by (rewrite ?E; lia).
    apply finish_normal.
    + rewrite E. split.
      * apply rne_lower; try lia.
        fexp_lia.
      * apply rne_upper; try lia.
        fexp_lia.
    + rewrite fexp_eq. lia.
  - rewrite bra_spec by (rewrite ?E; lia).
    apply finish_normal.
    + rewrite E. split.
      * apply rne_lower; try lia.
        fexp_lia.
      * apply rne_upper; try lia.
        fexp_lia.
    + rewrite fexp_eq. lia.
  - assert (Hq : Zdigits2 (Z.pos (Pos.iter xO p q))
                 = Zdigits2 (Z.pos p) + Z.pos q)
      by (rewrite pos_iter_xO; apply Zdigits2_shift; lia).
    assert (E' : fexp (Zdigits2 (Z.pos p) + 0) = Zdigits2 (Z.pos p) - 53
                 /\ Z.pos q = 53 - Zdigits2 (Z.pos p))
      by (fexp_lia).
    destruct E' as [E1 E2].
    assert (S0 : fexp (Zdigits2 (Z.pos (Pos.iter xO p q))
                       + fexp (Zdigits2 (Z.pos p) + 0))
                 = fexp (Zdigits2 (Z.pos p) + 0))
      by (rewrite Hq, E1; fexp_lia).
    rewrite bra_spec by (rewrite ?S0; lia).
    apply finish_normal.
    + rewrite S0, Z.sub_diag. split.
      * apply rne_lower; lia.
      * apply rne_upper; lia.
    + rewrite fexp_eq. lia.
Qed.

Lemma of_int_nonneg n :
  0 <= n ->
  nonneg (Double.of_int n)
  /\ (Double.of_int n = S754_zero false <-> n = 0)
  /\ Double.valid (Double.of_int n) = true.
Proof.
  intros Hn. destruct n as [|p|p]; [| |lia].
  - repeat split.
  - destruct (of_int_pos p) as [E|(m & e & E & V)]; rewrite E.
    + repeat split; intros; discriminate.
    + split; [exact I|]. split; [|exact V]. split; intros; discriminate.
Qed.

(** Below 2^53 the conversion is exact and finite. *)
Lemma of_int_small p :
  Z.pos p < 2 ^ 53 ->
  exists m e, Double.of_int (Z.pos p) = S754_finite false m e
              /\ Double.valid (S754_finite false m e) = true.
Proof.
  intros Hp.
  destruct (of_int_pos p) as [E|H]; [exfalso|exact H].
  revert E. unfold Double.of_int, binary_normalize, binary_round, shl_align.
  change (Z.pos (digits2_pos p)) with (Zdigits2 (Z.pos p)).
  fold fexp. fold bra.
  pose proof (Zdigits2_pos (Z.pos p) eq_refl) as Hd.
  assert (Hd53 : Zdigits2 (Z.pos p) <= 53) by (apply Zdigits2_le; lia).
  assert (E1 : fexp (Zdigits2 (Z.pos p) + 0) = Zdigits2 (Z.pos p) - 53)
    by (fexp_lia).
  rewrite E1.
  destruct (Zdigits2 (Z.pos p) - 53 - 0) as [|q|q] eqn:E; [|lia|].
  - assert (S0 : fexp (Zdigits2 (Z.pos p) + 0) - 0 = 0) by lia.
    rewrite bra_spec by (rewrite ?S0; lia).
    rewrite S0, rne_0. unfold finish.
    destruct (Z.eqb_spec (Z.pos p) 0); [lia|].
    destruct (Z.eqb_spec (Z.pos p) (2 ^ 53)); [lia|].
    destruct (Z.leb_spec (fexp (Zdigits2 (Z.pos p) + 0)) 971);
      [discriminate|lia].
  - assert (Hq : Zdigits2 (Z.pos (Pos.iter xO p q)) = 53)
      by (rewrite pos_iter_xO, Zdigits2_shift; lia).
    assert (S0 : fexp (Zdigits2 (Z.pos (Pos.iter xO p q))
                       + (Zdigits2 (Z.pos p) - 53))
                 = Zdigits2 (Z.pos p) - 53)
      by (rewrite Hq; fexp_lia).
    rewrite bra_spec by (rewrite ?S0; lia).
    rewrite S0, Z.sub_diag, rne_0. unfold finish.
    pose proof (Zdigits2_bounds (Z.pos (Pos.iter xO p q)) eq_refl) as [_ Hb].
    rewrite Hq in Hb.
    destruct (Z.eqb_spec (Z.pos (Pos.iter xO p q)) 0); [lia|].
    destruct (Z.eqb_spec (Z.pos (Pos.iter xO p q)) (2 ^ 53)); [lia|].
    destruct (Z.leb_spec (Zdigits2 (Z.pos p) - 53) 971); [discriminate|lia].
Qed.

(** The binary64 value of an integer below 2^53: the mantissa is the integer
    shifted to 53 digits. *)
Lemma of_int_exact n :
  0 < n < 2 ^ 53 ->
  Double.of_int n
  = S754_finite false (Z.to_pos (n * 2 ^ (53 - Zdigits2 n))) (Zdigits2 n - 53).
Proof.
  intros Hn. destruct n as [|p|p]; try lia.
  unfold Double.of_int, binary_normalize, binary_round, shl_align.
  change (Z.pos (digits2_pos p)) with (Zdigits2 (Z.pos p)).
  fold fexp. fold bra.
  pose proof (Zdigits2_pos (Z.pos p) eq_refl) as Hd.
  assert (Hd53 : Zdigits2 (Z.pos p) <= 53) by (apply Zdigits2_le; lia).
  assert (E1 : fexp (Zdigits2 (Z.pos p) + 0) = Zdigits2 (Z.pos p) - 53)
    by (fexp_lia).
  rewrite E1.
  destruct (Zdigits2 (Z.pos p) - 53 - 0) as [|q|q] eqn:E; [|lia|].
  - assert (S0 : fexp (Zdigits2 (Z.pos p) + 0) - 0 = 0) by lia.
    rewrite bra_spec by (rewrite ?S0; lia).
    rewrite S0, rne_0. unfold finish.
    destruct (Z.eqb_spec (Z.pos p) 0); [lia|].
    destruct (Z.eqb_spec (Z.pos p) (2 ^ 53)); [lia|].
    destruct (Z.leb_spec (fexp (Zdigits2 (Z.pos p) + 0)) 971); [|lia].
    rewrite E1. replace (53 - Zdigits2 (Z.pos p)) with 0 by lia.
    rewrite Z.pow_0_r, Z.mul_1_r. reflexivity.
  - assert (Hq : Zdigits2 (Z.pos (Pos.iter xO p q)) = 53)
      by (rewrite pos_iter_xO, Zdigits2_shift; lia).
    assert (S0 : fexp (Zdigits2 (Z.pos (Pos.iter xO p q))
                       + (Zdigits2 (Z.pos p) - 53))
                 = Zdigits2 (Z.pos p) - 53)
      by (rewrite Hq; fexp_lia).
    rewrite bra_spec by (rewrite ?S0; lia).
    rewrite S0, Z.sub_diag, rne_0. unfold finish.
    pose proof (Zdigits2_bounds (Z.pos (Pos.iter xO p q)) eq_refl) as [_ Hb].
    rewrite Hq in Hb.
    destruct (Z.eqb_spec (Z.pos (Pos.iter xO p q)) 0); [lia|].
    destruct (Z.eqb_spec (Z.pos (Pos.iter xO p q)) (2 ^ 53)); [lia|].
    destruct (Z.leb_spec (Zdigits2 (Z.pos p) - 53) 971); [|lia].
    f_equal. rewrite pos_iter_xO.
    replace (53 - Zdigits2 (Z.pos p)) with (Z.pos q) by lia. reflexivity.
Qed.

(** The order of two integers below 2^53 is the order of their binary64
    values. *)
Lemma of_int_ltb a b :
  0 <= a < 2 ^ 53 -> 0 <= b < 2 ^ 53 ->
  Double.ltb (Double.of_int a) (Double.of_int b) = (a <? b).
Proof.
  intros Ha Hb. unfold Double.ltb.
  destruct (Z.eq_dec a 0) as [->|Na], (Z.eq_dec b 0) as [->|Nb].
  - reflexivity.
  - rewrite (of_int_exact b) by lia. cbn. symmetry. apply Z.ltb_lt. lia.
  - rewrite (of_int_exact a) by lia. cbn. symmetry. apply Z.ltb_ge. lia.
  - rewrite (of_int_exact a), (of_int_exact b) by lia.
    assert (Pa : 0 < a) by lia. assert (Pb : 0 < b) by lia.
    pose proof (Zdigits2_bounds a Pa) as [A1 A2].
    pose proof (Zdigits2_bounds b Pb) as [B1 B2].
    pose proof (Zdigits2_pos a Pa). pose proof (Zdigits2_pos b Pb).
    assert (Da : Zdigits2 a <= 53) by (apply Zdigits2_le; lia).
    assert (Db : Zdigits2 b <= 53) by (apply Zdigits2_le; lia).
    assert (Ka : 0 < 2 ^ (53 - Zdigits2 a)) by (apply Z.pow_pos_nonneg; lia).
    assert (Kb : 0 < 2 ^ (53 - Zdigits2 b)) by (apply Z.pow_pos_nonneg; lia).
    unfold SFltb, SFcompare.
    rewrite Pos.compare_cont_spec. cbn [Pos.switch_Eq].
    rewrite <- Z2Pos.inj_compare by nia.
    destruct (Z.compare_spec (Zdigits2 a - 53) (Zdigits2 b - 53)) as [E|E|E].
    + replace (Zdigits2 b) with (Zdigits2 a) by lia.
      destruct (Z.compare_spec (a * 2 ^ (53 - Zdigits2 a))
                               (b * 2 ^ (53 - Zdigits2 a)));
        symmetry; [apply Z.ltb_ge|apply Z.ltb_lt|apply Z.ltb_ge]; nia.
    + symmetry. apply Z.ltb_lt.
      assert (2 ^ Zdigits2 a <= 2 ^ (Zdigits2 b - 1))
        by (apply Z.pow_le_mono_r; lia).
      lia.
    + symmetry. apply Z.ltb_ge.
      assert (2 ^ Zdigits2 b <= 2 ^ (Zdigits2 a - 1))
        by (apply Z.pow_le_mono_r; lia).
      lia.
Qed.

(** The product of two integers is exact when it is below 2^53. *)
Lemma of_int_mul a b :
  0 <= a < 2 ^ 53 -> 0 <= b < 2 ^ 53 -> a * b < 2 ^ 53 ->
  Double.mul (Double.of_int a) (Double.of_int b) = Double.of_int (a * b).
Proof.
  intros Ha Hb Hab.
  destruct (Z.eq_dec a 0) as [->|Na].
  { cbn [Z.mul]. destruct (Z.eq_dec b 0) as [->|Nb]; [reflexivity|].
    rewrite (of_int_exact b) by lia. reflexivity. }
  destruct (Z.eq_dec b 0) as [->|Nb].
  { rewrite Z.mul_0_r. rewrite (of_int_exact a) by lia. reflexivity. }
  assert (Pa : 0 < a) by lia. assert (Pb : 0 < b) by lia.
  assert (La : a < 2 ^ 53) by lia. assert (Lb : b < 2 ^ 53) by lia.
  rewrite (of_int_exact a), (of_int_exact b), (of_int_exact (a * b)) by nia.
  pose proof (Zdigits2_pos a Pa). pose proof (Zdigits2_pos b Pb).
  assert (Pab : 0 < a * b) by nia.
  pose proof (Zdigits2_pos (a * b) Pab).
  pose proof (Zdigits2_mul a b Pa Pb) as Hd.
  assert (Da : Zdigits2 a <= 53) by (apply Zdigits2_le; lia).
  assert (Db : Zdigits2 b <= 53) by (apply Zdigits2_le; lia).
  assert (Dab : Zdigits2 (a * b) <= 53) by (apply Zdigits2_le; lia).
  assert (Ka : 0 < 2 ^ (53 - Zdigits2 a)) by (apply Z.pow_pos_nonneg; lia).
  assert (Kb : 0 < 2 ^ (53 - Zdigits2 b)) by (apply Z.pow_pos_nonneg; lia).
  assert (Kab : 0 < 2 ^ (53 - Zdigits2 (a * b)))
    by (apply Z.pow_pos_nonneg; lia).
  unfold Double.mul. cbn [SFmul xorb]. fold bra.
  rewrite Pos2Z.inj_mul, !Z2Pos.id by nia.
  set (k := 53 - Zdigits2 a - Zdigits2 b + Zdigits2 (a * b)).
  assert (Hk : 0 <= k) by (unfold k; lia).
  replace (a * 2 ^ (53 - Zdigits2 a) * (b * 2 ^ (53 - Zdigits2 b)))
    with (a * b * 2 ^ (53 - Zdigits2 (a * b)) * 2 ^ k).
  2:{ rewrite <- !Z.mul_assoc. f_equal.
      rewrite (Z.mul_comm (2 ^ (53 - Zdigits2 a))), <- !Z.mul_assoc. f_equal.
      rewrite <- !Z.pow_add_r by lia. f_equal. unfold k. lia. }
  replace (Zdigits2 a - 53 + (Zdigits2 b - 53))
    with (Zdigits2 (a * b) - 53 - k) by (unfold k; lia).
  assert (Dm : Zdigits2 (a * b * 2 ^ (53 - Zdigits2 (a * b))) = 53)
    by (rewrite Zdigits2_shift; lia).
  assert (S0 : fexp (Zdigits2 (a * b * 2 ^ (53 - Zdigits2 (a * b)))
                     + (Zdigits2 (a * b) - 53))
               = Zdigits2 (a * b) - 53)
    by (rewrite Dm; fexp_lia).
  rewrite bra_align by (rewrite ?S0; nia).
  rewrite bra_spec by (rewrite ?S0; nia).
  rewrite S0, Z.sub_diag, rne_0. unfold finish.
  pose proof (Zdigits2_bounds (a * b * 2 ^ (53 - Zdigits2 (a * b))))
    as [_ Hb2]; [nia|]. rewrite Dm in Hb2.
  destruct (Z.eqb_spec (a * b * 2 ^ (53 - Zdigits2 (a * b))) 0); [nia|].
  destruct (Z.eqb_spec (a * b * 2 ^ (53 - Zdigits2 (a * b))) (2 ^ 53)); [lia|].
  destruct (Z.leb_spec (Zdigits2 (a * b) - 53) 971); [reflexivity|lia].
Qed.

(** *** The order on non-negative values *)

Lemma SFlt_le_trans w a b :
  nonneg_or_nan w -> nonneg_or_nan a -> nonneg_or_nan b ->
  SFltb w a = true -> SFleb a b = true -> SFltb w b = true.
Proof.
  unfold SFltb, SFleb, SFcompare.
  destruct w as [sw|[|]| |[|] mw ew]; cbn; try tauto; try discriminate;
    destruct a as [sa|[|]| |[|] ma ea]; cbn; try tauto; try discriminate;
    destruct b as [sb|[|]| |[|] mb eb]; cbn; try tauto; try discriminate;
    try reflexivity.
  intros _ _ _. rewrite !Pos.compare_cont_spec. cbn [Pos.switch_Eq].
  destruct (Z.compare_spec ew ea), (Z.compare_spec ea eb),
      (Z.compare_spec ew eb); try lia; try discriminate; try reflexivity;
      destruct (Pos.compare_spec mw ma), (Pos.compare_spec ma mb),
        (Pos.compare_spec mw mb); try lia; try discriminate; reflexivity.
Qed.

Lemma inf_not_below a : SFltb (S754_infinity false) a = false.
Proof. destruct a as [?|[|]| |[|] ? ?]; reflexivity. Qed.

Lemma nonneg_not_below_zero w s :
  nonneg_or_nan w -> SFltb w (S754_zero s) = false.
Proof. destruct w as [?|[|]| |[|] ? ?]; cbn; tauto || reflexivity. Qed.

Lemma nonneg_not_below_negative w a :
  nonneg_or_nan w ->
  match a with
  | S754_zero _ | S754_finite true _ _ | S754_infinity true | S754_nan => True
  | _ => False
  end ->
  SFltb w a = false.
Proof.
  destruct w as [?|[|]| |[|] ? ?]; cbn; try tauto;
    destruct a as [?|[|]| |[|] ? ?]; cbn; tauto || reflexivity.
Qed.

(** On values that are not NaN, [a > b] fails exactly when [a <= b]. *)
Lemma SFltb_negb a b :
  a <> S754_nan -> b <> S754_nan -> negb (SFltb a b) = SFleb b a.
Proof.
  intros Ha Hb. unfold SFltb, SFleb, SFcompare.
  destruct a as [sa|[|]| |[|] ma ea]; try congruence;
    destruct b as [sb|[|]| |[|] mb eb]; try congruence; try reflexivity.
  - rewrite (Z.compare_antisym eb ea), !Pos.compare_cont_spec.
    cbn [Pos.switch_Eq]. rewrite (Pos.compare_antisym mb ma).
    destruct (eb ?= ea); cbn [CompOpp]; try reflexivity.
    destruct (Pos.compare mb ma); reflexivity.
  - rewrite (Z.compare_antisym eb ea), !Pos.compare_cont_spec.
    cbn [Pos.switch_Eq]. rewrite (Pos.compare_antisym mb ma).
    destruct (eb ?= ea); cbn [CompOpp]; try reflexivity.
    destruct (Pos.compare mb ma); reflexivity.
Qed.

(** With the counts fixed, a larger tolerance gives a product that exceeds
    the white count whenever the smaller one does. *)
Lemma product_exceeds_mono (t t' : double) (white not_white : Z) :
  Double.valid t = true -> Double.valid t' = true ->
  0 <= white -> 0 <= not_white ->
  SFltb t t' = true ->
  Double.ltb (Double.of_int white)
             (Double.mul t (Double.of_int not_white)) = true ->
  Double.ltb (Double.of_int white)
             (Double.mul t' (Double.of_int not_white)) = true.
Proof.
  unfold Double.ltb, Double.mul. intros Vt Vt' Hw Hn Hlt.
  destruct (of_int_nonneg white Hw) as (Nw & _ & _).
  destruct (of_int_nonneg not_white Hn) as (Nn & _ & Vn).
  assert (Nw' : nonneg_or_nan (Double.of_int white)).
  { revert Nw.
    destruct (Double.of_int white) as [?|[|]| |[|] ? ?]; cbn; tauto. }
  set (w := Double.of_int white) in *. set (n := Double.of_int not_white) in *.
  clearbody w n. clear Nw.
  destruct n as [sn|[|]| |[|] my ey]; try contradiction.
  - (* n = 0 *)
    intros H. exfalso.
    destruct t as [st|st| |st mx ex]; cbn [SFmul] in H;
      try (rewrite nonneg_not_below_zero in H by exact Nw'; discriminate H);
      destruct w as [?|[|]| |[|] ? ?]; discriminate H.
  - (* n = +inf *)
    destruct t as [st|[|]| |[|] mx ex]; cbn [SFmul xorb];
      try (intros H; exfalso;
           destruct w as [?|[|]| |[|] ? ?]; (contradiction || discriminate H));
      try (exfalso; destruct t' as [?|[|]| |[|] ? ?]; discriminate Hlt).
    destruct t' as [?|[|]| |[|] ? ?]; try discriminate Hlt; cbn [SFmul xorb];
      intros H; exact H.
  - (* n finite and positive *)
    destruct t as [st|[|]| |[|] mx ex]; cbn [SFmul xorb].
    + intros H. rewrite nonneg_not_below_zero in H by exact Nw'. discriminate H.
    + intros H.
      destruct w as [?|[|]| |[|] ? ?]; (contradiction || discriminate H).
    + destruct t' as [?|[|]| |[|] ? ?]; discriminate Hlt.
    + discriminate Hlt.
    + intros H. fold bra in H.
      rewrite nonneg_not_below_negative in H;
        [discriminate H|exact Nw'|apply bra_negative].
    + destruct t' as [st'|[|]| |[|] mx' ex']; try discriminate Hlt.
      * intros H. cbn [SFmul xorb].
        destruct w as [?|[|]| |[|] ? ?]; try contradiction; try reflexivity.
        -- rewrite inf_not_below in H. discriminate H.
        -- discriminate H.
      * intros H.
        apply (SFlt_le_trans w _ _ Nw' (bra_nonneg _ _ _) (bra_nonneg _ _ _) H).
        apply (mul_mono mx ex mx' ex' my ey Vt Vt' Vn Hlt).
Qed.

Lemma product_not_exceeding (t : double) (white not_white : Z) :
  finite_nonneg t = true ->
  0 <= white < 2 ^ 53 -> 0 <= not_white < 2 ^ 53 ->
  negb (Double.ltb (Double.of_int white)
                   (Double.mul t (Double.of_int not_white)))
  = Double.leb (Double.mul t (Double.of_int not_white))
               (Double.of_int white).
Proof.
  unfold Double.ltb, Double.leb, Double.mul. intros Ht Hw Hn. apply SFltb_negb.
  - destruct white as [|p|p]; [discriminate| |lia].
    destruct (of_int_small p) as (m & e & E & _); [lia|].
    rewrite E. discriminate.
  - destruct not_white as [|p|p]; [| |lia].
    + destruct t as [?|?| |[|] ? ?]; discriminate.
    + destruct (of_int_small p) as (m & e & E & _); [lia|]. rewrite E.
      destruct t as [?|?| |[|] mx ex]; try discriminate.
      cbn [SFmul xorb]. apply (bra_not_nan false). reflexivity.
Qed.

(** Whatever the tolerance is, also an infinity or a NaN, its product with
    zero does not exceed zero. *)
Lemma zero_not_below_product (t : double) :
  Double.ltb (Double.of_int 0) (Double.mul t (Double.of_int 0)) = false.
Proof. destruct t as [s|s| |s m e]; reflexivity. Qed.

(** [300 * m * m] is never below zero. *)
Lemma threshold_not_negative (m : double) :
  Double.ltb (Double.mul (Double.mul (Double.of_int 300) m) m)
             (Double.of_int 0) = false.
Proof.
  destruct m as [s|s| |s m e];
    [destruct s; reflexivity | destruct s; reflexivity | reflexivity | ].
  change (Double.of_int 300) with (S754_finite false 5277655813324800 (-44)).
  unfold Double.mul at 2. cbn [SFmul xorb].
  pose proof (binary_round_aux_sign s
                (Z.pos (5277655813324800 * m)) (-44 + e) loc_Exact) as H1.
  destruct (binary_round_aux _ _ s _ _ loc_Exact) as [s1|s1| |s1 m1 e1];
    [reflexivity | subst s1; destruct s; reflexivity | reflexivity | ].
  subst s1. unfold Double.mul. cbn [SFmul].
  pose proof (binary_round_aux_sign (xorb s s)
                (Z.pos (m1 * m)) (e1 + e) loc_Exact) as H2.
  destruct (binary_round_aux _ _ (xorb s s) _ _ loc_Exact)
    as [s2|s2| |s2 m2 e2];
    [reflexivity | subst s2; destruct s; reflexivity | reflexivity
    | subst s2; destruct s; reflexivity].
Qed.

(** ** Geometry resolver (C7) *)

(** C7, as stated, fails: for a width and a height of 0, and for negative
    ones, the resolver returns a Geometry and signals nothing. *)
Lemma top_screen_coords_returns_on_zero :
  run_top_screen_coords 0 0 <> precondition_violation
  /\ run_top_screen_coords 0 0
     = returned {| top_left := {| x := 0; y := 0 |};
                   x_size := 0; y_size := 0;
                   magnification := S754_zero false |}
  /\ run_top_screen_coords (-6) (-1)
     = returned {| top_left := {| x := -1; y := 0 |};
                   x_size := -5; y_size := -1;
                   magnification :=
                     S754_finite true 5629499534213120 (-58) |}.
Proof.
  split; [discriminate|]. split; vm_compute; reflexivity.
Qed.

(** C7, as amended: the resolver validates nothing; for every width and
    height, also non-positive ones, it returns the Geometry with
    x = width/4 (the quotient truncated toward zero), y = 0,
    region width = width - x, region height = height and
    scale = region width / 256. *)
Theorem top_screen_coords_total :
  forall width height : Z,
    exists g : rectangle_coords,
      run_top_screen_coords width height = returned g
      /\ x (top_left g) = Z.quot width 4
      /\ Z.abs (width - 4 * x (top_left g)) < 4
      /\ Z.abs (4 * x (top_left g)) <= Z.abs width
      /\ y (top_left g) = 0
      /\ x_size g = width - x (top_left g)
      /\ y_size g = height
      /\ magnification g
         = Double.div (Double.of_int (x_size g)) (Double.of_int 256).
Proof.
  intros width height. exists (top_screen_coords width height).
  cbn [top_screen_coords top_left x y x_size y_size magnification].
  pose proof (Z.quot_rem' width 4) as E.
  assert (Hrem : Z.abs (Z.rem width 4) < 4).
  { pose proof (Z.rem_bound_abs width 4). lia. }
  assert (Hsgn : 0 <= Z.rem width 4 * width) by (apply Z.rem_sign_mul; lia).
  repeat split; try reflexivity; try lia.
  destruct (Z.le_gt_cases 0 width); nia.
Qed.

(** The example of the specification: 800x480 gives the region (200, 0) of
    600x480 and the scale 600/256 = 75/32 = 2.34375. *)
Example top_screen_coords_800_480 :
  top_screen_coords 800 480
  = {| top_left := {| x := 200; y := 0 |};
       x_size := 600; y_size := 480;
       magnification := S754_finite false (75 * 2 ^ 46) (-51) |}.
Proof. vm_compute. reflexivity. Qed.

(** ** Region sampler: the acceptance test (C3) *)

(** C3: for a finite tolerance t >= 0 and a rectangle whose pixels the
    [int] counters can count, the sampler returns true exactly when
    t x not_white_count <= white_count (the product and the comparison of
    [double]s, which for an integer tolerance such as 1, 40 or 50 are the
    product and the comparison of integers), where the white pixels are
    those of the rectangle whose three channels strictly exceed the
    threshold; pixels with all channels equal to the threshold are all
    counted not-white, pixels with all channels one above it are all counted
    white. *)
Theorem white_rectangle_spec :
  forall (data : buffer) (wrap : Z) (r : rectangle_coords) (t : double)
         (c : Z),
    finite_nonneg t = true ->
    Z.max 0 (x_size r) * Z.max 0 (y_size r) < 2 ^ 31 ->
    let pixels := pixel_offsets wrap r in
    let white_count := count (fun p => white_pixel data p c) pixels in
    let not_white_count :=
      count (fun p => negb (white_pixel data p c)) pixels in
    (forall p, white_pixel data p c = true <-> is_white data c p)
    /\ white_counts data wrap r c = (white_count, not_white_count)
    /\ white_count + not_white_count
       = Z.max 0 (x_size r) * Z.max 0 (y_size r)
    /\ (white_rectangle data wrap r t c = true <->
        Double.leb (Double.mul t (Double.of_int not_white_count))
                   (Double.of_int white_count) = true)
    /\ (forall k : Z,
          0 <= k < 2 ^ 53 ->
          k * (Z.max 0 (x_size r) * Z.max 0 (y_size r)) < 2 ^ 53 ->
          white_rectangle data wrap r (Double.of_int k) c
          = (k * not_white_count <=? white_count))
    /\ ((forall p, In p pixels ->
           uc (data p) = c /\ uc (data (p + 1)) = c /\ uc (data (p + 2)) = c)
        -> white_count = 0)
    /\ ((forall p, In p pixels ->
           uc (data p) = c + 1 /\ uc (data (p + 1)) = c + 1
           /\ uc (data (p + 2)) = c + 1)
        -> not_white_count = 0).
Proof.
  intros data wrap r t c Ht Hsize pixels white_count not_white_count.
  assert (Hsum : white_count + not_white_count
                 = Z.max 0 (x_size r) * Z.max 0 (y_size r)).
  { unfold not_white_count. rewrite count_negb. fold white_count.
    unfold pixels. rewrite length_pixel_offsets. lia. }
  pose proof (count_nonneg (fun p => white_pixel data p c) pixels) as Hw.
  pose proof (count_nonneg (fun p => negb (white_pixel data p c)) pixels)
    as Hn.
  fold white_count in Hw. fold not_white_count in Hn.
  split; [intros p; apply white_pixel_spec|].
  split; [apply white_counts_spec|].
  split; [exact Hsum|].
  split; [|split; [|split]].
  - unfold white_rectangle. rewrite white_counts_spec.
    fold pixels. fold white_count. fold not_white_count.
    rewrite <- product_not_exceeding by (try exact Ht; lia).
    destruct (Double.ltb _ _); cbn [negb]; split; congruence.
  - intros k Hk Hprod.
    unfold white_rectangle. rewrite white_counts_spec.
    fold pixels. fold white_count. fold not_white_count.
    assert (k * not_white_count < 2 ^ 53) by nia.
    rewrite of_int_mul, of_int_ltb by nia.
    destruct (Z.ltb_spec white_count (k * not_white_count)),
             (Z.leb_spec (k * not_white_count) white_count);
      try reflexivity; lia.
  - intros H. apply count_none. intros p Hp.
    apply white_pixel_false. unfold is_white.
    destruct (H p Hp) as (H0 & _). lia.
  - intros H. apply count_none. intros p Hp.
    apply negb_false_iff, white_pixel_spec. unfold is_white.
    destruct (H p Hp) as (H0 & H1 & H2). lia.
Qed.

Lemma white_rectangle_spec_witness :
  count (fun p => white_pixel at_threshold p 235)
        (pixel_offsets 30 (rect 1 2 4 3)) = 0
  /\ count (fun p => negb (white_pixel above_threshold p 235))
           (pixel_offsets 30 (rect 1 2 4 3)) = 0
  /\ white_rectangle above_threshold 30 (rect 1 2 4 3) (Double.of_int 50) 235
     = true
  /\ white_rectangle nine_of_ten 30 (rect 0 0 10 1) (Double.of_int 50) 235
     = (50 * 1 <=? 9).
Proof.
  assert (Hsize : Z.max 0 (x_size (rect 1 2 4 3))
                  * Z.max 0 (y_size (rect 1 2 4 3)) < 2 ^ 31)
    by (cbn; lia).
  assert (Hrow : Z.max 0 (x_size (rect 0 0 10 1))
                 * Z.max 0 (y_size (rect 0 0 10 1)) < 2 ^ 31)
    by (cbn; lia).
  destruct (white_rectangle_spec at_threshold 30 (rect 1 2 4 3)
              (Double.of_int 50) 235 eq_refl Hsize)
    as (_ & _ & _ & _ & _ & Hthreshold & _).
  destruct (white_rectangle_spec above_threshold 30 (rect 1 2 4 3)
              (Double.of_int 50) 235 eq_refl Hsize)
    as (_ & _ & _ & Haccept & _ & _ & Habove).
  destruct (white_rectangle_spec nine_of_ten 30 (rect 0 0 10 1)
              (Double.of_int 50) 235 eq_refl Hrow)
    as (_ & _ & _ & _ & Hinteger & _).
  split; [|split; [|split]].
  - apply Hthreshold. intros p _. repeat split.
  - apply Habove. intros p _. repeat split.
  - apply Haccept. vm_compute. reflexivity.
  - apply (Hinteger 50); cbn; lia.
Defined.

(** ** Region sampler: the effect of the tolerance (C1) *)

(** C1, as stated, fails: raising the tolerance turns an accepted rectangle
    into a rejected one, from 0 to 1 on a single black pixel and from 1 to
    50 on a row with one black pixel among ten. *)
Lemma larger_tolerance_rejects :
  (Double.ltb (Double.of_int 0) (Double.of_int 1) = true
   /\ white_rectangle black 3 (rect 0 0 1 1) (Double.of_int 0) 235 = true
   /\ white_rectangle black 3 (rect 0 0 1 1) (Double.of_int 1) 235 = false)
  /\ (Double.ltb (Double.of_int 1) (Double.of_int 50) = true
      /\ white_rectangle nine_of_ten 30 (rect 0 0 10 1) (Double.of_int 1) 235
         = true
      /\ white_rectangle nine_of_ten 30 (rect 0 0 10 1) (Double.of_int 50) 235
         = false).
Proof. vm_compute. repeat split. Qed.

(** C1, as amended: with the pixel data, the rectangle and the threshold
    fixed, raising the tolerance can only turn an accepted rectangle into a
    rejected one, never a rejected one into an accepted one: a rectangle
    accepted at the larger tolerance is accepted at the smaller one. *)
Theorem white_rectangle_tolerance :
  forall (data : buffer) (wrap : Z) (r : rectangle_coords) (t t' : double)
         (c : Z),
    Double.valid t = true -> Double.valid t' = true ->
    Double.ltb t t' = true ->
    (white_rectangle data wrap r t' c = true ->
     white_rectangle data wrap r t c = true)
    /\ (white_rectangle data wrap r t c = false ->
        white_rectangle data wrap r t' c = false).
Proof.
  intros data wrap r t t' c Vt Vt' Hlt.
  unfold white_rectangle. rewrite white_counts_spec.
  pose proof (product_exceeds_mono t t'
                (count (fun p => white_pixel data p c) (pixel_offsets wrap r))
                (count (fun p => negb (white_pixel data p c))
                       (pixel_offsets wrap r))
                Vt Vt' (count_nonneg _ _) (count_nonneg _ _) Hlt) as H.
  unfold Double.ltb, Double.mul in *.
  destruct (SFltb _ (SFmul _ _ t _)), (SFltb _ (SFmul _ _ t' _));
    split; intros E; try reflexivity; try discriminate E;
    specialize (H eq_refl); discriminate H.
Qed.

Lemma white_rectangle_tolerance_witness :
  white_rectangle white 30 (rect 0 0 10 1) (Double.of_int 1) 235 = true
  /\ white_rectangle nine_of_ten 30 (rect 0 0 10 1) (Double.of_int 50) 235
     = false.
Proof.
  split.
  - apply (proj1 (white_rectangle_tolerance white 30 (rect 0 0 10 1)
                    (Double.of_int 1) (Double.of_int 50) 235
                    eq_refl eq_refl eq_refl)).
    vm_compute. reflexivity.
  - apply (proj2 (white_rectangle_tolerance nine_of_ten 30 (rect 0 0 10 1)
                    (Double.of_int 40) (Double.of_int 50) 235
                    eq_refl eq_refl eq_refl)).
    vm_compute. reflexivity.
Defined.

(** ** Region sampler on an empty rectangle (C9) *)

Lemma white_rectangle_no_pixels data wrap r t c :
  pixel_offsets wrap r = [] -> white_rectangle data wrap r t c = true.
Proof.
  intros H. unfold white_rectangle. rewrite white_counts_spec, H, !count_nil.
  now rewrite zero_not_below_product.
Qed.

(** C9: the sampler accepts every rectangle of zero width or zero height,
    for every frame, tolerance and threshold; hence a classifier strip whose
    scaled height rounds to 0 pixels is accepted as near-white. *)
Theorem white_rectangle_empty :
  forall (data : buffer) (wrap : Z) (t : double) (c : Z),
    (forall r : rectangle_coords,
        x_size r = 0 \/ y_size r = 0 ->
        white_rectangle data wrap r t c = true)
    /\ (forall (top_screen : rectangle_coords) (row height : Z),
           Double.to_int (scaled (magnification top_screen) height) = 0 ->
           white_rectangle data wrap (white_line top_screen row height) t c
           = true).
Proof.
  intros data wrap t c. split.
  - intros r H. apply white_rectangle_no_pixels, pixel_offsets_empty, H.
  - intros ts row height H.
    apply white_rectangle_no_pixels, pixel_offsets_empty. right.
    exact H.
Qed.

(** At a width of 100 the scale is 75/256, and the one-pixel strips round to
    a height of 0. *)
Lemma white_rectangle_empty_witness :
  white_rectangle black 300 (rect 4 7 0 5) (Double.of_int 50) 225 = true
  /\ white_rectangle black 300
       (bottom_white_line (top_screen_coords 100 200)) S754_nan 235 = true.
Proof.
  split.
  - apply (proj1 (white_rectangle_empty black 300 (Double.of_int 50) 225)).
    left. reflexivity.
  - apply (proj2 (white_rectangle_empty black 300 S754_nan 235)).
    vm_compute. reflexivity.
Defined.

(** ** The scaled rectangles

    [std::round] rounds halfway cases away from zero; at 800x480 the scale is
    2.34375 and reference row 144 falls on 337.5, rounded to 338. *)

Example round_half_away :
  Double.round (Double.div (Double.of_int 5) (Double.of_int 2))
  = Double.of_int 3
  /\ Double.round (Double.div (Double.of_int (-5)) (Double.of_int 2))
     = Double.of_int (-3)
  /\ Double.round (Double.div (Double.of_int 49) (Double.of_int 100))
     = Double.of_int 0
  /\ scaled (magnification (top_screen_coords 800 480)) 144
     = Double.of_int 338.
Proof. vm_compute. repeat split. Qed.

Example strips_800_480 :
  bottom_white_line (top_screen_coords 800 480) = rect 266 429 389 2
  /\ left_border (top_screen_coords 800 480) = rect 200 338 19 142
  /\ right_border (top_screen_coords 800 480) = rect 781 338 19 142
  /\ textbox_part (top_screen_coords 800 480) = rect 230 356 516 77
  /\ second_line_part (top_screen_coords 800 480) = rect 230 394 516 40.
Proof. vm_compute. repeat split. Qed.

Example strips_small_screen :
  bottom_white_line small_screen = rect 113 183 166 1
  /\ left_border small_screen = rect 85 144 8 48
  /\ right_border small_screen = rect 333 144 8 48
  /\ textbox_part small_screen = rect 98 152 220 33
  /\ second_line_part small_screen = rect 98 168 220 17.
Proof. vm_compute. repeat split. Qed.

(** ** Frame classifier: the NONE verdicts of the first three checks (C6) *)

Example textbox_black : textbox black small_wrap small_screen = NONE.
Proof. vm_compute. reflexivity. Qed.

Example textbox_white : textbox white small_wrap small_screen = NONE.
Proof. vm_compute. reflexivity. Qed.

Example textbox_scrolling :
  textbox scrolling small_wrap small_screen = SCROLL_A.
Proof. vm_compute. reflexivity. Qed.

Example textbox_opened : textbox opened small_wrap small_screen = OPEN.
Proof. vm_compute. reflexivity. Qed.

Example empty_textbox_opened :
  empty_textbox opened small_wrap small_screen = true.
Proof. vm_compute. reflexivity. Qed.

Example textbox_typed : textbox typed small_wrap small_screen = OPEN.
Proof. vm_compute. reflexivity. Qed.

Example empty_textbox_typed :
  empty_textbox typed small_wrap small_screen = false.
Proof. vm_compute. reflexivity. Qed.

(** C6: the classifier returns NONE when the thin bottom strip (tolerance
    1, threshold 235) is not near-white, and then no other strip has been
    sampled; it returns NONE whenever the left border strip is near-white,
    and whenever the right border strip is near-white (tolerance 1,
    threshold 235 each). *)
Theorem textbox_none :
  forall (data : buffer) (wrap : Z) (top_screen : rectangle_coords),
    (white_rectangle data wrap (bottom_white_line top_screen)
                     (Double.of_int 1) 235 = false ->
     textbox_trace data wrap top_screen
     = (NONE, [Sampled (bottom_white_line top_screen) (Double.of_int 1) 235]))
    /\ (white_rectangle data wrap (left_border top_screen)
                        (Double.of_int 1) 235 = true ->
        textbox data wrap top_screen = NONE)
    /\ (white_rectangle data wrap (right_border top_screen)
                        (Double.of_int 1) 235 = true ->
        textbox data wrap top_screen = NONE).
Proof.
  intros data wrap ts. unfold textbox, textbox_trace, sample, tol_1.
  repeat split.
  - intros H. cbn [bind]. rewrite H. reflexivity.
  - intros H. cbn [bind].
    destruct (white_rectangle data wrap (bottom_white_line ts) _ 235);
      [|reflexivity].
    cbn [negb bind]. rewrite H. reflexivity.
  - intros H. cbn [bind].
    destruct (white_rectangle data wrap (bottom_white_line ts) _ 235);
      [|reflexivity].
    cbn [negb bind].
    destruct (white_rectangle data wrap (left_border ts) _ 235);
      [reflexivity|].
    cbn [bind]. rewrite H. reflexivity.
Qed.

(** A black frame fails the bottom strip; on a white frame both borders are
    near-white. *)
Lemma textbox_none_witness :
  textbox_trace black small_wrap small_screen
  = (NONE, [Sampled (bottom_white_line small_screen) (Double.of_int 1) 235])
  /\ textbox white small_wrap small_screen = NONE
  /\ textbox white small_wrap (top_screen_coords 800 480) = NONE.
Proof.
  split; [|split].
  - apply (proj1 (textbox_none black small_wrap small_screen)).
    vm_compute. reflexivity.
  - apply (proj1 (proj2 (textbox_none white small_wrap small_screen))).
    vm_compute. reflexivity.
  - apply (proj2 (proj2 (textbox_none white small_wrap
                           (top_screen_coords 800 480)))).
    vm_compute. reflexivity.
Defined.

(** ** Change detector (C5) *)

Lemma channel_diff_abs data_old data_new p :
  channel_diff data_old data_new p
  = Z.abs (uc (data_old p) - uc (data_new p)).
Proof.
  unfold channel_diff.
  destruct (Z.gtb_spec (uc (data_old p)) (uc (data_new p))); lia.
Qed.

Lemma changed_pixel_differs data_old data_new p :
  changed_pixel data_old data_new p = differs data_old data_new p.
Proof.
  unfold changed_pixel, differs. rewrite !channel_diff_abs.
  now rewrite !Z.gtb_ltb.
Qed.

Lemma differs_sym data_old data_new p :
  differs data_old data_new p = differs data_new data_old p.
Proof.
  unfold differs.
  assert (H : forall a b, Z.abs (a - b) = Z.abs (b - a)) by (intros; lia).
  rewrite (H (uc (data_old p))), (H (uc (data_old (p + 1)))),
          (H (uc (data_old (p + 2)))).
  reflexivity.
Qed.

Lemma differs_refl data p : differs data data p = false.
Proof. unfold differs. now rewrite !Z.sub_diag. Qed.

Lemma compare_row_count n data_old data_new pixel j acc :
  compare_row n data_old data_new pixel j acc
  = acc + count (differs data_old data_new) (row_offsets pixel j n).
Proof.
  revert j acc. induction n as [|n IH]; intros j acc.
  - cbn. lia.
  - cbn [compare_row]. 
    rewrite IH, row_offsets_S, count_cons, changed_pixel_differs.
    destruct (differs data_old data_new (pixel + j)); lia.
Qed.

Lemma compare_rows_count n data_old data_new wrap r i acc :
  compare_rows n data_old data_new wrap r i acc
  = acc
    + count (differs data_old data_new)
        (flat_map (fun k => row_offsets ((i + Z.of_nat k) * wrap
                                         + 3 * x (top_left r)) 0
                                        (Z.to_nat (x_size r)))
                  (seq 0 n)).
Proof.
  revert i acc. induction n as [|n IH]; intros i acc.
  - cbn. lia.
  - cbn [compare_rows]. rewrite IH, compare_row_count. cbn [seq flat_map].
    rewrite count_app.
    replace (flat_map _ (seq 1 n))
      with (flat_map
              (fun k => row_offsets ((i + 1 + Z.of_nat k) * wrap
                                     + 3 * x (top_left r)) 0
                                    (Z.to_nat (x_size r))) (seq 0 n)).
    + replace (i + Z.of_nat 0) with i by lia. lia.
    + rewrite <- (seq_shift n 0), !flat_map_concat_map, map_map.
      f_equal. apply map_ext. intros k. do 2 f_equal. lia.
Qed.

Lemma changed_count_spec data_old data_new wrap r :
  changed_count data_old data_new wrap r
  = count (differs data_old data_new) (pixel_offsets wrap r).
Proof.
  unfold changed_count. rewrite compare_rows_count. reflexivity.
Qed.

(** C5: the change detector returns true exactly when the number of pixels
    of the textbox content rectangle that differ by more than 50 in some
    channel exceeds 300 times the square of the scale; it is symmetric in
    its two frames, and false on two identical frames.  The textbox content
    rectangle is written out: it starts 13 reference columns and 152
    reference rows from the top-left corner of the top screen, and is 220
    reference columns wide and 33 reference rows high, each scaled and
    rounded. *)
Theorem compare_textboxes_spec :
  forall (data_old data_new : buffer) (wrap : Z)
         (top_screen : rectangle_coords),
    let m := magnification top_screen in
    let content :=
      rect (Double.to_int
              (Double.add (Double.of_int (x (top_left top_screen)))
                          (Double.round (Double.mul m (Double.of_int 13)))))
           (Double.to_int
              (Double.add (Double.of_int (y (top_left top_screen)))
                          (Double.round (Double.mul m (Double.of_int 152)))))
           (Double.to_int (Double.round (Double.mul m (Double.of_int 220))))
           (Double.to_int (Double.round (Double.mul m (Double.of_int 33)))) in
    let changed :=
      count (differs data_old data_new) (pixel_offsets wrap content) in
    compare_textboxes data_old data_new wrap top_screen
    = Double.ltb (Double.mul (Double.mul (Double.of_int 300) m) m)
                 (Double.of_int changed)
    /\ compare_textboxes data_old data_new wrap top_screen
       = compare_textboxes data_new data_old wrap top_screen
    /\ compare_textboxes data_old data_old wrap top_screen = false.
Proof.
  intros data_old data_new wrap ts m content changed.
  change content with (textbox_part ts) in changed.
  unfold compare_textboxes.
  rewrite !changed_count_spec. fold m. repeat split.
  - fold changed. now destruct (Double.ltb _ _).
  - rewrite (count_ext (differs data_new data_old) (differs data_old data_new));
      [reflexivity|].
    intros a _. apply differs_sym.
  - rewrite count_none by (intros a _; apply differs_refl).
    now rewrite threshold_not_negative.
Qed.

(** At scale 1 the rectangle is 220 by 33 pixels at column 98 and row 152,
    and the threshold is 300 pixels.  A textbox that appears on a black
    frame changes all 7260 pixels and is reported; 301 changed pixels of
    the rectangle are reported and 300 are not; a change of the first pixel
    of the frame, outside the rectangle, is not. *)
Lemma compare_textboxes_spec_witness :
  textbox_part small_screen = rect 98 152 220 33
  /\ count (differs black opened)
           (pixel_offsets small_wrap (rect 98 152 220 33)) = 7260
  /\ compare_textboxes black opened small_wrap small_screen = true
  /\ compare_textboxes opened black small_wrap small_screen = true
  /\ count (differs black (first_pixels 301))
           (pixel_offsets small_wrap (rect 98 152 220 33)) = 301
  /\ compare_textboxes black (first_pixels 301) small_wrap small_screen = true
  /\ count (differs black (first_pixels 300))
           (pixel_offsets small_wrap (rect 98 152 220 33)) = 300
  /\ compare_textboxes black (first_pixels 300) small_wrap small_screen = false
  /\ differs black corner 0 = true
  /\ compare_textboxes black corner small_wrap small_screen = false
  /\ compare_textboxes opened opened small_wrap small_screen = false.
Proof.
  destruct (compare_textboxes_spec black opened small_wrap small_screen)
    as (Hall & Hsym & _).
  destruct (compare_textboxes_spec black (first_pixels 301) small_wrap
              small_screen) as (H301 & _ & _).
  destruct (compare_textboxes_spec black (first_pixels 300) small_wrap
              small_screen) as (H300 & _ & _).
  destruct (compare_textboxes_spec black corner small_wrap small_screen)
    as (Hcorner & _ & _).
  destruct (compare_textboxes_spec opened opened small_wrap small_screen)
    as (_ & _ & Hopened).
  cbv zeta in Hall, H301, H300, Hcorner.
  split; [vm_compute; reflexivity|].
  split; [vm_compute; reflexivity|].
  split; [rewrite Hall; vm_compute; reflexivity|].
  split; [rewrite <- Hsym, Hall; vm_compute; reflexivity|].
  split; [vm_compute; reflexivity|].
  split; [rewrite H301; vm_compute; reflexivity|].
  split; [vm_compute; reflexivity|].
  split; [rewrite H300; vm_compute; reflexivity|].
  split; [vm_compute; reflexivity|].
  split; [rewrite Hcorner; vm_compute; reflexivity|].
  exact Hopened.
Defined.

(** At scale 1 the threshold is 300 pixels, and it has to be exceeded. *)
Lemma compare_textboxes_small_screen data_old data_new :
  compare_textboxes data_old data_new small_wrap small_screen
  = (300 <? count (differs data_old data_new)
                  (pixel_offsets small_wrap (textbox_part small_screen))).
Proof.
  unfold compare_textboxes. rewrite changed_count_spec.
  change (Double.mul (Double.mul (Double.of_int 300)
                                 (magnification small_screen))
                     (magnification small_screen))
    with (Double.of_int 300).
  pose proof (count_nonneg (differs data_old data_new)
                (pixel_offsets small_wrap (textbox_part small_screen))) as H0.
  pose proof (count_negb (differs data_old data_new)
                (pixel_offsets small_wrap (textbox_part small_screen))) as H1.
  pose proof (count_nonneg (fun a => negb (differs data_old data_new a))
                (pixel_offsets small_wrap (textbox_part small_screen))) as H2.
  rewrite length_pixel_offsets in H1.
  change (Z.max 0 (x_size (textbox_part small_screen))
          * Z.max 0 (y_size (textbox_part small_screen))) with 7260 in H1.
  rewrite of_int_ltb by lia.
  now destruct (300 <? _).
Qed.

(** ** Frame history buffer (C10) *)

Lemma copy_row_spec n old_data data pixel j a :
  copy_row n old_data data pixel j a
  = if (pixel + j <=? a) && (a <? pixel + j + 3 * Z.of_nat n)
    then data a else old_data a.
Proof.
  revert old_data j. induction n as [|n IH]; intros old_data j.
  - cbn [copy_row].
    destruct (Z.leb_spec (pixel + j) a),
             (Z.ltb_spec a (pixel + j + 3 * Z.of_nat 0));
      cbn [andb]; try reflexivity; lia.
  - cbn [copy_row]. rewrite IH. unfold store.
    destruct (Z.leb_spec (pixel + (j + 3)) a),
             (Z.ltb_spec a (pixel + (j + 3) + 3 * Z.of_nat n)),
             (Z.leb_spec (pixel + j) a),
             (Z.ltb_spec a (pixel + j + 3 * Z.of_nat (S n)));
      cbn [andb]; try reflexivity; try lia;
      destruct (Z.eqb_spec a (pixel + (j + 2))); try (subst a; reflexivity);
      destruct (Z.eqb_spec a (pixel + (j + 1))); try (subst a; reflexivity);
      destruct (Z.eqb_spec a (pixel + j)); try (subst a; reflexivity);
      try reflexivity; lia.
Qed.

Lemma copy_row_in_row old_data data wrap r i a :
  copy_row (Z.to_nat (x_size r)) old_data data
           (i * wrap + 3 * x (top_left r)) 0 a
  = data a /\ in_row wrap r i a
  \/ copy_row (Z.to_nat (x_size r)) old_data data
              (i * wrap + 3 * x (top_left r)) 0 a
     = old_data a /\ ~ in_row wrap r i a.
Proof.
  rewrite copy_row_spec. unfold in_row.
  destruct (Z.leb_spec (i * wrap + 3 * x (top_left r) + 0) a),
           (Z.ltb_spec a (i * wrap + 3 * x (top_left r) + 0
                          + 3 * Z.of_nat (Z.to_nat (x_size r))));
    cbn [andb]; [left|right|right|right]; split; try reflexivity; lia.
Qed.

Lemma copy_rows_keeps n old_data data wrap r i a :
  old_data a = data a -> copy_rows n old_data data wrap r i a = data a.
Proof.
  revert old_data i. induction n as [|n IH]; intros old_data i H.
  - exact H.
  - cbn [copy_rows]. apply IH.
    destruct (copy_row_in_row old_data data wrap r i a) as [[E _]|[E _]];
      rewrite E; [reflexivity|exact H].
Qed.

Lemma copy_rows_outside n old_data data wrap r i0 a :
  (forall i, i0 <= i < i0 + Z.of_nat n -> ~ in_row wrap r i a) ->
  copy_rows n old_data data wrap r i0 a = old_data a.
Proof.
  revert old_data i0. induction n as [|n IH]; intros old_data i0 H.
  - reflexivity.
  - cbn [copy_rows]. rewrite IH by (intros i Hi; apply H; lia).
    destruct (copy_row_in_row old_data data wrap r i0 a) as [[_ E]|[E _]].
    + exfalso. apply (H i0); [lia|exact E].
    + exact E.
Qed.

Lemma copy_rows_inside n old_data data wrap r i0 a :
  (exists i, i0 <= i < i0 + Z.of_nat n /\ in_row wrap r i a) ->
  copy_rows n old_data data wrap r i0 a = data a.
Proof.
  revert old_data i0. induction n as [|n IH]; intros old_data i0 (i & Hi & Ha).
  - lia.
  - cbn [copy_rows].
    destruct (copy_row_in_row old_data data wrap r i0 a) as [[E _]|[_ E]].
    + apply copy_rows_keeps, E.
    + apply IH. exists i. split; [|exact Ha].
      assert (i <> i0) by (intros ->; contradiction). lia.
Qed.

(** The saved image depends on the bytes of the saved rectangle only. *)
Lemma save_rows_ext n b1 b2 wrap part i written :
  (forall i' a, i <= i' < i + Z.of_nat n -> in_row wrap part i' a ->
                b1 a = b2 a) ->
  save_rows n b1 wrap part i written = save_rows n b2 wrap part i written.
Proof.
  revert i written. induction n as [|n IH]; intros i written H.
  - reflexivity.
  - cbn [save_rows].
    assert (E : fwrite b1 (i * wrap + 3 * x (top_left part))
                       (Z.to_nat (3 * x_size part))
                = fwrite b2 (i * wrap + 3 * x (top_left part))
                         (Z.to_nat (3 * x_size part))).
    { unfold fwrite. apply map_ext_in. intros k Hk. apply in_seq in Hk.
      apply (H i); [lia|]. unfold in_row. lia. }
    rewrite E. apply IH. intros i' a Hi. apply H. lia.
Qed.

(** The history buffer shows the textbox of the frame copied into it. *)
Lemma save_textbox_copy_data old_data data wrap ts :
  save_textbox (copy_data old_data data wrap ts) wrap ts
  = save_textbox data wrap ts.
Proof.
  unfold save_textbox, save_part. f_equal.
  apply save_rows_ext. intros i a Hi Ha.
  unfold copy_data. apply copy_rows_inside. exists i. split; [lia|exact Ha].
Qed.

(** C10: [copy_data] overwrites only the textbox content rectangle of the
    history buffer, with the bytes of the current frame: every byte outside
    the rows and columns of that rectangle is left unchanged, and every byte
    inside it is the current frame's. *)
Theorem copy_data_frame :
  forall (old_data data : buffer) (wrap : Z) (top_screen : rectangle_coords)
         (a : Z),
    (~ in_rectangle wrap (textbox_part top_screen) a ->
     copy_data old_data data wrap top_screen a = old_data a)
    /\ (in_rectangle wrap (textbox_part top_screen) a ->
        copy_data old_data data wrap top_screen a = data a).
Proof.
  intros old_data data wrap ts a. unfold copy_data, in_rectangle. split.
  - intros H. apply copy_rows_outside. intros i Hi Ha. apply H.
    exists i. split; [lia|exact Ha].
  - intros (i & Hi & Ha). apply copy_rows_inside.
    exists i. split; [lia|exact Ha].
Qed.

(** On the small stream the textbox content rectangle has its top-left
    pixel at column 98 of row 152: byte 0 is outside, the first byte of that
    pixel is inside. *)
Lemma copy_data_frame_witness :
  copy_data black white small_wrap small_screen 0 = x00
  /\ copy_data black white small_wrap small_screen (152 * 1023 + 3 * 98)
     = xff.
Proof.
  split.
  - apply (proj1 (copy_data_frame black white small_wrap small_screen 0)).
    intros (i & Hi & Ha). vm_compute in Hi. unfold in_row in Ha.
    change (x (top_left (textbox_part small_screen))) with 98 in Ha.
    change (x_size (textbox_part small_screen)) with 220 in Ha.
    unfold small_wrap in Ha. lia.
  - apply (proj2 (copy_data_frame black white small_wrap small_screen
                    (152 * 1023 + 3 * 98))).
    exists 152. split; [vm_compute; intuition congruence|].
    unfold in_row.
    change (x (top_left (textbox_part small_screen))) with 98.
    change (x_size (textbox_part small_screen)) with 220.
    unfold small_wrap. lia.
Defined.

(** ** Extraction state machine (C4, C8) *)

Lemma is_open_cases code : is_open code = true -> code = 1 \/ code = 5.
Proof. unfold is_open. rewrite orb_true_iff, !Z.eqb_eq. tauto. Qed.

Lemma is_scroll_cases code :
  is_scroll code = true -> code = 2 \/ code = 3 \/ code = 4.
Proof. unfold is_scroll. rewrite !orb_true_iff, !Z.eqb_eq. tauto. Qed.

(** The per-frame body of [decode] on three kinds of transition. *)
Section Steps.
Variable read_text : ppm -> string.

Lemma decode_frame_opens st data wrap ts :
  old_textbox st = NONE ->
  is_open (textbox data wrap ts) = true ->
  decode_frame read_text st data wrap ts
  = end_of_frame (capture_current read_text st data wrap ts) data wrap ts
                 (textbox data wrap ts).
Proof.
  intros Hold Hnew. unfold decode_frame, transition. rewrite Hold, Hnew.
  apply is_open_cases in Hnew. destruct Hnew as [-> | ->]; reflexivity.
Qed.

Lemma decode_frame_scroll_begins st data wrap ts :
  is_open (old_textbox st) = true ->
  is_scroll (textbox data wrap ts) = true ->
  insta_textbox st = false ->
  decode_frame read_text st data wrap ts
  = end_of_frame (capture_before_scroll read_text st wrap ts) data wrap ts
                 (textbox data wrap ts).
Proof.
  intros Hold Hnew Hinsta. unfold decode_frame, transition.
  rewrite Hold, Hnew.
  apply is_open_cases in Hold. apply is_scroll_cases in Hnew.
  destruct Hold as [E | E]; rewrite E;
    destruct Hnew as [E' | [E' | E']]; rewrite E';
    cbn [Z.eqb Pos.eqb is_open orb andb negb]; rewrite Hinsta; reflexivity.
Qed.

Lemma decode_frame_after_scroll st data wrap ts :
  is_scroll (old_textbox st) = true ->
  decode_frame read_text st data wrap ts
  = end_of_frame
      (if textbox data wrap ts =? NONE
       then set_insta_textbox (set_only_second_line st true) false
       else set_only_second_line st true)
      data wrap ts (textbox data wrap ts).
Proof.
  intros Hold. unfold decode_frame, transition. rewrite Hold.
  apply is_scroll_cases in Hold.
  destruct Hold as [E | [E | E]]; rewrite E; reflexivity.
Qed.

Lemma decode_frame_suppressed st data wrap ts :
  is_open (old_textbox st) = true ->
  is_open (textbox data wrap ts) = false ->
  insta_textbox st = true ->
  decode_frame read_text st data wrap ts
  = end_of_frame
      (if textbox data wrap ts =? NONE then set_insta_textbox st false else st)
      data wrap ts (textbox data wrap ts).
Proof.
  intros Hold Hnew Hinsta.
  destruct st as [old insta second history out caps].
  cbn [old_textbox insta_textbox] in Hold, Hinsta. subst insta.
  unfold decode_frame, transition. cbn [old_textbox]. rewrite Hold, Hnew.
  apply is_open_cases in Hold.
  destruct Hold as [-> | ->];
    cbv zeta; cbn [Z.eqb Pos.eqb insta_textbox negb andb];
    rewrite ?andb_false_r; cbn [insta_textbox negb andb];
    rewrite ?andb_false_r; reflexivity.
Qed.

End Steps.

(** A textbox that opens with text recognised at once, then scrolls: the
    capture at the opening sets [insta_textbox], the scroll captures
    nothing. *)
Lemma run_typed_scrolling :
  decode hello 341 192 small_wrap [typed; scrolling] (initial black)
  = {| old_textbox := SCROLL_A; insta_textbox := true;
       only_second_line := false;
       old_frame :=
         copy_data (copy_data black typed small_wrap small_screen)
                   scrolling small_wrap small_screen;
       file := EmptyString;
       captures :=
         [{| captured_region := whole_textbox;
             captured_image := save_textbox typed small_wrap small_screen |}]
    |}.
Proof.
  unfold decode. cbn [fold_left].
  change (top_screen_coords 341 192) with small_screen.
  assert (Htyped : is_open (textbox typed small_wrap small_screen) = true)
    by (rewrite textbox_typed; reflexivity).
  assert (Hscrolling :
            is_open (textbox scrolling small_wrap small_screen) = false)
    by (rewrite textbox_scrolling; reflexivity).
  rewrite (decode_frame_opens hello (initial black) typed small_wrap
             small_screen eq_refl Htyped).
  unfold capture_current. rewrite empty_textbox_typed, textbox_typed.
  cbn [hello String.length Z.of_nat Z.ltb Z.compare Pos.of_succ_nat
       Pos.succ Pos.compare Pos.compare_cont].
  match goal with
  | |- decode_frame hello (end_of_frame ?a ?b ?c ?d ?e) _ _ _ = _ =>
      rewrite (decode_frame_suppressed hello (end_of_frame a b c d e)
                 scrolling small_wrap small_screen eq_refl Hscrolling eq_refl)
  end.
  rewrite textbox_scrolling. reflexivity.
Qed.

(** The flicker scenario of the specification: a textbox that opens with
    text recognised at once and is gone on the next frame is captured once,
    at its opening, and nothing is written. *)
Example flicker_scenario :
  let st := decode hello 341 192 small_wrap [typed; black] (initial black) in
  captures st
  = [{| captured_region := whole_textbox;
        captured_image := save_textbox typed small_wrap small_screen |}]
  /\ file st = EmptyString
  /\ insta_textbox st = false
  /\ old_textbox st = NONE.
Proof.
  cbv zeta. unfold decode. cbn [fold_left].
  change (top_screen_coords 341 192) with small_screen.
  assert (Htyped : is_open (textbox typed small_wrap small_screen) = true)
    by (rewrite textbox_typed; reflexivity).
  assert (Hblack : is_open (textbox black small_wrap small_screen) = false)
    by (rewrite textbox_black; reflexivity).
  rewrite (decode_frame_opens hello (initial black) typed small_wrap
             small_screen eq_refl Htyped).
  unfold capture_current. rewrite empty_textbox_typed, textbox_typed.
  cbn [hello String.length Z.of_nat Z.ltb Z.compare Pos.of_succ_nat
       Pos.succ Pos.compare Pos.compare_cont].
  match goal with
  | |- context [decode_frame hello (end_of_frame ?a ?b ?c ?d ?e) black _ _] =>
      rewrite (decode_frame_suppressed hello (end_of_frame a b c d e)
                 black small_wrap small_screen eq_refl Hblack eq_refl)
  end.
  rewrite textbox_black. repeat split.
Qed.

(** C4: on a frame classified NONE that follows an OPEN or LARGE_TEXT
    frame with [insta_textbox] set, no capture is requested and nothing is
    written; and on every frame classified NONE [insta_textbox] is cleared. *)
Theorem flicker_suppressed :
  forall (read_text : ppm -> string) (st : decoder) (data : buffer)
         (wrap : Z) (top_screen : rectangle_coords),
    textbox data wrap top_screen = NONE ->
    let st' := decode_frame read_text st data wrap top_screen in
    insta_textbox st' = false
    /\ (is_open (old_textbox st) = true ->
        insta_textbox st = true ->
        captures st' = captures st /\ file st' = file st).
Proof.
  intros read_text st data wrap ts Hnew st'. subst st'.
  unfold decode_frame. rewrite Hnew. split; [reflexivity|].
  intros Hold Hinsta. destruct st as [old insta second history out caps].
  cbn in Hold, Hinsta. subst insta. unfold transition.
  cbn [old_textbox insta_textbox].
  apply is_open_cases in Hold. destruct Hold; subst old; cbn; auto.
Qed.

Lemma flicker_suppressed_witness :
  let st := {| old_textbox := OPEN; insta_textbox := true;
               only_second_line := false; old_frame := white;
               file := "Hello"; captures := [] |} in
  let st' := decode_frame no_text st black small_wrap small_screen in
  insta_textbox st' = false /\ captures st' = [] /\ file st' = "Hello"%string.
Proof.
  intros st st'.
  destruct (flicker_suppressed no_text st black small_wrap small_screen)
    as [H1 H2]; [vm_compute; reflexivity|].
  split; [exact H1|]. apply H2; reflexivity.
Defined.

(** C8, as stated, fails: after a scroll frame, a frame classified NONE
    clears [insta_textbox], a change of state that is neither the setting
    of [only_second_line] nor part of the end-of-frame update.  The state
    is the one reached from the initial state by a textbox that opens with
    text recognised at once and then scrolls. *)
Lemma previous_scroll_clears_insta :
  let st := decode hello 341 192 small_wrap [typed; scrolling]
                   (initial black) in
  let st' := decode_frame hello st black small_wrap small_screen in
  is_scroll (old_textbox st) = true
  /\ insta_textbox st = true
  /\ textbox black small_wrap small_screen = NONE
  /\ insta_textbox st' = false
  /\ insta_textbox st'
     <> insta_textbox
          (end_of_frame (set_only_second_line st true) black small_wrap
                        small_screen (textbox black small_wrap small_screen)).
Proof.
  cbv zeta. rewrite run_typed_scrolling.
  rewrite decode_frame_after_scroll by reflexivity.
  rewrite textbox_black.
  cbn [end_of_frame set_only_second_line set_insta_textbox Z.eqb NONE
       old_textbox insta_textbox].
  repeat split. discriminate.
Qed.

(** C8, as amended: when the previous frame was a scroll frame, no capture
    is requested and nothing is written, whatever the current code is;
    [only_second_line] is set, [insta_textbox] is cleared when the current
    code is NONE and kept otherwise, and the end of the frame updates the
    history and the previous code. *)
Theorem previous_scroll_no_capture :
  forall (read_text : ppm -> string) (st : decoder) (data : buffer)
         (wrap : Z) (top_screen : rectangle_coords),
    is_scroll (old_textbox st) = true ->
    let new_textbox := textbox data wrap top_screen in
    let st' := decode_frame read_text st data wrap top_screen in
    captures st' = captures st
    /\ file st' = file st
    /\ only_second_line st' = true
    /\ insta_textbox st'
       = (if new_textbox =? NONE then false else insta_textbox st)
    /\ old_textbox st' = new_textbox
    /\ old_frame st' = copy_data (old_frame st) data wrap top_screen.
Proof.
  intros read_text st data wrap ts Hold new st'. subst st' new.
  unfold decode_frame, transition.
  apply is_scroll_cases in Hold.
  destruct st as [old insta second history out caps]. cbn in Hold.
  cbn [old_textbox].
  destruct Hold as [->|[->| ->]]; cbn [Z.eqb is_open is_scroll orb Pos.eqb];
    destruct (textbox data wrap ts =? 0) eqn:E; unfold NONE; rewrite ?E;
    repeat split.
Qed.

Lemma previous_scroll_no_capture_witness :
  let st := {| old_textbox := SCROLL_B; insta_textbox := true;
               only_second_line := false; old_frame := white;
               file := "Hello"; captures := [] |} in
  let st' := decode_frame no_text st scrolling small_wrap small_screen in
  captures st' = [] /\ file st' = "Hello"%string
  /\ only_second_line st' = true /\ insta_textbox st' = true
  /\ old_textbox st' = SCROLL_A.
Proof.
  intros st st'.
  destruct (previous_scroll_no_capture no_text st scrolling small_wrap
              small_screen)
    as (H1 & H2 & H3 & H4 & H5 & _); [reflexivity|].
  rewrite textbox_scrolling in H4, H5.
  exact (conj H1 (conj H2 (conj H3 (conj H4 H5)))).
Defined.

(** ** The capture at the start of a scroll (C2) *)

(** Lines 452-458 save the whole textbox of the previous frame whether or
    not [only_second_line] is set, and leave the flag as it is. *)
Lemma scroll_capture_ignores_second_line :
  forall (read_text : ppm -> string) (st : decoder) (data : buffer)
         (wrap : Z) (top_screen : rectangle_coords),
    is_open (old_textbox st) = true ->
    is_scroll (textbox data wrap top_screen) = true ->
    insta_textbox st = false ->
    let st' := decode_frame read_text st data wrap top_screen in
    let image := save_textbox (old_frame st) wrap top_screen in
    captures st'
    = captures st
      ++ [{| captured_region := whole_textbox; captured_image := image |}]
    /\ file st' = (file st ++ read_text image)%string
    /\ only_second_line st' = only_second_line st.
Proof.
  intros read_text st data wrap ts Hold Hnew Hinsta st' image.
  subst st' image. unfold decode_frame, transition.
  apply is_open_cases in Hold. apply is_scroll_cases in Hnew.
  destruct st as [old insta second history out caps].
  cbn in Hold, Hinsta. subst insta. cbn [old_textbox insta_textbox].
  destruct Hold as [->| ->], Hnew as [->|[->| ->]]; cbn; auto.
Qed.

(** With [only_second_line] set, an OPEN frame followed by a SCROLL_A frame
    is captured through [save_textbox], the whole textbox content
    rectangle, not through [save_second_line], and the flag stays set. *)
Lemma scroll_capture_at_pending_second_line :
  forall read_text : ppm -> string,
    let st := {| old_textbox := OPEN; insta_textbox := false;
                 only_second_line := true; old_frame := white;
                 file := EmptyString; captures := [] |} in
    let st' := decode_frame read_text st scrolling small_wrap small_screen in
    textbox scrolling small_wrap small_screen = SCROLL_A
    /\ captures st'
       = [{| captured_region := whole_textbox;
             captured_image := save_textbox white small_wrap small_screen |}]
    /\ captures st'
       <> [{| captured_region := second_line;
              captured_image :=
                save_second_line white small_wrap small_screen |}]
    /\ file st' = read_text (save_textbox white small_wrap small_screen)
    /\ only_second_line st' = true.
Proof.
  intros read_text st st'.
  destruct (scroll_capture_ignores_second_line read_text st scrolling
              small_wrap small_screen) as (H1 & H2 & H3);
    [reflexivity | rewrite textbox_scrolling; reflexivity | reflexivity |].
  fold st' in H1, H2, H3. cbn [captures file only_second_line st app] in *.
  split; [exact textbox_scrolling|].
  split; [exact H1|].
  split; [rewrite H1; intros E; discriminate E|].
  split; [exact H2|exact H3].
Qed.

(** C2 fails on the code.  From the initial state, on a textbox that opens
    empty, scrolls, shows its next two lines and scrolls again, the second
    scroll finds [only_second_line] set and still captures the whole textbox
    content rectangle of the previous frame, through [save_textbox]: no
    capture uses the second-line rectangle, and the flag stays set. *)
Theorem second_scroll_captures_whole_textbox :
  forall (read_text : ppm -> string) (history : buffer),
    let st := decode read_text 341 192 small_wrap
                     [opened; scrolling; typed; scrolling] (initial history) in
    map (fun data => textbox data small_wrap small_screen)
        [opened; scrolling; typed; scrolling]
    = [OPEN; SCROLL_A; OPEN; SCROLL_A]
    /\ captures st
       = [ {| captured_region := whole_textbox;
              captured_image := save_textbox opened small_wrap small_screen |};
           {| captured_region := whole_textbox;
              captured_image := save_textbox opened small_wrap small_screen |};
           {| captured_region := whole_textbox;
              captured_image := save_textbox typed small_wrap small_screen |} ]
    /\ file st
       = (read_text (save_textbox opened small_wrap small_screen)
          ++ read_text (save_textbox typed small_wrap small_screen))%string
    /\ only_second_line st = true.
Proof.
  intros read_text history st. subst st.
  split.
  { cbn [map].
    now rewrite textbox_opened, textbox_scrolling, textbox_typed. }
  unfold decode. cbn [fold_left].
  change (top_screen_coords 341 192) with small_screen.
  assert (Hopened : is_open (textbox opened small_wrap small_screen) = true)
    by (rewrite textbox_opened; reflexivity).
  assert (Hscrolling :
            is_scroll (textbox scrolling small_wrap small_screen) = true)
    by (rewrite textbox_scrolling; reflexivity).
  (* the textbox opens, empty *)
  rewrite (decode_frame_opens read_text (initial history) opened small_wrap
             small_screen eq_refl Hopened).
  unfold capture_current. rewrite empty_textbox_opened, textbox_opened.
  (* the first scroll begins *)
  match goal with
  | |- context [decode_frame read_text (end_of_frame ?a ?b ?c ?d ?e)
                             scrolling small_wrap small_screen] =>
      rewrite (decode_frame_scroll_begins read_text (end_of_frame a b c d e)
                 scrolling small_wrap small_screen eq_refl Hscrolling eq_refl)
  end.
  rewrite textbox_scrolling.
  (* the scroll has ended, the textbox shows the next two lines *)
  match goal with
  | |- context [decode_frame read_text (end_of_frame ?a ?b ?c ?d ?e)
                             typed small_wrap small_screen] =>
      rewrite (decode_frame_after_scroll read_text (end_of_frame a b c d e)
                 typed small_wrap small_screen eq_refl)
  end.
  rewrite textbox_typed. cbn [Z.eqb OPEN NONE].
  (* the second scroll begins *)
  match goal with
  | |- context [decode_frame read_text (end_of_frame ?a ?b ?c ?d ?e)
                             scrolling small_wrap small_screen] =>
      rewrite (decode_frame_scroll_begins read_text (end_of_frame a b c d e)
                 scrolling small_wrap small_screen eq_refl Hscrolling eq_refl)
  end.
  cbn [end_of_frame capture_before_scroll write_file request
       set_only_second_line set_insta_textbox initial
       old_textbox insta_textbox only_second_line old_frame file captures app].
  rewrite !save_textbox_copy_data.
  split; [reflexivity|]. split; reflexivity.
Qed.

(** * Further properties of the code *)

(** ** Region sampler: only the rectangle is read *)

(** The three bytes of a pixel of a rectangle are bytes of the rectangle. *)
Lemma pixel_in_rectangle wrap r p :
  In p (pixel_offsets wrap r) ->
  in_rectangle wrap r p /\ in_rectangle wrap r (p + 1)
  /\ in_rectangle wrap r (p + 2).
Proof.
  intros Hp. apply in_pixel_offsets in Hp as (i & k & Hi & Hk & ->).
  unfold in_rectangle, in_row.
  repeat split; exists i; (split; [exact Hi|lia]).
Qed.

Lemma white_counts_ext d1 d2 wrap r c :
  agree_on wrap r d1 d2 ->
  white_counts d1 wrap r c = white_counts d2 wrap r c.
Proof.
  intros H. rewrite !white_counts_spec.
  assert (E : forall p, In p (pixel_offsets wrap r) ->
                        white_pixel d1 p c = white_pixel d2 p c).
  { intros p Hp. destruct (pixel_in_rectangle wrap r p Hp) as (H0 & H1 & H2).
    unfold white_pixel. now rewrite (H _ H0), (H _ H1), (H _ H2). }
  f_equal; apply count_ext; intros p Hp; now rewrite (E p Hp).
Qed.

Lemma white_rectangle_ext d1 d2 wrap r t c :
  agree_on wrap r d1 d2 ->
  white_rectangle d1 wrap r t c = white_rectangle d2 wrap r t c.
Proof.
  intros H. unfold white_rectangle. now rewrite (white_counts_ext d1 d2).
Qed.

(** X1: the region sampler reads only the bytes of its rectangle: on two
    frames that hold the same bytes there, it counts the same numbers of
    white and not-white pixels and gives the same verdict, whatever the
    tolerance and the brightness threshold. *)
Theorem white_rectangle_local :
  forall (d1 d2 : buffer) (wrap : Z) (r : rectangle_coords) (t : double)
         (c : Z),
    agree_on wrap r d1 d2 ->
    white_counts d1 wrap r c = white_counts d2 wrap r c
    /\ white_rectangle d1 wrap r t c = white_rectangle d2 wrap r t c.
Proof.
  intros d1 d2 wrap r t c H. split.
  - apply white_counts_ext, H.
  - apply white_rectangle_ext, H.
Qed.

(** The frames [nine_of_ten] and [black] differ in row 0 and agree on
    row 1. *)
Lemma white_rectangle_local_witness :
  white_counts nine_of_ten 30 (rect 0 1 10 1) 235
  = white_counts black 30 (rect 0 1 10 1) 235
  /\ white_rectangle nine_of_ten 30 (rect 0 1 10 1) (Double.of_int 1) 235
     = white_rectangle black 30 (rect 0 1 10 1) (Double.of_int 1) 235.
Proof.
  apply (white_rectangle_local nine_of_ten black 30 (rect 0 1 10 1)
           (Double.of_int 1) 235).
  intros a (i & Hi & Ha). unfold in_row in Ha. cbn in Hi, Ha.
  unfold nine_of_ten, black.
  destruct (Z.ltb_spec a 27); [lia|reflexivity].
Defined.

(** ** Region sampler: white rectangles and brighter frames *)

(** A product with the count 0 never exceeds a count. *)
Lemma count_not_below_zero_product (t : double) (n : Z) :
  0 <= n ->
  Double.ltb (Double.of_int n) (Double.mul t (Double.of_int 0)) = false.
Proof.
  intros Hn. destruct (of_int_nonneg n Hn) as (Nn & _ & _).
  assert (Nn' : nonneg_or_nan (Double.of_int n)).
  { revert Nn.
    destruct (Double.of_int n) as [?|[|]| |[|] ? ?]; cbn; tauto. }
  unfold Double.ltb.
  destruct t as [s|s| |s m e]; cbn [Double.mul Double.of_int
                                     binary_normalize SFmul];
    try apply nonneg_not_below_zero; try exact Nn';
    destruct (Double.of_int n) as [?|[|]| |[|] ? ?]; reflexivity.
Qed.

Lemma all_white_accepted data wrap r t c :
  (forall p, In p (pixel_offsets wrap r) -> is_white data c p) ->
  white_rectangle data wrap r t c = true.
Proof.
  intros H. unfold white_rectangle.
  rewrite white_counts_spec.
  rewrite (count_none (fun p => negb (white_pixel data p c))).
  - rewrite count_not_below_zero_product by apply count_nonneg. reflexivity.
  - intros p Hp. apply negb_false_iff, white_pixel_spec, H, Hp.
Qed.

(** X2: a rectangle all of whose pixels are white is accepted by the region
    sampler under every tolerance: negative, infinite and NaN tolerances
    included. *)
Theorem white_rectangle_all_white :
  forall (data : buffer) (wrap : Z) (r : rectangle_coords) (t : double)
         (c : Z),
    (forall p, In p (pixel_offsets wrap r) -> is_white data c p) ->
    white_rectangle data wrap r t c = true.
Proof.
  intros data wrap r t c H. apply all_white_accepted, H.
Qed.

Lemma white_rectangle_all_white_witness :
  white_rectangle white 1023 (textbox_part small_screen) S754_nan 235 = true.
Proof.
  apply (white_rectangle_all_white white 1023 (textbox_part small_screen)
           S754_nan 235).
  intros p _. unfold is_white, white. cbn. lia.
Defined.

Lemma mul_comm (a b : double) : Double.mul a b = Double.mul b a.
Proof.
  unfold Double.mul.
  destruct a as [sa|sa| |sa ma ea], b as [sb|sb| |sb mb eb]; cbn [SFmul];
    try reflexivity; try (now rewrite xorb_comm).
  now rewrite xorb_comm, Pos.mul_comm, Z.add_comm.
Qed.

Lemma SFleb_refl (a : double) : a <> S754_nan -> SFleb a a = true.
Proof.
  destruct a as [s|[|]| |[|] m e]; try reflexivity; try congruence; intros _;
    unfold SFleb, SFcompare;
    rewrite Z.compare_refl, Pos.compare_cont_refl; reflexivity.
Qed.

Lemma SFltb_leb a b : SFltb a b = true -> SFleb a b = true.
Proof.
  unfold SFltb, SFleb. destruct (SFcompare a b) as [[| |]|]; congruence.
Qed.

(** For a positive tolerance the product grows with the count. *)
Lemma mul_mono_count mx ex n n' :
  Double.valid (S754_finite false mx ex) = true ->
  0 < n <= n' -> n' < 2 ^ 53 ->
  SFleb (Double.mul (S754_finite false mx ex) (Double.of_int n))
        (Double.mul (S754_finite false mx ex) (Double.of_int n')) = true.
Proof.
  intros Vt Hn Hn'.
  destruct (Z.eq_dec n n') as [<-|Ne].
  - apply SFleb_refl. destruct n as [|p|p]; try lia.
    destruct (of_int_small p) as (m & e & E & _); [lia|]. rewrite E.
    unfold Double.mul. cbn [SFmul xorb]. apply (bra_not_nan false).
    reflexivity.
  - assert (Hlt : Double.ltb (Double.of_int n) (Double.of_int n') = true)
      by (rewrite of_int_ltb by lia; apply Z.ltb_lt; lia).
    destruct n as [|p|p]; try lia. destruct n' as [|p'|p']; try lia.
    destruct (of_int_small p) as (m & e & E & V); [lia|].
    destruct (of_int_small p') as (m' & e' & E' & V'); [lia|].
    rewrite E, E' in *.
    rewrite (mul_comm _ (S754_finite false m e)),
            (mul_comm _ (S754_finite false m' e')).
    apply mul_mono; assumption.
Qed.

Lemma mul_nonneg (t : double) (n : Z) :
  finite_nonneg t = true -> 0 <= n < 2 ^ 53 ->
  nonneg_or_nan (Double.mul t (Double.of_int n)).
Proof.
  intros Ht Hn. destruct n as [|p|p]; try lia.
  - destruct t as [?|?| |[|] ? ?]; try discriminate; exact I.
  - destruct (of_int_small p) as (m & e & E & _); [lia|]. rewrite E.
    destruct t as [?|?| |[|] mx ex]; try discriminate; [exact I|].
    unfold Double.mul. cbn [SFmul xorb]. apply bra_nonneg.
Qed.

Lemma of_int_nonneg_or_nan n : 0 <= n -> nonneg_or_nan (Double.of_int n).
Proof.
  intros Hn. destruct (of_int_nonneg n Hn) as (N & _ & _). revert N.
  destruct (Double.of_int n) as [?|[|]| |[|] ? ?]; cbn; tauto.
Qed.

(** A rejection persists when white pixels become not-white. *)
Lemma reject_mono (t : double) (w w' nw nw' : Z) :
  Double.valid t = true -> finite_nonneg t = true ->
  0 <= w <= w' -> w' < 2 ^ 53 -> 0 <= nw' <= nw -> nw < 2 ^ 53 ->
  Double.ltb (Double.of_int w') (Double.mul t (Double.of_int nw')) = true ->
  Double.ltb (Double.of_int w) (Double.mul t (Double.of_int nw)) = true.
Proof.
  intros Vt Ht Hw Hw' Hn Hn' H.
  assert (H1 : Double.ltb (Double.of_int w)
                          (Double.mul t (Double.of_int nw')) = true).
  { destruct (Z.eq_dec w w') as [->|Ne]; [exact H|].
    apply (SFlt_le_trans _ (Double.of_int w')).
    - apply of_int_nonneg_or_nan. lia.
    - apply of_int_nonneg_or_nan. lia.
    - apply mul_nonneg; [exact Ht|lia].
    - change (Double.ltb (Double.of_int w) (Double.of_int w') = true).
      rewrite of_int_ltb by lia. apply Z.ltb_lt. lia.
    - apply SFltb_leb. exact H. }
  destruct t as [s|s| |[|] mx ex]; try discriminate Ht.
  - exfalso. clear H. revert H1. unfold Double.ltb.
    assert (E : exists s', Double.mul (S754_zero s) (Double.of_int nw')
                           = S754_zero s').
    { destruct nw' as [|p|p]; try lia; [eexists; reflexivity|].
      destruct (of_int_small p) as (m & e & E & _); [lia|]. rewrite E.
      eexists. reflexivity. }
    destruct E as (s' & ->).
    rewrite nonneg_not_below_zero by (apply of_int_nonneg_or_nan; lia).
    discriminate.
  - destruct (Z.eq_dec nw' 0) as [->|Nz].
    + exfalso. revert H1. unfold Double.ltb.
      change (Double.mul (S754_finite false mx ex) (Double.of_int 0))
        with (S754_zero false).
      rewrite nonneg_not_below_zero by (apply of_int_nonneg_or_nan; lia).
      discriminate.
    + apply (SFlt_le_trans _ _ _
               (of_int_nonneg_or_nan w (proj1 Hw))
               (mul_nonneg (S754_finite false mx ex) nw' eq_refl
                           ltac:(lia))
               (mul_nonneg (S754_finite false mx ex) nw eq_refl
                           ltac:(lia)) H1).
      apply mul_mono_count; [exact Vt|lia|lia].
Qed.

Lemma count_le (f g : Z -> bool) l :
  (forall a, In a l -> f a = true -> g a = true) -> count f l <= count g l.
Proof.
  induction l as [|a l IH]; intros H; [cbn; lia|].
  rewrite !count_cons.
  assert (count f l <= count g l) by (apply IH; intros b Hb; apply H; now right).
  pose proof (H a (or_introl eq_refl)) as Ha.
  destruct (f a), (g a); try lia; discriminate (Ha eq_refl).
Qed.

(** X3: for a finite tolerance that is not negative, and a rectangle of
    fewer than 2^31 pixels, the verdict of the region sampler is monotone:
    a rectangle that is accepted stays accepted when the bytes of the
    rectangle get brighter, when the brightness threshold is lowered, or
    both. *)
Theorem white_rectangle_brighter :
  forall (d1 d2 : buffer) (wrap : Z) (r : rectangle_coords) (t : double)
         (c1 c2 : Z),
    Double.valid t = true -> finite_nonneg t = true ->
    Z.max 0 (x_size r) * Z.max 0 (y_size r) < 2 ^ 31 ->
    c2 <= c1 ->
    (forall a, in_rectangle wrap r a -> uc (d1 a) <= uc (d2 a)) ->
    white_rectangle d1 wrap r t c1 = true ->
    white_rectangle d2 wrap r t c2 = true.
Proof.
  intros d1 d2 wrap r t c1 c2 Vt Ht Hsize Hc Hd.
  unfold white_rectangle. rewrite !white_counts_spec.
  set (l := pixel_offsets wrap r).
  assert (Himp : forall p, In p l ->
            white_pixel d1 p c1 = true -> white_pixel d2 p c2 = true).
  { intros p Hp. rewrite !white_pixel_spec. unfold is_white.
    destruct (pixel_in_rectangle wrap r p Hp) as (H0 & H1 & H2).
    pose proof (Hd _ H0). pose proof (Hd _ H1). pose proof (Hd _ H2). lia. }
  pose proof (count_le _ _ l Himp) as Hw.
  pose proof (count_negb (fun p => white_pixel d1 p c1) l) as N1.
  pose proof (count_negb (fun p => white_pixel d2 p c2) l) as N2.
  pose proof (count_nonneg (fun p => white_pixel d1 p c1) l).
  pose proof (count_nonneg (fun p => negb (white_pixel d2 p c2)) l).
  pose proof (length_pixel_offsets wrap r) as HL. fold l in HL.
  destruct (Double.ltb (Double.of_int (count (fun p => white_pixel d2 p c2) l))
                       _) eqn:E; [|reflexivity].
  cbv beta in N1, N2.
  rewrite (fun a b c d => reject_mono t _ _ _ _ Vt Ht a b c d E);
    [discriminate| | | |]; lia.
Qed.

(** Nine white pixels out of ten are accepted at tolerance 1 and
    threshold 235; so are ten white pixels at threshold 200. *)
Lemma white_rectangle_brighter_witness :
  white_rectangle white 30 (rect 0 0 10 1) (Double.of_int 1) 200 = true.
Proof.
  apply (white_rectangle_brighter nine_of_ten white 30 (rect 0 0 10 1)
           (Double.of_int 1) 235 200).
  - reflexivity.
  - reflexivity.
  - reflexivity.
  - lia.
  - intros a _. unfold nine_of_ten, white.
    destruct (a <? 27); vm_compute; discriminate.
  - vm_compute. reflexivity.
Defined.

(** ** Frame classifier: the decision table *)

(** Replace the nine strip tests of the classifier by nine booleans, to
    look at every combination. *)
Ltac strip_tests data wrap ts :=
  unfold textbox, textbox_trace, sample, tol_1, tol_50;
  generalize (white_rectangle data wrap (bottom_white_line ts)
                              (Double.of_int 1) 235);
  generalize (white_rectangle data wrap (left_border ts)
                              (Double.of_int 1) 235);
  generalize (white_rectangle data wrap (right_border ts)
                              (Double.of_int 1) 235);
  generalize (white_rectangle data wrap (mid_white_line ts)
                              (Double.of_int 50) 225);
  generalize (white_rectangle data wrap (extra_bottom_white_line ts)
                              (Double.of_int 50) 225);
  generalize (white_rectangle data wrap (mid_white_line_2 ts)
                              (Double.of_int 50) 225);
  generalize (white_rectangle data wrap (mid_white_line_3 ts)
                              (Double.of_int 50) 225);
  generalize (white_rectangle data wrap (mid_white_line_4 ts)
                              (Double.of_int 50) 225);
  generalize (white_rectangle data wrap (top_white_line ts)
                              (Double.of_int 50) 225);
  intros top m4 m3 m2 extra mid r l b.

Lemma textbox_range data wrap ts : 0 <= textbox data wrap ts <= 5.
Proof.
  strip_tests data wrap ts.
  destruct b, l, r, mid, extra, m2, m3, m4, top; cbn; lia.
Qed.

(** X4: the decision table of the classifier.  Call a frame framed when
    the bottom strip passes the test at tolerance 1 and threshold 235 and
    neither border does.  The code is OPEN exactly when the frame is framed
    and the middle and top strips pass the test at tolerance 50 and
    threshold 225; SCROLL_A, SCROLL_B, SCROLL_C exactly when it is framed,
    the middle strip fails, the two-pixel bottom strip passes, and the
    first passing strip among rows 164, 160, 156 is the first, second,
    third; LARGE_TEXT exactly when it is framed, the middle strip and the
    strips of rows 164, 160, 156 fail and the top strip passes, whatever the
    two-pixel bottom strip does; and the code is always one of the six. *)
Theorem textbox_decision_table :
  forall (data : buffer) (wrap : Z) (ts : rectangle_coords),
    let half_white r := white_rectangle data wrap r (Double.of_int 1) 235 in
    let nearly_white r :=
      white_rectangle data wrap r (Double.of_int 50) 225 in
    let framed :=
      half_white (bottom_white_line ts)
      && negb (half_white (left_border ts))
      && negb (half_white (right_border ts)) in
    let code := textbox data wrap ts in
    (code = OPEN <->
     framed && nearly_white (mid_white_line ts)
     && nearly_white (top_white_line ts) = true)
    /\ (code = SCROLL_A <->
        framed && negb (nearly_white (mid_white_line ts))
        && nearly_white (extra_bottom_white_line ts)
        && nearly_white (mid_white_line_2 ts) = true)
    /\ (code = SCROLL_B <->
        framed && negb (nearly_white (mid_white_line ts))
        && nearly_white (extra_bottom_white_line ts)
        && negb (nearly_white (mid_white_line_2 ts))
        && nearly_white (mid_white_line_3 ts) = true)
    /\ (code = SCROLL_C <->
        framed && negb (nearly_white (mid_white_line ts))
        && nearly_white (extra_bottom_white_line ts)
        && negb (nearly_white (mid_white_line_2 ts))
        && negb (nearly_white (mid_white_line_3 ts))
        && nearly_white (mid_white_line_4 ts) = true)
    /\ (code = LARGE_TEXT <->
        framed && negb (nearly_white (mid_white_line ts))
        && negb (nearly_white (mid_white_line_2 ts))
        && negb (nearly_white (mid_white_line_3 ts))
        && negb (nearly_white (mid_white_line_4 ts))
        && nearly_white (top_white_line ts) = true)
    /\ (code = NONE \/ code = OPEN \/ code = SCROLL_A \/ code = SCROLL_B
        \/ code = SCROLL_C \/ code = LARGE_TEXT).
Proof.
  intros data wrap ts half_white nearly_white framed code.
  subst code framed nearly_white half_white. cbv beta.
  strip_tests data wrap ts.
  destruct b, l, r, mid, extra, m2, m3, m4, top; cbn;
    repeat split; intros; try discriminate; try reflexivity; tauto.
Qed.

(** X5: the two diagnostic lines of the classifier.  A frame on which a
    line is logged is classified NONE; "MID YES, NO TOP" is logged exactly
    when the frame is framed, the middle strip passes and the top strip
    fails; "MID NO, SOMETHING STRANGE" exactly when the frame is framed, the
    middle strip and the two-pixel bottom strip fail, and one of the strips
    of rows 164, 160, 156 passes. *)
Theorem textbox_anomalies :
  forall (data : buffer) (wrap : Z) (ts : rectangle_coords),
    let half_white r := white_rectangle data wrap r (Double.of_int 1) 235 in
    let nearly_white r :=
      white_rectangle data wrap r (Double.of_int 50) 225 in
    let framed :=
      half_white (bottom_white_line ts)
      && negb (half_white (left_border ts))
      && negb (half_white (right_border ts)) in
    let trace := snd (textbox_trace data wrap ts) in
    (forall message, In (Logged message) trace ->
                     textbox data wrap ts = NONE)
    /\ (In (Logged "MID YES, NO TOP") trace <->
        framed && nearly_white (mid_white_line ts)
        && negb (nearly_white (top_white_line ts)) = true)
    /\ (In (Logged "MID NO, SOMETHING STRANGE") trace <->
        framed && negb (nearly_white (mid_white_line ts))
        && negb (nearly_white (extra_bottom_white_line ts))
        && (nearly_white (mid_white_line_2 ts)
            || nearly_white (mid_white_line_3 ts)
            || nearly_white (mid_white_line_4 ts)) = true).
Proof.
  intros data wrap ts half_white nearly_white framed trace.
  subst trace framed nearly_white half_white. cbv beta.
  strip_tests data wrap ts.
  destruct b, l, r, mid, extra, m2, m3, m4, top; cbn;
    repeat split; intros;
    repeat match goal with
           | H : _ \/ _ |- _ => destruct H
           | H : False |- _ => destruct H
           | H : Sampled _ _ _ = Logged _ |- _ => discriminate H
           | H : Logged _ = Logged _ |- _ => inversion H; clear H
           | H : false = true |- _ => discriminate H
           end;
    try reflexivity; try discriminate; auto 20.
Qed.

Lemma textbox_trace_ext d1 d2 wrap ts :
  (forall r, In r (textbox_strips ts) -> agree_on wrap r d1 d2) ->
  textbox_trace d1 wrap ts = textbox_trace d2 wrap ts.
Proof.
  intros H. unfold textbox_trace, sample.
  rewrite !(white_rectangle_ext d1 d2) by (apply H; cbn; tauto).
  reflexivity.
Qed.

(** X6: the classifier reads only its nine strips: two frames that hold
    the same bytes in them get the same code, through the same sampler
    calls and log lines. *)
Theorem textbox_local :
  forall (d1 d2 : buffer) (wrap : Z) (ts : rectangle_coords),
    (forall r, In r (textbox_strips ts) -> agree_on wrap r d1 d2) ->
    textbox_trace d1 wrap ts = textbox_trace d2 wrap ts
    /\ textbox d1 wrap ts = textbox d2 wrap ts.
Proof.
  intros d1 d2 wrap ts H.
  pose proof (textbox_trace_ext d1 d2 wrap ts H) as E.
  split; [exact E|]. unfold textbox. now rewrite E.
Qed.

(** The strips of the small stream start below row 0. *)
Lemma strips_below_corner r a :
  In r (textbox_part small_screen :: textbox_strips small_screen) ->
  in_rectangle small_wrap r a -> black a = corner a.
Proof.
  intros Hr (i & Hi & Ha).
  assert (B : forallb (fun r => (1 <=? y (top_left r))
                                && (0 <=? x (top_left r)))
                      (textbox_part small_screen
                       :: textbox_strips small_screen) = true)
    by (vm_compute; reflexivity).
  rewrite forallb_forall in B. specialize (B r Hr).
  apply andb_prop in B as [B1 B2]. apply Z.leb_le in B1, B2.
  unfold in_row in Ha. unfold black, corner, small_wrap in *.
  destruct (Z.ltb_spec a 3); [nia|reflexivity].
Qed.

Lemma textbox_local_witness :
  textbox_trace black small_wrap small_screen
  = textbox_trace corner small_wrap small_screen
  /\ textbox black small_wrap small_screen
     = textbox corner small_wrap small_screen.
Proof.
  apply (textbox_local black corner small_wrap small_screen).
  intros r Hr a Ha. apply (strips_below_corner r a); [now right|exact Ha].
Defined.

(** X7: a frame all of whose bytes exceed 235 is classified NONE at the
    second check, after two sampler calls, and its textbox is found empty,
    for every geometry and row stride. *)
Theorem bright_frame :
  forall (data : buffer) (wrap : Z) (ts : rectangle_coords),
    (forall a, 235 < uc (data a)) ->
    empty_textbox data wrap ts = true
    /\ textbox_trace data wrap ts
       = (NONE, [Sampled (bottom_white_line ts) (Double.of_int 1) 235;
                 Sampled (left_border ts) (Double.of_int 1) 235]).
Proof.
  intros data wrap ts H.
  assert (W : forall r t c, c <= 235 -> white_rectangle data wrap r t c = true).
  { intros r t c Hc. apply all_white_accepted. intros p _.
    unfold is_white. pose proof (H p). pose proof (H (p + 1)).
    pose proof (H (p + 2)). lia. }
  split.
  - apply W. lia.
  - unfold textbox_trace, sample, tol_1. rewrite !W by lia. reflexivity.
Qed.

Lemma bright_frame_witness :
  empty_textbox white 2400 (top_screen_coords 800 480) = true
  /\ textbox_trace white 2400 (top_screen_coords 800 480)
     = (NONE,
        [Sampled (bottom_white_line (top_screen_coords 800 480))
                 (Double.of_int 1) 235;
         Sampled (left_border (top_screen_coords 800 480))
                 (Double.of_int 1) 235]).
Proof.
  apply (bright_frame white 2400 (top_screen_coords 800 480)).
  intros a. reflexivity.
Defined.

(** X8: when the scale is so small that a strip of one reference row has
    no row, the horizontal strips decide nothing: the frame is classified
    OPEN unless one of the borders passes its test, and never as a scroll
    or as LARGE_TEXT. *)
Theorem textbox_without_strips :
  forall (data : buffer) (wrap : Z) (ts : rectangle_coords),
    Double.to_int (scaled (magnification ts) 1) = 0 ->
    textbox data wrap ts
    = if white_rectangle data wrap (left_border ts) (Double.of_int 1) 235
         || white_rectangle data wrap (right_border ts) (Double.of_int 1) 235
      then NONE else OPEN.
Proof.
  intros data wrap ts H.
  assert (E : forall row t c,
             white_rectangle data wrap (white_line ts row 1) t c = true).
  { intros row t c. apply white_rectangle_no_pixels, pixel_offsets_empty.
    right. exact H. }
  unfold textbox, textbox_trace, sample, tol_1, tol_50.
  unfold bottom_white_line, mid_white_line, top_white_line.
  rewrite !E. cbn [bind negb].
  destruct (white_rectangle data wrap (left_border ts) _ 235);
    [reflexivity|].
  cbn [bind orb].
  destruct (white_rectangle data wrap (right_border ts) _ 235); reflexivity.
Qed.

(** A black frame of a stream 100 pixels wide is classified OPEN. *)
Lemma textbox_without_strips_witness :
  textbox black 300 (top_screen_coords 100 200) = OPEN.
Proof.
  rewrite (textbox_without_strips black 300 (top_screen_coords 100 200))
    by (vm_compute; reflexivity).
  vm_compute. reflexivity.
Defined.

(** X9: the emptiness test in pixels.  For a geometry whose textbox
    content rectangle has fewer than 2^31 pixels, the textbox is reported
    empty exactly when the white pixels of the rectangle (all three
    channels above 235) are at least 40 times the other ones, that is when
    at most one pixel in 41 is not white. *)
Theorem empty_textbox_spec :
  forall (data : buffer) (wrap : Z) (ts : rectangle_coords),
    let part := textbox_part ts in
    let pixels := pixel_offsets wrap part in
    let white_count := count (fun p => white_pixel data p 235) pixels in
    let not_white_count :=
      count (fun p => negb (white_pixel data p 235)) pixels in
    Z.max 0 (x_size part) * Z.max 0 (y_size part) < 2 ^ 31 ->
    empty_textbox data wrap ts = (40 * not_white_count <=? white_count)
    /\ (empty_textbox data wrap ts = true <->
        41 * not_white_count
        <= Z.max 0 (x_size part) * Z.max 0 (y_size part)).
Proof.
  intros data wrap ts part pixels white_count not_white_count Hsize.
  assert (Hsum : white_count + not_white_count
                 = Z.max 0 (x_size part) * Z.max 0 (y_size part)).
  { unfold not_white_count. rewrite count_negb. fold white_count.
    unfold pixels. rewrite length_pixel_offsets. lia. }
  pose proof (count_nonneg (fun p => white_pixel data p 235) pixels) as Hw.
  pose proof (count_nonneg (fun p => negb (white_pixel data p 235)) pixels)
    as Hn.
  fold white_count in Hw. fold not_white_count in Hn.
  assert (E : empty_textbox data wrap ts
              = (40 * not_white_count <=? white_count)).
  { unfold empty_textbox, white_rectangle. rewrite white_counts_spec.
    fold part. fold pixels. fold white_count. fold not_white_count.
    rewrite of_int_mul, of_int_ltb by lia.
    destruct (Z.ltb_spec white_count (40 * not_white_count)),
             (Z.leb_spec (40 * not_white_count) white_count);
      try reflexivity; lia. }
  split; [exact E|]. rewrite E, Z.leb_le. lia.
Qed.

(** An empty textbox and a textbox with three white rows only. *)
Lemma empty_textbox_spec_witness :
  let pixels := pixel_offsets small_wrap (textbox_part small_screen) in
  empty_textbox typed small_wrap small_screen
  = (40 * count (fun p => negb (white_pixel typed p 235)) pixels
     <=? count (fun p => white_pixel typed p 235) pixels)
  /\ (empty_textbox typed small_wrap small_screen = true <->
      41 * count (fun p => negb (white_pixel typed p 235)) pixels
      <= Z.max 0 (x_size (textbox_part small_screen))
         * Z.max 0 (y_size (textbox_part small_screen))).
Proof.
  apply (empty_textbox_spec typed small_wrap small_screen).
  vm_compute. reflexivity.
Defined.

(** ** Geometry resolver: the region *)

(** X10: for a width that is not negative, the top-screen region starts at
    a quarter of the width, rounded down, and reaches the right edge of the
    frame, so that it is three quarters of the width, rounded up; it spans
    the full height from row 0. *)
Theorem top_screen_coords_region :
  forall width height : Z,
    0 <= width ->
    let r := top_screen_coords width height in
    x (top_left r) + x_size r = width
    /\ 3 * width <= 4 * x_size r < 3 * width + 4
    /\ y (top_left r) = 0
    /\ y_size r = height.
Proof.
  intros width height Hw r. subst r. unfold top_screen_coords.
  cbn [top_left x y x_size y_size].
  rewrite Z.quot_div_nonneg by lia.
  pose proof (Z.div_mod width 4 ltac:(lia)).
  pose proof (Z.mod_pos_bound width 4 ltac:(lia)).
  repeat split; lia.
Qed.

Lemma top_screen_coords_region_witness :
  let r := top_screen_coords 341 192 in
  x (top_left r) + x_size r = 341
  /\ 3 * 341 <= 4 * x_size r < 3 * 341 + 4
  /\ y (top_left r) = 0
  /\ y_size r = 192.
Proof.
  apply (top_screen_coords_region 341 192). lia.
Defined.

(** ** Captured images: what is written *)

Lemma seq_from n m : seq n m = map (fun k => (n + k)%nat) (seq 0 m).
Proof.
  induction n as [|n IH].
  - now rewrite map_id.
  - rewrite <- seq_shift, IH, map_map. reflexivity.
Qed.

(** Two writes in a row are one write. *)
Lemma fwrite_app data pixel n m :
  fwrite data pixel (n + m)
  = fwrite data pixel n ++ fwrite data (pixel + Z.of_nat n) m.
Proof.
  unfold fwrite. rewrite seq_app, map_app. f_equal.
  cbn [plus]. rewrite (seq_from n m), map_map.
  apply map_ext. intros k. f_equal. lia.
Qed.

Lemma fwrite_pixels data pixel j n :
  fwrite data (pixel + j) (3 * n)
  = map data (flat_map (fun p => [p; p + 1; p + 2]) (row_offsets pixel j n)).
Proof.
  revert j. induction n as [|n IH]; intros j.
  - reflexivity.
  - replace (3 * S n)%nat with (3 + 3 * n)%nat by lia.
    rewrite fwrite_app, row_offsets_S. cbn [flat_map map app].
    replace (pixel + j + Z.of_nat 3) with (pixel + (j + 3)) by lia.
    rewrite IH. unfold fwrite.
    cbn [seq map app Z.of_nat Pos.of_succ_nat Pos.succ].
    rewrite Z.add_0_r. reflexivity.
Qed.

Lemma flat_map_after_map {A B C : Type} (f : B -> list C) (g : A -> B) l :
  flat_map f (map g l) = flat_map (fun a => f (g a)) l.
Proof.
  induction l as [|a l IH]; [reflexivity|]. cbn. now rewrite IH.
Qed.

(** The loop of the crop writers appends the bytes of the rows in order. *)
Lemma save_rows_bytes n data wrap part i written :
  0 <= x_size part ->
  save_rows n data wrap part i written
  = written
    ++ map data
         (flat_map (fun p => [p; p + 1; p + 2])
            (flat_map
               (fun k => row_offsets ((i + Z.of_nat k) * wrap
                                      + 3 * x (top_left part)) 0
                                     (Z.to_nat (x_size part)))
               (seq 0 n))).
Proof.
  intros Hx. revert i written. induction n as [|n IH]; intros i written.
  - cbn. now rewrite app_nil_r.
  - cbn [save_rows]. rewrite IH. cbn [seq flat_map].
    rewrite flat_map_app, map_app, <- app_assoc. f_equal.
    replace (Z.to_nat (3 * x_size part)) with (3 * Z.to_nat (x_size part))%nat
      by lia.
    replace (i * wrap + 3 * x (top_left part))
      with (i * wrap + 3 * x (top_left part) + 0) at 1 by lia.
    rewrite fwrite_pixels. f_equal.
    + do 3 f_equal. lia.
    + do 2 f_equal. rewrite <- seq_shift, flat_map_after_map.
      apply flat_map_ext. intros k. f_equal. lia.
Qed.

Lemma length_byte_offsets wrap r :
  Z.of_nat (List.length (byte_offsets wrap r))
  = 3 * (Z.max 0 (x_size r) * Z.max 0 (y_size r)).
Proof.
  rewrite <- (length_pixel_offsets wrap r). unfold byte_offsets.
  induction (pixel_offsets wrap r) as [|p l IH]; [reflexivity|].
  cbn [flat_map app List.length]. lia.
Qed.

(** X11: the image that [save_textbox] and [save_second_line] write for a
    rectangle whose sizes are not negative is well formed: its payload is
    the bytes of the rectangle, row by row and pixel by pixel, its length
    is three times the width times the height announced in the header, and
    the maximal value announced is 255. *)
Theorem save_part_image :
  forall (data : buffer) (wrap : Z) (part : rectangle_coords),
    0 <= x_size part -> 0 <= y_size part ->
    let image := save_part data wrap part in
    ppm_bytes image = map data (byte_offsets wrap part)
    /\ Z.of_nat (List.length (ppm_bytes image))
       = 3 * ppm_width image * ppm_height image
    /\ ppm_maxval image = 255.
Proof.
  intros data wrap part Hx Hy image.
  assert (E : ppm_bytes image = map data (byte_offsets wrap part)).
  { unfold image, save_part. cbn [ppm_bytes].
    rewrite save_rows_bytes by exact Hx. reflexivity. }
  split; [exact E|]. split; [|reflexivity].
  rewrite E, length_map, length_byte_offsets.
  unfold image, save_part. cbn [ppm_width ppm_height]. lia.
Qed.

Lemma save_part_image_witness :
  let image := save_part nine_of_ten 30 (rect 0 0 10 1) in
  ppm_bytes image = map nine_of_ten (byte_offsets 30 (rect 0 0 10 1))
  /\ Z.of_nat (List.length (ppm_bytes image))
     = 3 * ppm_width image * ppm_height image
  /\ ppm_maxval image = 255.
Proof.
  apply (save_part_image nine_of_ten 30 (rect 0 0 10 1)); cbn; lia.
Defined.

Lemma save_part_ext b1 b2 wrap part :
  agree_on wrap part b1 b2 -> save_part b1 wrap part = save_part b2 wrap part.
Proof.
  intros H. unfold save_part. f_equal. apply save_rows_ext.
  intros i a Hi Ha. apply H. exists i. split; [lia|exact Ha].
Qed.

Lemma save_frame_rows_shift n data wrap part i written :
  save_rows n data wrap part (y (top_left part) + i) written
  = save_frame_rows n
      (advance data (y (top_left part) * wrap + 3 * x (top_left part)))
      wrap (x_size part) i written.
Proof.
  revert i written. induction n as [|n IH]; intros i written.
  - reflexivity.
  - cbn [save_rows save_frame_rows].
    replace (y (top_left part) + i + 1) with (y (top_left part) + (i + 1))
      by lia.
    rewrite IH. do 2 f_equal. unfold fwrite, advance. apply map_ext.
    intros k. f_equal. lia.
Qed.

(** X12: the crop that [save_textbox] and [save_second_line] write is the
    image that the whole-frame writer [save] writes when it is handed the
    address of the first pixel of the rectangle and the sizes of the
    rectangle. *)
Theorem save_part_as_save :
  forall (data : buffer) (wrap : Z) (part : rectangle_coords),
    save_part data wrap part
    = save (advance data (y (top_left part) * wrap + 3 * x (top_left part)))
           wrap (x_size part) (y_size part).
Proof.
  intros data wrap part. unfold save_part, save. f_equal.
  replace (y (top_left part)) with (y (top_left part) + 0) at 1 by lia.
  apply save_frame_rows_shift.
Qed.

Lemma save_frame_rows_contiguous n data x_size i written :
  0 <= x_size ->
  save_frame_rows n data (3 * x_size) x_size i written
  = written ++ fwrite data (i * (3 * x_size)) (n * Z.to_nat (3 * x_size)).
Proof.
  intros Hx. revert i written. induction n as [|n IH]; intros i written.
  - cbn. now rewrite app_nil_r.
  - cbn [save_frame_rows]. rewrite IH, <- app_assoc. f_equal.
    replace (S n * Z.to_nat (3 * x_size))%nat
      with (Z.to_nat (3 * x_size) + n * Z.to_nat (3 * x_size))%nat by lia.
    rewrite fwrite_app. do 2 f_equal. lia.
Qed.

(** X13: when the rows of a frame are not padded, that is when the row
    stride is three times the width, the payload that [save] writes is the
    first [3 * x_size * y_size] bytes of the frame, unchanged. *)
Theorem save_unpadded :
  forall (data : buffer) (x_size y_size : Z),
    0 <= x_size -> 0 <= y_size ->
    ppm_bytes (save data (3 * x_size) x_size y_size)
    = fwrite data 0 (Z.to_nat (3 * x_size * y_size)).
Proof.
  intros data x_size y_size Hx Hy. unfold save. cbn [ppm_bytes].
  rewrite save_frame_rows_contiguous by exact Hx. cbn [app].
  f_equal. nia.
Qed.

Lemma save_unpadded_witness :
  ppm_bytes (save nine_of_ten (3 * 5) 5 2)
  = fwrite nine_of_ten 0 (Z.to_nat (3 * 5 * 2)).
Proof.
  apply (save_unpadded nine_of_ten 5 2); lia.
Defined.

(** ** Frame history buffer: what it holds *)

Lemma changed_count_ext o1 n1 o2 n2 wrap r :
  agree_on wrap r o1 o2 -> agree_on wrap r n1 n2 ->
  changed_count o1 n1 wrap r = changed_count o2 n2 wrap r.
Proof.
  intros Ho Hn. rewrite !changed_count_spec. apply count_ext. intros p Hp.
  destruct (pixel_in_rectangle wrap r p Hp) as (H0 & H1 & H2).
  unfold differs.
  now rewrite (Ho _ H0), (Ho _ H1), (Ho _ H2), (Hn _ H0), (Hn _ H1), (Hn _ H2).
Qed.

Lemma copy_data_agrees old_data data wrap ts :
  agree_on wrap (textbox_part ts) (copy_data old_data data wrap ts) data.
Proof.
  intros a (i & Hi & Ha). unfold copy_data. apply copy_rows_inside.
  exists i. split; [lia|exact Ha].
Qed.

Lemma in_row_dec wrap r i a : {in_row wrap r i a} + {~ in_row wrap r i a}.
Proof.
  unfold in_row.
  destruct (Z_le_dec (i * wrap + 3 * x (top_left r)) a);
    destruct (Z_lt_dec a (i * wrap + 3 * x (top_left r) + 3 * x_size r));
    [left|right|right|right]; lia.
Qed.

Lemma in_rows_dec wrap r a i0 n :
  (exists i, i0 <= i < i0 + Z.of_nat n /\ in_row wrap r i a)
  \/ (forall i, i0 <= i < i0 + Z.of_nat n -> ~ in_row wrap r i a).
Proof.
  revert i0. induction n as [|n IH]; intros i0.
  - right. intros i Hi. lia.
  - destruct (in_row_dec wrap r i0 a) as [H|H].
    + left. exists i0. split; [lia|exact H].
    + destruct (IH (i0 + 1)) as [(i & Hi & Ha)|Hn].
      * left. exists i. split; [lia|exact Ha].
      * right. intros i Hi. destruct (Z.eq_dec i i0) as [->|Ne]; [exact H|].
        apply Hn. lia.
Qed.

(** Each byte of the history after a copy is the frame's or the old one. *)
Lemma copy_data_cases old_data data wrap ts a :
  in_rectangle wrap (textbox_part ts) a
  /\ copy_data old_data data wrap ts a = data a
  \/ ~ in_rectangle wrap (textbox_part ts) a
     /\ copy_data old_data data wrap ts a = old_data a.
Proof.
  set (part := textbox_part ts).
  destruct (in_rows_dec wrap part a (y (top_left part))
              (Z.to_nat (y_size part))) as [(i & Hi & Ha)|Hn].
  - left. split.
    + exists i. split; [lia|exact Ha].
    + unfold copy_data. apply copy_rows_inside. exists i. now split.
  - right. split.
    + intros (i & Hi & Ha). apply (Hn i); [lia|exact Ha].
    + unfold copy_data. apply copy_rows_outside. exact Hn.
Qed.

(** X14: the history keeps only the latest frame: copying a second frame
    over a first one leaves, byte for byte, what copying the second frame
    alone leaves, and copying the same frame twice is copying it once. *)
Theorem copy_data_latest :
  forall (old_data data1 data2 : buffer) (wrap : Z) (ts : rectangle_coords)
         (a : Z),
    copy_data (copy_data old_data data1 wrap ts) data2 wrap ts a
    = copy_data old_data data2 wrap ts a
    /\ copy_data (copy_data old_data data1 wrap ts) data1 wrap ts a
       = copy_data old_data data1 wrap ts a.
Proof.
  intros old_data data1 data2 wrap ts a. split.
  - destruct (copy_data_cases (copy_data old_data data1 wrap ts) data2 wrap ts a)
      as [[Hin ->]|[Hout ->]];
    destruct (copy_data_cases old_data data2 wrap ts a)
      as [[Hin' ->]|[Hout' ->]]; try contradiction; [reflexivity|].
    destruct (copy_data_cases old_data data1 wrap ts a)
      as [[Hin'' _]|[_ ->]]; [contradiction|reflexivity].
  - destruct (copy_data_cases (copy_data old_data data1 wrap ts) data1 wrap ts a)
      as [[Hin ->]|[Hout ->]]; [|reflexivity].
    destruct (copy_data_cases old_data data1 wrap ts a)
      as [[_ ->]|[Hout _]]; [reflexivity|contradiction].
Qed.

(** X15: for the checks made on the whole textbox the history stands for
    the frame copied into it last, whatever it held before: the change
    detector, [save_textbox] and [empty_textbox] give on the history what
    they give on that frame, and the change detector finds no change
    between the history and that frame. *)
Theorem history_stands_for_frame :
  forall (old_data previous data : buffer) (wrap : Z)
         (ts : rectangle_coords),
    let history := copy_data old_data previous wrap ts in
    compare_textboxes history data wrap ts
    = compare_textboxes previous data wrap ts
    /\ save_textbox history wrap ts = save_textbox previous wrap ts
    /\ empty_textbox history wrap ts = empty_textbox previous wrap ts
    /\ compare_textboxes history previous wrap ts = false.
Proof.
  intros old_data previous data wrap ts history.
  pose proof (copy_data_agrees old_data previous wrap ts) as Hagree.
  fold history in Hagree.
  assert (Hc : forall d, compare_textboxes history d wrap ts
                         = compare_textboxes previous d wrap ts).
  { intros d. unfold compare_textboxes.
    rewrite (changed_count_ext history d previous d);
      [reflexivity|exact Hagree|intros a _; reflexivity]. }
  split; [apply Hc|]. split; [|split].
  - apply save_part_ext, Hagree.
  - apply white_rectangle_ext, Hagree.
  - rewrite Hc. unfold compare_textboxes.
    rewrite changed_count_spec, count_none; [|intros p _; apply differs_refl].
    rewrite threshold_not_negative. reflexivity.
Qed.

(** X16: when the rows of the second-line rectangle lie within the rows of
    the textbox content rectangle, the second line saved from the history
    is the second line of the frame copied into it last. *)
Theorem second_line_of_history :
  forall (old_data previous : buffer) (wrap : Z) (ts : rectangle_coords),
    y (top_left (textbox_part ts)) <= y (top_left (second_line_part ts)) ->
    y (top_left (second_line_part ts)) + y_size (second_line_part ts)
    <= y (top_left (textbox_part ts)) + y_size (textbox_part ts) ->
    save_second_line (copy_data old_data previous wrap ts) wrap ts
    = save_second_line previous wrap ts.
Proof.
  intros old_data previous wrap ts Htop Hbottom.
  apply save_part_ext. intros a (i & Hi & Ha).
  apply copy_data_agrees. exists i. split; [lia|exact Ha].
Qed.

Lemma second_line_of_history_witness :
  save_second_line (copy_data black opened small_wrap small_screen)
                   small_wrap small_screen
  = save_second_line opened small_wrap small_screen.
Proof.
  apply (second_line_of_history black opened small_wrap small_screen);
    vm_compute; discriminate.
Defined.

(** X17: a row of the second-line rectangle that lies below the rows of
    the textbox content rectangle is never copied: when the rows of a frame
    do not overlap in memory, the bytes of such a row, which
    [save_second_line] writes, are in the history what they were before
    the copy.  At 800x480 the textbox content rectangle ends with row 432
    and the second-line rectangle with row 433. *)
Theorem second_line_stale_row :
  forall (old_data previous : buffer) (wrap : Z) (ts : rectangle_coords)
         (i a : Z),
    0 <= 3 * x_size (textbox_part ts) <= wrap ->
    y (top_left (textbox_part ts)) + y_size (textbox_part ts) <= i
    < y (top_left (second_line_part ts)) + y_size (second_line_part ts) ->
    y (top_left (second_line_part ts)) <= i ->
    in_row wrap (second_line_part ts) i a ->
    in_rectangle wrap (second_line_part ts) a
    /\ copy_data old_data previous wrap ts a = old_data a.
Proof.
  intros old_data previous wrap ts i a Hwrap Hi Htop Ha. split.
  - exists i. split; [lia|exact Ha].
  - unfold copy_data. apply copy_rows_outside. intros i' Hi' Ha'.
    unfold in_row in Ha, Ha'.
    change (x (top_left (second_line_part ts)))
      with (x (top_left (textbox_part ts))) in Ha.
    change (x_size (second_line_part ts))
      with (x_size (textbox_part ts)) in Ha.
    nia.
Qed.

Lemma second_line_stale_row_witness :
  in_rectangle 2400 (second_line_part (top_screen_coords 800 480)) 1039890
  /\ copy_data black white 2400 (top_screen_coords 800 480) 1039890
     = black 1039890.
Proof.
  apply (second_line_stale_row black white 2400 (top_screen_coords 800 480)
           433 1039890);
    vm_compute; try split; first [discriminate | reflexivity].
Defined.

(** ** Extraction state machine: the transitions *)

Lemma code_cases code :
  ((code =? 0) = true /\ is_open code = false /\ is_scroll code = false)
  \/ ((code =? 0) = false /\ is_open code = true /\ is_scroll code = false)
  \/ ((code =? 0) = false /\ is_open code = false /\ is_scroll code = true)
  \/ ((code =? 0) = false /\ is_open code = false /\ is_scroll code = false).
Proof.
  unfold is_open, is_scroll.
  destruct (Z.eqb_spec code 0), (Z.eqb_spec code 1), (Z.eqb_spec code 2),
    (Z.eqb_spec code 3), (Z.eqb_spec code 4), (Z.eqb_spec code 5);
    cbn [orb]; try lia; tauto.
Qed.

Lemma open_not_none code : is_open code = true -> (code =? 0) = false.
Proof. intros H. destruct (is_open_cases code H) as [-> | ->]; reflexivity. Qed.

Lemma string_app_empty (s : string) : (s ++ EmptyString)%string = s.
Proof. induction s as [|c s IH]; [reflexivity|]. cbn. now rewrite IH. Qed.

Lemma string_app_assoc (s1 s2 s3 : string) :
  ((s1 ++ s2) ++ s3)%string = (s1 ++ (s2 ++ s3))%string.
Proof. induction s1 as [|c s1 IH]; [reflexivity|]. cbn. now rewrite IH. Qed.

Section Transitions.
Variable read_text : ppm -> string.

(** The per-frame body of [decode] after a frame classified OPEN or
    LARGE_TEXT, by the classification of the current frame. *)
Lemma decode_frame_while_open st data wrap ts :
  is_open (old_textbox st) = true ->
  let new_textbox := textbox data wrap ts in
  decode_frame read_text st data wrap ts
  = end_of_frame
      (if new_textbox =? 0 then
         set_insta_textbox
           (if insta_textbox st then st
            else capture_previous read_text st wrap ts) false
       else if is_open new_textbox then
         if compare_textboxes (old_frame st) data wrap ts then
           set_insta_textbox
             (if insta_textbox st then st
              else capture_current read_text
                     (capture_previous read_text st wrap ts) data wrap ts)
             false
         else st
       else if is_scroll new_textbox && negb (insta_textbox st)
            then capture_before_scroll read_text st wrap ts
            else st)
      data wrap ts new_textbox.
Proof.
  intros Hold new_textbox. unfold decode_frame, transition.
  fold new_textbox. rewrite (open_not_none _ Hold), Hold.
  generalize new_textbox. clear new_textbox. intros new_textbox.
  destruct st as [old insta second history out caps].
  cbn [old_textbox insta_textbox old_frame] in *.
  destruct (code_cases new_textbox) as [(E0 & E1 & E2)|[(E0 & E1 & E2)|
                                        [(E0 & E1 & E2)|(E0 & E1 & E2)]]];
    rewrite E0, E1, E2; cbv zeta; cbn [andb].
  - destruct insta; cbn [negb insta_textbox andb].
    + reflexivity.
    + unfold capture_previous. destruct second; reflexivity.
  - destruct insta; cbn [negb insta_textbox old_frame andb].
    + rewrite andb_false_r, andb_true_r. cbn [old_frame].
      destruct (compare_textboxes history data wrap ts); reflexivity.
    + rewrite andb_true_r. cbn [old_frame].
      destruct (compare_textboxes history data wrap ts) eqn:Ec;
        [|cbn [old_frame insta_textbox andb]; rewrite Ec; reflexivity].
      unfold capture_previous, capture_current.
      cbn [only_second_line negb].
      destruct second, (empty_textbox data wrap ts);
        try destruct (3 <? _);
        cbv beta iota delta [request write_file set_only_second_line
                             set_insta_textbox old_textbox insta_textbox
                             only_second_line old_frame file captures andb
                             negb];
        rewrite Ec; reflexivity.
  - destruct insta; reflexivity.
  - reflexivity.
Qed.

(** What a frame saves and writes, and what it leaves in the history. *)
Lemma decode_frame_output st data wrap ts :
  let st' := decode_frame read_text st data wrap ts in
  captures st' = captures st ++ frame_captures st data wrap ts
  /\ file st' = (file st ++ frame_text read_text st data wrap ts)%string
  /\ old_frame st' = copy_data (old_frame st) data wrap ts
  /\ old_textbox st' = textbox data wrap ts.
Proof.
  intros st'. subst st'. unfold frame_captures, frame_text.
  destruct (old_textbox st =? 0) eqn:Hnone.
  - apply Z.eqb_eq in Hnone.
    replace (is_open (old_textbox st)) with false by now rewrite Hnone.
    cbn [andb]. unfold decode_frame, transition. rewrite Hnone.
    cbn [Z.eqb]. rewrite string_app_empty.
    destruct (is_open (textbox data wrap ts)) eqn:Hnew.
    + rewrite (open_not_none _ Hnew). unfold capture_current.
      destruct st as [old insta second history out caps].
      destruct (empty_textbox data wrap ts); [|destruct (3 <? _)];
        repeat split.
    + rewrite app_nil_r.
      destruct (textbox data wrap ts =? 0); destruct st; repeat split.
  - destruct (is_open (old_textbox st)) eqn:Hold.
    + rewrite (decode_frame_while_open st data wrap ts Hold). cbv zeta.
      unfold capture_previous, capture_current, previous_capture.
      destruct (code_cases (textbox data wrap ts))
        as [(E0 & E1 & E2)|[(E0 & E1 & E2)|[(E0 & E1 & E2)|(E0 & E1 & E2)]]];
        rewrite E0, ?E1, ?E2;
        destruct st as [old [|] [|] history out caps];
        cbn [negb andb insta_textbox old_frame old_textbox only_second_line];
        try destruct (compare_textboxes history data wrap ts);
        try destruct (empty_textbox data wrap ts);
        try destruct (3 <? _);
        cbn; rewrite ?app_nil_r, ?string_app_empty, <- ?app_assoc;
        repeat split.
    + cbn [andb]. rewrite app_nil_r, string_app_empty.
      unfold decode_frame, transition. rewrite Hnone, Hold.
      destruct st as [old insta second history out caps].
      destruct (is_scroll _), (textbox data wrap ts =? 0); repeat split.
Qed.

(** X18: a textbox appears.  On an OPEN or LARGE_TEXT frame that follows
    a frame classified NONE, the whole textbox of the current frame is saved
    and recognised, and nothing is written: the recognised text only
    decides [insta_textbox], which is cleared when the textbox is empty, set
    when it is not and more than three characters are recognised, and kept
    otherwise. *)
Theorem textbox_appears :
  forall (st : decoder) (data : buffer) (wrap : Z) (ts : rectangle_coords),
    old_textbox st = NONE ->
    is_open (textbox data wrap ts) = true ->
    let st' := decode_frame read_text st data wrap ts in
    captures st' = captures st ++ [current_capture data wrap ts]
    /\ file st' = file st
    /\ only_second_line st' = only_second_line st
    /\ insta_textbox st'
       = (if empty_textbox data wrap ts then false
          else if 3 <? Z.of_nat (String.length
                                   (read_text (save_textbox data wrap ts)))
               then true else insta_textbox st).
Proof.
  intros st data wrap ts Hold Hnew st'. subst st'.
  rewrite (decode_frame_opens read_text st data wrap ts Hold Hnew).
  unfold capture_current, current_capture.
  destruct st as [old insta second history out caps].
  destruct (empty_textbox data wrap ts); [|destruct (3 <? _)];
    cbn; repeat split.
Qed.

(** X19: a textbox that stays as it is.  On an OPEN or LARGE_TEXT frame
    that follows one, when no change is detected, only the end-of-frame
    update happens: nothing is saved or written and both flags are kept,
    whether [insta_textbox] is set or not. *)
Theorem textbox_unchanged :
  forall (st : decoder) (data : buffer) (wrap : Z) (ts : rectangle_coords),
    is_open (old_textbox st) = true ->
    is_open (textbox data wrap ts) = true ->
    compare_textboxes (old_frame st) data wrap ts = false ->
    decode_frame read_text st data wrap ts
    = end_of_frame st data wrap ts (textbox data wrap ts).
Proof.
  intros st data wrap ts Hold Hnew Hsame.
  rewrite (decode_frame_while_open st data wrap ts Hold). cbv zeta.
  rewrite (open_not_none _ Hnew), Hnew, Hsame. reflexivity.
Qed.

(** X20: a textbox that closes.  On a frame classified NONE that follows
    an OPEN or LARGE_TEXT frame with [insta_textbox] clear, the textbox is
    saved once, from the history: its second line when [only_second_line]
    is set, the whole textbox otherwise; the recognised text and a line
    break are written, and both flags end clear. *)
Theorem textbox_closes :
  forall (st : decoder) (data : buffer) (wrap : Z) (ts : rectangle_coords),
    is_open (old_textbox st) = true ->
    insta_textbox st = false ->
    textbox data wrap ts = NONE ->
    let st' := decode_frame read_text st data wrap ts in
    let shown := previous_capture st wrap ts in
    captures st' = captures st ++ [shown]
    /\ file st' = (file st ++ read_text (captured_image shown) ++ endl)%string
    /\ only_second_line st' = false
    /\ insta_textbox st' = false.
Proof.
  intros st data wrap ts Hold Hinsta Hnew st' shown. subst st' shown.
  rewrite (decode_frame_while_open st data wrap ts Hold). cbv zeta.
  rewrite Hnew, Hinsta. unfold capture_previous, previous_capture.
  destruct st as [old insta [|] history out caps]; cbn; repeat split.
Qed.

(** X21: the text of an open textbox changes.  On an OPEN or LARGE_TEXT
    frame that follows one, with [insta_textbox] clear and a change
    detected, two images are saved: the previous textbox from the history
    (its second line when [only_second_line] is set), whose text is written
    with a line break, then the whole textbox of the current frame, whose
    text is not written.  Both flags end clear: [insta_textbox] is not
    raised here even when more than three characters are recognised on the
    current frame, because the test of line 448 clears it at once. *)
Theorem text_changes_while_open :
  forall (st : decoder) (data : buffer) (wrap : Z) (ts : rectangle_coords),
    is_open (old_textbox st) = true ->
    insta_textbox st = false ->
    is_open (textbox data wrap ts) = true ->
    compare_textboxes (old_frame st) data wrap ts = true ->
    let st' := decode_frame read_text st data wrap ts in
    let shown := previous_capture st wrap ts in
    captures st' = captures st ++ [shown; current_capture data wrap ts]
    /\ file st' = (file st ++ read_text (captured_image shown) ++ endl)%string
    /\ only_second_line st' = false
    /\ insta_textbox st' = false.
Proof.
  intros st data wrap ts Hold Hinsta Hnew Hchanged st' shown. subst st' shown.
  rewrite (decode_frame_while_open st data wrap ts Hold). cbv zeta.
  rewrite (open_not_none _ Hnew), Hnew, Hchanged, Hinsta.
  unfold capture_previous, capture_current, previous_capture.
  destruct st as [old insta [|] history out caps];
    cbn [negb only_second_line];
    destruct (empty_textbox data wrap ts); try destruct (3 <? _);
    cbn; rewrite <- ?app_assoc; repeat split.
Qed.

(** X22: the first change of an instant textbox is not captured.  On an
    OPEN or LARGE_TEXT frame that follows one, with [insta_textbox] set and
    a change detected, nothing is saved and nothing is written;
    [insta_textbox] is cleared and [only_second_line] is kept. *)
Theorem instant_change_swallowed :
  forall (st : decoder) (data : buffer) (wrap : Z) (ts : rectangle_coords),
    is_open (old_textbox st) = true ->
    insta_textbox st = true ->
    is_open (textbox data wrap ts) = true ->
    compare_textboxes (old_frame st) data wrap ts = true ->
    let st' := decode_frame read_text st data wrap ts in
    captures st' = captures st
    /\ file st' = file st
    /\ only_second_line st' = only_second_line st
    /\ insta_textbox st' = false.
Proof.
  intros st data wrap ts Hold Hinsta Hnew Hchanged st'. subst st'.
  rewrite (decode_frame_while_open st data wrap ts Hold). cbv zeta.
  rewrite (open_not_none _ Hnew), Hnew, Hchanged, Hinsta.
  destruct st; repeat split.
Qed.

(** X23: when a frame saves an image.  A frame leaves the list of saved
    images as it is exactly when [captures_on] is false, that is unless a
    textbox appears (previous code NONE, current code OPEN or LARGE_TEXT),
    or the previous code is OPEN or LARGE_TEXT, [insta_textbox] is clear,
    and the current frame is NONE, a scroll frame, or an OPEN or LARGE_TEXT
    frame on which a change is detected.  A frame that saves no image
    writes no text. *)
Theorem capture_iff :
  forall (st : decoder) (data : buffer) (wrap : Z) (ts : rectangle_coords),
    let st' := decode_frame read_text st data wrap ts in
    let fires :=
      captures_on st (textbox data wrap ts)
                  (compare_textboxes (old_frame st) data wrap ts) in
    (captures st' = captures st <-> fires = false)
    /\ (fires = false -> file st' = file st).
Proof.
  intros st data wrap ts st' fires.
  destruct (decode_frame_output st data wrap ts) as (Hc & Hf & _).
  fold st' in Hc, Hf. rewrite Hc, Hf.
  assert (Hcaps : fires = false <-> frame_captures st data wrap ts = []).
  { subst fires. unfold captures_on, frame_captures.
    destruct (code_cases (textbox data wrap ts))
      as [(E0 & E1 & E2)|[(E0 & E1 & E2)|[(E0 & E1 & E2)|(E0 & E1 & E2)]]];
      rewrite E0, E1, E2;
      destruct (old_textbox st =? 0), (is_open (old_textbox st)),
        (insta_textbox st);
      try destruct (compare_textboxes (old_frame st) data wrap ts);
      cbn; split; intros H; try reflexivity; discriminate H. }
  assert (Htext : fires = false
                  -> frame_text read_text st data wrap ts = EmptyString).
  { subst fires. unfold captures_on, frame_text.
    destruct (old_textbox st =? 0) eqn:Hnone.
    - apply Z.eqb_eq in Hnone. rewrite Hnone. reflexivity.
    - destruct (code_cases (textbox data wrap ts))
        as [(E0 & E1 & E2)|[(E0 & E1 & E2)|[(E0 & E1 & E2)|(E0 & E1 & E2)]]];
        rewrite E0, E1, E2;
        destruct (is_open (old_textbox st)), (insta_textbox st);
        try destruct (compare_textboxes (old_frame st) data wrap ts);
        cbn; intros H; try reflexivity; discriminate H. }
  split.
  - rewrite Hcaps. split.
    + intros H. apply (f_equal (@List.length capture)) in H.
      rewrite length_app in H.
      destruct (frame_captures st data wrap ts); [reflexivity|].
      cbn [List.length] in H. lia.
    + intros ->. apply app_nil_r.
  - intros H. rewrite (Htext H). apply string_app_empty.
Qed.

(** X24: [insta_textbox] is raised only when a textbox appears.  From a
    state in which the flag is clear, the flag is set after a frame exactly
    when the previous code is NONE, the frame is classified OPEN or
    LARGE_TEXT, its textbox is not empty, and more than three characters
    are recognised on it. *)
Theorem insta_textbox_raised :
  forall (st : decoder) (data : buffer) (wrap : Z) (ts : rectangle_coords),
    insta_textbox st = false ->
    (insta_textbox (decode_frame read_text st data wrap ts) = true
     <-> old_textbox st = NONE
         /\ is_open (textbox data wrap ts) = true
         /\ empty_textbox data wrap ts = false
         /\ 3 < Z.of_nat (String.length
                            (read_text (save_textbox data wrap ts)))).
Proof.
  intros st data wrap ts Hinsta.
  destruct (old_textbox st =? 0) eqn:Hnone.
  - apply Z.eqb_eq in Hnone.
    destruct (is_open (textbox data wrap ts)) eqn:Hnew.
    + rewrite (decode_frame_opens read_text st data wrap ts Hnone Hnew).
      unfold capture_current.
      destruct st as [old insta second history out caps].
      cbn [insta_textbox] in Hinsta. subst insta.
      destruct (empty_textbox data wrap ts);
        [|destruct (Z.ltb_spec 3 (Z.of_nat (String.length
                     (read_text (save_textbox data wrap ts)))))];
        cbn; split; try (intros E; discriminate E);
        try (intros (_ & _ & E & _); discriminate E);
        try (intros (_ & _ & _ & E); lia); auto.
    + split; [|intros (_ & H & _); discriminate H].
      unfold decode_frame, transition. rewrite Hnone, Hnew. cbn [Z.eqb].
      destruct (textbox data wrap ts =? 0);
        cbn [end_of_frame set_insta_textbox insta_textbox];
        rewrite ?Hinsta; intros H; discriminate H.
  - split; [|intros (H & _); rewrite H in Hnone; discriminate Hnone].
    destruct (is_open (old_textbox st)) eqn:Hold.
    + rewrite (decode_frame_while_open st data wrap ts Hold). cbv zeta.
      rewrite Hinsta.
      destruct (textbox data wrap ts =? 0);
        [intros H; discriminate H|].
      destruct (is_open (textbox data wrap ts)).
      * destruct (compare_textboxes (old_frame st) data wrap ts);
          cbn [end_of_frame set_insta_textbox insta_textbox];
          rewrite ?Hinsta; intros H; discriminate H.
      * destruct (is_scroll (textbox data wrap ts)); cbn [andb negb];
          cbn [end_of_frame capture_before_scroll write_file request
               insta_textbox];
          rewrite Hinsta; intros H; discriminate H.
    + unfold decode_frame, transition. rewrite Hnone, Hold.
      destruct (is_scroll (old_textbox st)),
               (textbox data wrap ts =? 0);
        cbn [end_of_frame set_insta_textbox set_only_second_line
             insta_textbox];
        rewrite ?Hinsta; intros H; discriminate H.
Qed.

(** X25: a frame acts on the state machine only through its nine strips
    and its textbox content rectangle: two frames that hold the same bytes
    there leave, from the same state, the same code, flags, written text
    and saved images, and histories that hold the same bytes. *)
Theorem decode_frame_local :
  forall (st : decoder) (d1 d2 : buffer) (wrap : Z) (ts : rectangle_coords),
    (forall r, In r (textbox_part ts :: textbox_strips ts) ->
               agree_on wrap r d1 d2) ->
    let s1 := decode_frame read_text st d1 wrap ts in
    let s2 := decode_frame read_text st d2 wrap ts in
    old_textbox s1 = old_textbox s2
    /\ insta_textbox s1 = insta_textbox s2
    /\ only_second_line s1 = only_second_line s2
    /\ file s1 = file s2
    /\ captures s1 = captures s2
    /\ (forall a, old_frame s1 a = old_frame s2 a).
Proof.
  intros st d1 d2 wrap ts H s1 s2. subst s1 s2.
  assert (Hp : agree_on wrap (textbox_part ts) d1 d2)
    by (apply H; now left).
  assert (Ht : textbox d1 wrap ts = textbox d2 wrap ts).
  { unfold textbox. rewrite (textbox_trace_ext d1 d2); [reflexivity|].
    intros r Hr. apply H. now right. }
  assert (Hc : forall h, compare_textboxes h d1 wrap ts
                         = compare_textboxes h d2 wrap ts).
  { intros h. unfold compare_textboxes.
    rewrite (changed_count_ext h d1 h d2);
      [reflexivity|intros a _; reflexivity|exact Hp]. }
  assert (He : empty_textbox d1 wrap ts = empty_textbox d2 wrap ts)
    by apply white_rectangle_ext, Hp.
  assert (Hs : save_textbox d1 wrap ts = save_textbox d2 wrap ts)
    by apply save_part_ext, Hp.
  assert (Htr : forall new_textbox,
             transition read_text st d1 wrap ts new_textbox
             = transition read_text st d2 wrap ts new_textbox).
  { intros new_textbox. unfold transition, capture_current. cbv zeta.
    rewrite !Hc, He, Hs. reflexivity. }
  unfold decode_frame. rewrite Ht, Htr.
  cbn [end_of_frame old_textbox insta_textbox only_second_line file captures
       old_frame].
  do 5 (split; [reflexivity|]).
  intros a.
  set (h := old_frame _).
  destruct (copy_data_cases h d1 wrap ts a) as [[Hin ->]|[Hout ->]];
    destruct (copy_data_cases h d2 wrap ts a) as [[Hin' ->]|[Hout' ->]];
    try contradiction; [apply Hp, Hin|reflexivity].
Qed.

(** The state after one frame is consistent, whatever the state before. *)
Lemma decode_frame_consistent st data wrap ts :
  consistent (decode_frame read_text st data wrap ts).
Proof.
  unfold consistent, decode_frame.
  cbn [end_of_frame old_textbox insta_textbox]. split.
  - apply textbox_range.
  - intros E. rewrite E. reflexivity.
Qed.

(** X26: an invariant of the runs: from a state in which the previous code
    is one of the six codes and [insta_textbox] is set only while a textbox
    is on screen, such as the initial state, every run of [decode] ends in
    such a state. *)
Theorem decode_consistent :
  forall (width height wrap : Z) (frames : list buffer) (st : decoder),
    consistent st ->
    consistent (decode read_text width height wrap frames st).
Proof.
  intros width height wrap frames. unfold decode.
  induction frames as [|data frames IH]; intros st H; [exact H|].
  cbn [fold_left]. apply IH, decode_frame_consistent.
Qed.

(** X27: the history after a run.  After a run of [decode] that ends with
    the frame [data], the previous code is the code of [data], the history
    holds the bytes of [data] in the textbox content rectangle, and every
    other byte of the history is what it was before the run: no frame ever
    writes outside the rectangle. *)
Theorem decode_history :
  forall (width height wrap : Z) (frames : list buffer) (data : buffer)
         (st : decoder),
    let ts := top_screen_coords width height in
    let st' := decode read_text width height wrap (frames ++ [data]) st in
    old_textbox st' = textbox data wrap ts
    /\ (forall a, in_rectangle wrap (textbox_part ts) a ->
                  old_frame st' a = data a)
    /\ (forall a, ~ in_rectangle wrap (textbox_part ts) a ->
                  old_frame st' a = old_frame st a).
Proof.
  intros width height wrap frames data st ts st'. subst st'.
  unfold decode. rewrite fold_left_app. cbn [fold_left]. fold ts.
  set (before := fold_left _ frames st).
  destruct (decode_frame_output before data wrap ts) as (_ & _ & Hf & Ho).
  split; [exact Ho|]. rewrite Hf. split.
  - intros a Ha. apply copy_data_agrees, Ha.
  - intros a Ha.
    destruct (copy_data_cases (old_frame before) data wrap ts a)
      as [[Hin _]|[_ ->]]; [contradiction|].
    subst before. clear Hf Ho. revert st.
    induction frames as [|d frames IH]; intros st; [reflexivity|].
    cbn [fold_left]. rewrite IH.
    destruct (decode_frame_output st d wrap ts) as (_ & _ & -> & _).
    destruct (copy_data_cases (old_frame st) d wrap ts a)
      as [[Hin _]|[_ ->]]; [contradiction|reflexivity].
Qed.

(** X28: the output of a run only grows.  A run of [decode] appends to the
    text written and to the list of saved images, and changes nothing that
    was there before; it saves at most two images per frame. *)
Theorem decode_appends :
  forall (width height wrap : Z) (frames : list buffer) (st : decoder),
    let st' := decode read_text width height wrap frames st in
    exists (saved : list capture) (text : string),
      captures st' = captures st ++ saved
      /\ file st' = (file st ++ text)%string
      /\ (List.length saved <= 2 * List.length frames)%nat.
Proof.
  intros width height wrap frames st st'. subst st'. unfold decode.
  set (ts := top_screen_coords width height).
  revert st. induction frames as [|data frames IH]; intros st.
  - exists [], EmptyString. cbn. now rewrite app_nil_r, string_app_empty.
  - cbn [fold_left].
    destruct (IH (decode_frame read_text st data wrap ts))
      as (saved & text & Hc & Hf & Hn).
    destruct (decode_frame_output st data wrap ts) as (Hc1 & Hf1 & _).
    exists (frame_captures st data wrap ts ++ saved),
           (frame_text read_text st data wrap ts ++ text)%string.
    rewrite Hc, Hf, Hc1, Hf1, <- app_assoc, string_app_assoc.
    split; [reflexivity|]. split; [reflexivity|].
    rewrite length_app. cbn [List.length].
    assert (List.length (frame_captures st data wrap ts) <= 2)%nat.
    { unfold frame_captures.
      repeat match goal with
             | |- context [if ?b then _ else _] => destruct b
             end; cbn; lia. }
    lia.
Qed.

End Transitions.

(** A textbox appears with text on its first frame. *)
Lemma textbox_appears_witness :
  let st' := decode_frame hello (initial black) typed small_wrap
                          small_screen in
  captures st'
  = captures (initial black)
    ++ [current_capture typed small_wrap small_screen]
  /\ file st' = file (initial black)
  /\ only_second_line st' = only_second_line (initial black)
  /\ insta_textbox st'
     = (if empty_textbox typed small_wrap small_screen then false
        else if 3 <? Z.of_nat (String.length
                                 (hello (save_textbox typed small_wrap
                                                      small_screen)))
             then true else insta_textbox (initial black)).
Proof.
  apply (textbox_appears hello (initial black) typed small_wrap small_screen);
    [reflexivity | rewrite textbox_typed; reflexivity].
Defined.

(** The history is white and the frame shows an empty textbox. *)
Lemma textbox_unchanged_witness :
  decode_frame hello (open_state false false white) opened small_wrap
               small_screen
  = end_of_frame (open_state false false white) opened small_wrap
                 small_screen (textbox opened small_wrap small_screen).
Proof.
  apply (textbox_unchanged hello (open_state false false white) opened
           small_wrap small_screen);
    [reflexivity | rewrite textbox_opened; reflexivity
    | vm_compute; reflexivity].
Defined.

(** A textbox closes while its second line is pending. *)
Lemma textbox_closes_witness :
  let st := open_state false true white in
  let st' := decode_frame no_text st black small_wrap small_screen in
  let shown := previous_capture st small_wrap small_screen in
  captures st' = captures st ++ [shown]
  /\ file st' = (file st ++ no_text (captured_image shown) ++ endl)%string
  /\ only_second_line st' = false
  /\ insta_textbox st' = false.
Proof.
  apply (textbox_closes no_text (open_state false true white) black
           small_wrap small_screen);
    [reflexivity | reflexivity | exact textbox_black].
Defined.

(** The history is black and the frame shows an empty textbox. *)
Lemma text_changes_while_open_witness :
  let st := open_state false false black in
  let st' := decode_frame hello st opened small_wrap small_screen in
  let shown := previous_capture st small_wrap small_screen in
  captures st'
  = captures st ++ [shown; current_capture opened small_wrap small_screen]
  /\ file st' = (file st ++ hello (captured_image shown) ++ endl)%string
  /\ only_second_line st' = false
  /\ insta_textbox st' = false.
Proof.
  apply (text_changes_while_open hello (open_state false false black) opened
           small_wrap small_screen);
    [reflexivity | reflexivity | rewrite textbox_opened; reflexivity
    | vm_compute; reflexivity].
Defined.

Lemma instant_change_swallowed_witness :
  let st := open_state true false black in
  let st' := decode_frame hello st opened small_wrap small_screen in
  captures st' = captures st
  /\ file st' = file st
  /\ only_second_line st' = only_second_line st
  /\ insta_textbox st' = false.
Proof.
  apply (instant_change_swallowed hello (open_state true false black) opened
           small_wrap small_screen);
    [reflexivity | reflexivity | rewrite textbox_opened; reflexivity
    | vm_compute; reflexivity].
Defined.

Lemma insta_textbox_raised_witness :
  insta_textbox (decode_frame hello (initial black) typed small_wrap
                              small_screen) = true
  <-> old_textbox (initial black) = NONE
      /\ is_open (textbox typed small_wrap small_screen) = true
      /\ empty_textbox typed small_wrap small_screen = false
      /\ 3 < Z.of_nat (String.length
                         (hello (save_textbox typed small_wrap small_screen))).
Proof.
  apply (insta_textbox_raised hello (initial black) typed small_wrap
           small_screen).
  reflexivity.
Defined.

(** The frames [black] and [corner] differ in the first pixel only. *)
Lemma decode_frame_local_witness :
  let s1 := decode_frame hello (initial white) black small_wrap small_screen in
  let s2 := decode_frame hello (initial white) corner small_wrap small_screen in
  old_textbox s1 = old_textbox s2
  /\ insta_textbox s1 = insta_textbox s2
  /\ only_second_line s1 = only_second_line s2
  /\ file s1 = file s2
  /\ captures s1 = captures s2
  /\ (forall a, old_frame s1 a = old_frame s2 a).
Proof.
  apply (decode_frame_local hello (initial white) black corner small_wrap
           small_screen).
  intros r Hr a Ha. apply (strips_below_corner r a Hr Ha).
Defined.

Lemma decode_consistent_witness :
  consistent (decode hello 341 192 small_wrap [typed; scrolling]
                     (initial black)).
Proof.
  apply (decode_consistent hello 341 192 small_wrap [typed; scrolling]
           (initial black)).
  split; [cbn; lia|reflexivity].
Defined.
